(** * The content-evolution engine of [self_evolution_agent.py]

    A shallow embedding of the generate / judge / merge / decide loop
    ([VariantGenerator], [LLMJudgeEvaluator], [VariantMerger],
    [SelfEvolutionAgent]) and the properties its specification states.

    Conventions of the embedding:
    - a Python [float] is an exact rational ([Q]); a Python [int] is [Z];
    - a Python [str] is a [string] (one [ascii] per character; [lower]
      touches the letters [A]-[Z] only);
    - a [dict] whose iteration order is observable is an association list
      in insertion order;
    - a raised exception is the [Raise] outcome of a computation that also
      returns the state reached so far, so that an [except] clause sees
      every mutation made before the failure;
    - a [ContentVariant] that is mutated after its creation lives in a
      heap and is passed around by reference;
    - the clock, the random generator, MD5, float formatting and the
      generation oracle are supplied by an environment [Env]; [source_env]
      is the instance whose oracle is the six [_simulate_*] strategies of
      the source, [failing_env] the one whose oracle always raises. *)

From Equations Require Import Equations.
From Stdlib Require Import List Arith Lia String Ascii ZArith QArith Bool.
From Stdlib Require Import Qround Qabs Lqa Sorted DecimalString.
Import ListNotations.
Close Scope Q_scope.
Open Scope string_scope.

Set Implicit Arguments.

(* ================================================================== *)
(** ** Python strings *)
(* ================================================================== *)

Module PyStr.

Definition LF : string := String (ascii_of_nat 10) "".

(** The literal ['\n\n'], the section delimiter of the merger. *)
Definition LFLF : string := LF ++ LF.

(** [s[n:]] for [0 <= n]. *)
Fixpoint drop (n : nat) (s : string) : string :=
  match n, s with
  | O, _ => s
  | S _, EmptyString => EmptyString
  | S k, String _ s' => drop k s'
  end.

(** [s[:n]] for [0 <= n]. *)
Fixpoint take (n : nat) (s : string) : string :=
  match n, s with
  | O, _ => EmptyString
  | S _, EmptyString => EmptyString
  | S k, String c s' => String c (take k s')
  end.

(** [sub in s]. *)
Fixpoint contains (sub s : string) : bool :=
  prefix sub s ||
  match s with
  | EmptyString => false
  | String _ s' => contains sub s'
  end.

Definition lower_ascii (c : ascii) : ascii :=
  let n := nat_of_ascii c in
  if (65 <=? n)%nat && (n <=? 90)%nat then ascii_of_nat (n + 32) else c.

(** [s.lower()]. *)
Fixpoint lower (s : string) : string :=
  match s with
  | EmptyString => EmptyString
  | String c s' => String (lower_ascii c) (lower s')
  end.

(** [any(term in s for term in terms)]. *)
Definition any_in (terms : list string) (s : string) : bool :=
  existsb (fun term => contains term s) terms.

Definition is_space (c : ascii) : bool :=
  let n := nat_of_ascii c in
  ((9 <=? n)%nat && (n <=? 13)%nat) || ((28 <=? n)%nat && (n <=? 32)%nat).

(** [len(s.split())]: the number of maximal runs of non-blank
    characters. *)
Fixpoint count_words_from (in_word : bool) (s : string) : nat :=
  match s with
  | EmptyString => 0
  | String c s' =>
      if is_space c then count_words_from false s'
      else if in_word then count_words_from true s'
           else S (count_words_from true s')
  end.

Definition count_words (s : string) : nat := count_words_from false s.

Fixpoint lstrip (s : string) : string :=
  match s with
  | EmptyString => EmptyString
  | String c s' => if is_space c then lstrip s' else s
  end.

Fixpoint rstrip (s : string) : string :=
  match s with
  | EmptyString => EmptyString
  | String c s' =>
      match rstrip s' with
      | EmptyString => if is_space c then EmptyString else String c ""
      | r => String c r
      end
  end.

(** [s.strip()]. *)
Definition strip (s : string) : string := lstrip (rstrip s).

(** Characters matched by the pattern [\w]: letters, digits and the
    underscore; a character outside ASCII counts as a letter. *)
Definition is_word_char (c : ascii) : bool :=
  let n := nat_of_ascii c in
  ((48 <=? n)%nat && (n <=? 57)%nat) || ((65 <=? n)%nat && (n <=? 90)%nat)
  || (n =? 95)%nat || ((97 <=? n)%nat && (n <=? 122)%nat) || (128 <=? n)%nat.

Definition flush (cur : string) : list string :=
  match cur with
  | EmptyString => []
  | _ => [cur]
  end.

(** [re.findall(r'\w+', s)]. *)
Fixpoint words_from (cur s : string) : list string :=
  match s with
  | EmptyString => flush cur
  | String c s' =>
      if is_word_char c then words_from (cur ++ String c "") s'
      else List.app (flush cur) (words_from "" s')
  end.

Definition findall_words (s : string) : list string := words_from "" s.

(** [s.split(sep)] for a non-empty [sep], scanning from the left: [cur]
    is the piece being read.  (Python raises [ValueError] on an empty
    separator; the engine only splits on literals.) *)
Equations? split_from (sep cur s : string) : list string
  by wf (String.length s) lt :=
  split_from sep cur EmptyString := [cur];
  split_from sep cur (String c s') with prefix sep (String c s') := {
    | true := cur :: split_from sep "" (drop (pred (String.length sep)) s');
    | false := split_from sep (cur ++ String c "") s' }.
Proof.
  assert (Hdrop : forall n t, String.length (drop n t) <= String.length t)
    by (induction n; intros [|? ?]; simpl; auto with arith).
  specialize (Hdrop (pred (String.length sep)) s'). lia.
Qed.

Definition split (sep s : string) : list string := split_from sep "" s.

(** [sep.join(parts)]. *)
Fixpoint join (sep : string) (parts : list string) : string :=
  match parts with
  | [] => ""
  | [p] => p
  | p :: rest => p ++ sep ++ join sep rest
  end.

(** [s.replace(old, new)] for a non-empty [old]: every occurrence, from
    the left. *)
Definition replace (old new s : string) : string := join new (split old s).

(** [s.replace(old, new, 1)] for a non-empty [old]: the first occurrence
    only. *)
Fixpoint replace_first (old new s : string) : string :=
  if prefix old s then new ++ drop (String.length old) s
  else match s with
       | EmptyString => EmptyString
       | String c s' => String c (replace_first old new s')
       end.

End PyStr.

(* ================================================================== *)
(** ** Numbers *)
(* ================================================================== *)

Definition Qltb (x y : Q) : bool := negb (Qle_bool y x).

(** Python's two-argument [min] and [max] keep the first argument unless
    the second is strictly better. *)
Definition py_min (a b : Q) : Q := if Qltb b a then b else a.
Definition py_max (a b : Q) : Q := if Qltb a b then b else a.

(** [int(x)] on a float: truncation towards zero. *)
Definition py_int (x : Q) : Z := Z.quot (Qnum x) (Z.pos (Qden x)).

(** [str(n)] on an int. *)
Definition str_of_Z (n : Z) : string := NilZero.string_of_int (Z.to_int n).

(** [sum(xs)]: starts from [0] and adds from the left. *)
Definition py_sum (xs : list Q) : Q := fold_left Qplus xs 0%Q.

(** [max(xs)] and [min(xs)] on a non-empty list: the first extremal
    element. *)
Definition max_of (x : Q) (xs : list Q) : Q := fold_left py_max xs x.
Definition min_of (x : Q) (xs : list Q) : Q := fold_left py_min xs x.

(** [xs[:stop]] for any integer [stop]. *)
Definition slice_to {A : Type} (stop : Z) (xs : list A) : list A :=
  let n := Z.of_nat (List.length xs) in
  let i := if (stop <? 0)%Z then Z.max 0 (n + stop) else Z.min stop n in
  firstn (Z.to_nat i) xs.

(** [max(xs, key=key)] on a non-empty list: the first element whose key
    is maximal. *)
Definition max_by {A : Type} (key : A -> Q) (x : A) (xs : list A) : A :=
  fold_left (fun best y => if Qltb (key best) (key y) then y else best) xs x.

(** [xs[start:]] for any integer [start]: a negative index counts from
    the end and every index is clipped to the list. *)
Definition slice_from {A : Type} (start : Z) (xs : list A) : list A :=
  let n := Z.of_nat (List.length xs) in
  let i := if (start <? 0)%Z then Z.max 0 (n + start) else Z.min start n in
  skipn (Z.to_nat i) xs.

(* ================================================================== *)
(** ** Exceptions and outcomes *)
(* ================================================================== *)

Inductive exn : Type :=
| ValueError (msg : string)
| AttributeError (msg : string)
| KeyError (msg : string)
| ZeroDivisionError (msg : string)
| StopIteration
| IndexError (msg : string)
| ReferenceError (msg : string)
| OracleError (msg : string).

(** [str(e)]. *)
Definition str_of_exn (e : exn) : string :=
  match e with
  | ValueError m | AttributeError m | KeyError m
  | ZeroDivisionError m | IndexError m | ReferenceError m
  | OracleError m => m
  | StopIteration => ""
  end.

Inductive result (A : Type) : Type :=
| Ok (a : A)
| Raise (e : exn).
Arguments Raise {A} e.

(* ================================================================== *)
(** ** Dictionaries in insertion order *)
(* ================================================================== *)

Definition dict (V : Type) : Type := list (string * V).

Fixpoint dict_get {V : Type} (k : string) (d : dict V) : option V :=
  match d with
  | [] => None
  | (k', v) :: d' => if String.eqb k k' then Some v else dict_get k d'
  end.

(** [d[k] = v]: an existing key keeps its position. *)
Fixpoint dict_set {V : Type} (k : string) (v : V) (d : dict V) : dict V :=
  match d with
  | [] => [(k, v)]
  | (k', v') :: d' =>
      if String.eqb k k' then (k, v) :: d' else (k', v') :: dict_set k v d'
  end.

(** [{key(x): val(x) for x in xs}]. *)
Definition dict_of {A V : Type} (key : A -> string) (val : A -> V)
  (xs : list A) : dict V :=
  fold_left (fun d x => dict_set (key x) (val x) d) xs [].

(* ================================================================== *)
(** ** Data model *)
(* ================================================================== *)

Inductive VariantType : Type :=
| PERSPECTIVE_SHIFT
| STRUCTURE_REORGANIZATION
| DEPTH_ENHANCEMENT
| BREADTH_EXPANSION
| CRITICAL_ANALYSIS
| SYNTHESIS_INTEGRATION.

Definition VariantType_name (t : VariantType) : string :=
  match t with
  | PERSPECTIVE_SHIFT => "PERSPECTIVE_SHIFT"
  | STRUCTURE_REORGANIZATION => "STRUCTURE_REORGANIZATION"
  | DEPTH_ENHANCEMENT => "DEPTH_ENHANCEMENT"
  | BREADTH_EXPANSION => "BREADTH_EXPANSION"
  | CRITICAL_ANALYSIS => "CRITICAL_ANALYSIS"
  | SYNTHESIS_INTEGRATION => "SYNTHESIS_INTEGRATION"
  end.

(** [t.value]. *)
Definition VariantType_value (t : VariantType) : string :=
  PyStr.lower (VariantType_name t).

(** [str(t)], as an f-string renders an enum member. *)
Definition VariantType_str (t : VariantType) : string :=
  "VariantType." ++ VariantType_name t.

(** [list(VariantType)]. *)
Definition all_VariantType : list VariantType :=
  [PERSPECTIVE_SHIFT; STRUCTURE_REORGANIZATION; DEPTH_ENHANCEMENT;
   BREADTH_EXPANSION; CRITICAL_ANALYSIS; SYNTHESIS_INTEGRATION].

Inductive EvaluationDimension : Type :=
| ACCURACY
| COMPLETENESS
| COHERENCE
| ORIGINALITY
| EVIDENCE_QUALITY
| LOGICAL_FLOW
| CRITICAL_THINKING
| SYNTHESIS_QUALITY.

(** [d.value]. *)
Definition EvaluationDimension_value (d : EvaluationDimension) : string :=
  match d with
  | ACCURACY => "accuracy"
  | COMPLETENESS => "completeness"
  | COHERENCE => "coherence"
  | ORIGINALITY => "originality"
  | EVIDENCE_QUALITY => "evidence_quality"
  | LOGICAL_FLOW => "logical_flow"
  | CRITICAL_THINKING => "critical_thinking"
  | SYNTHESIS_QUALITY => "synthesis_quality"
  end.

(** [for dim in EvaluationDimension]. *)
Definition all_EvaluationDimension : list EvaluationDimension :=
  [ACCURACY; COMPLETENESS; COHERENCE; ORIGINALITY; EVIDENCE_QUALITY;
   LOGICAL_FLOW; CRITICAL_THINKING; SYNTHESIS_QUALITY].

(** [SearchResult] of the iterative researcher: the fields the engine
    reads. *)
Record SearchResult : Type := {
  result_id : string;
  title : string;
  content_text : string;
  quality_score : Q;
  relevance_score : Q
}.

Record ContentRequirements : Type := {
  required_elements : list string;
  key_concepts : list string;
  evidence_types : list string
}.

(** [Section] of the research planner.  [evolve_content] accepts any
    truthy object as [target_section]; [content_requirements] is [None]
    when that object has no such attribute (reading it then raises). *)
Record Section : Type := {
  section_id : string;
  section_title : string;
  content_requirements : option ContentRequirements
}.

Record VariantGenerationRequest : Type := {
  base_content : string;
  research_results : list SearchResult;
  target_section : Section;
  variant_type : VariantType
}.

Record ContentVariant : Type := {
  variant_id : string;
  cv_variant_type : VariantType;
  content : string;
  generation_strategy : string;
  base_content_id : string;
  quality_scores : dict Q;
  improvement_rationale : string;
  generation_timestamp : string;
  tokens_generated : Z
}.

Record CritiquePoint : Type := {
  cp_critique_id : string;
  dimension : EvaluationDimension;
  severity : Z;
  issue_description : string;
  suggested_improvement : string;
  evidence_required : list string;
  priority_level : Z
}.

Record ComprehensiveCritique : Type := {
  critique_id : string;
  target_variant_id : string;
  overall_score : Q;
  dimension_scores : dict Q;
  critique_points : list CritiquePoint;
  improvement_priorities : list string;
  strengths_identified : list string;
  revision_recommendations : list string;
  cc_timestamp : string
}.

(** Address of a [ContentVariant] object in the store. *)
Definition ref : Type := nat.

Record EvolutionIteration : Type := {
  iteration_id : string;
  iteration_number : Z;
  base_variants : list string;
  generated_variants : list ref;
  critiques : list ComprehensiveCritique;
  merged_result : string;
  quality_improvement : Q;
  convergence_metrics : dict Q;
  duration_seconds : Q;
  ei_timestamp : string
}.

Record EvolutionProgress : Type := {
  evolution_id : string;
  total_iterations : Z;
  completed_iterations : Z;
  current_best_score : Q;
  score_history : list Q;
  ep_convergence_threshold : Q;
  estimated_completion : string;
  last_updated : string
}.

(** [self.config]. *)
Record Config : Type := {
  max_iterations : Z;
  max_variants_per_iteration : Z;
  convergence_threshold : Q;
  plateau_detection_window : Z;
  quality_improvement_threshold : Q;
  parallel_generation : bool
}.

(** The ['config'] entry of the input: the keys it overrides. *)
Record CustomConfig : Type := {
  cc_max_iterations : option Z;
  cc_max_variants_per_iteration : option Z;
  cc_convergence_threshold : option Q;
  cc_plateau_detection_window : option Z;
  cc_quality_improvement_threshold : option Q;
  cc_parallel_generation : option bool
}.

(** The input dictionary of [evolve_content]; [None] is an absent key. *)
Record InputData : Type := {
  in_content : option string;
  in_research_results : option (list SearchResult);
  in_target_section : option Section;
  in_config : option CustomConfig
}.

(* ================================================================== *)
(** ** The agent's state and the computations over it *)
(* ================================================================== *)

(** Everything a call can read or change: the clock and the random
    generator (how many values were consumed), the store of
    [ContentVariant] objects, and the attributes of the
    [SelfEvolutionAgent] instance. *)
Record World : Type := {
  ticks : nat;
  draws : nat;
  heap : list ContentVariant;
  tools_Task : bool;
  config : Config;
  current_evolution : option string;
  evolution_progress : option EvolutionProgress;
  evolution_history : list EvolutionIteration
}.

Definition with_ticks (n : nat) (w : World) : World :=
  {| ticks := n; draws := draws w; heap := heap w; tools_Task := tools_Task w;
     config := config w; current_evolution := current_evolution w;
     evolution_progress := evolution_progress w;
     evolution_history := evolution_history w |}.

Definition with_draws (n : nat) (w : World) : World :=
  {| ticks := ticks w; draws := n; heap := heap w; tools_Task := tools_Task w;
     config := config w; current_evolution := current_evolution w;
     evolution_progress := evolution_progress w;
     evolution_history := evolution_history w |}.

Definition with_heap (h : list ContentVariant) (w : World) : World :=
  {| ticks := ticks w; draws := draws w; heap := h; tools_Task := tools_Task w;
     config := config w; current_evolution := current_evolution w;
     evolution_progress := evolution_progress w;
     evolution_history := evolution_history w |}.

Definition with_config (c : Config) (w : World) : World :=
  {| ticks := ticks w; draws := draws w; heap := heap w;
     tools_Task := tools_Task w;
     config := c; current_evolution := current_evolution w;
     evolution_progress := evolution_progress w;
     evolution_history := evolution_history w |}.

Definition with_current_evolution (e : option string) (w : World) : World :=
  {| ticks := ticks w; draws := draws w; heap := heap w;
     tools_Task := tools_Task w;
     config := config w; current_evolution := e;
     evolution_progress := evolution_progress w;
     evolution_history := evolution_history w |}.

Definition with_evolution_progress (p : option EvolutionProgress) (w : World)
  : World :=
  {| ticks := ticks w; draws := draws w; heap := heap w;
     tools_Task := tools_Task w;
     config := config w; current_evolution := current_evolution w;
     evolution_progress := p;
     evolution_history := evolution_history w |}.

Definition with_evolution_history (h : list EvolutionIteration) (w : World)
  : World :=
  {| ticks := ticks w; draws := draws w; heap := heap w;
     tools_Task := tools_Task w;
     config := config w; current_evolution := current_evolution w;
     evolution_progress := evolution_progress w;
     evolution_history := h |}.

(** A computation: an outcome together with the state it leaves. *)
Definition M (A : Type) : Type := World -> result A * World.

Definition ret {A : Type} (a : A) : M A := fun w => (Ok a, w).

Definition raise {A : Type} (e : exn) : M A := fun w => (Raise e, w).

Definition bind {A B : Type} (c : M A) (k : A -> M B) : M B :=
  fun w =>
    match c w with
    | (Ok a, w') => k a w'
    | (Raise e, w') => (Raise e, w')
    end.

(** [try: c  except Exception as e: h e]. *)
Definition try_except {A : Type} (c : M A) (h : exn -> M A) : M A :=
  fun w =>
    match c w with
    | (Ok a, w') => (Ok a, w')
    | (Raise e, w') => h e w'
    end.

Definition get : M World := fun w => (Ok w, w).

Definition modify (f : World -> World) : M unit := fun w => (Ok tt, f w).

Definition lift {A : Type} (r : result A) : M A := fun w => (r, w).

Declare Scope py_scope.
Delimit Scope py_scope with py.
Notation "x <- c ;; k" := (bind c (fun x => k))
  (at level 61, c at next level, right associativity) : py_scope.
Notation "' pat <- c ;; k" := (bind c (fun x => match x with pat => k end))
  (at level 61, pat pattern, c at next level, right associativity) : py_scope.
Notation "c ;; k" := (bind c (fun _ => k))
  (at level 61, right associativity) : py_scope.
Open Scope py_scope.

(** [for x in xs: s = body x s], stopping at the first exception. *)
Fixpoint for_each {A S : Type} (xs : list A) (body : A -> S -> M S) (s : S)
  : M S :=
  match xs with
  | [] => ret s
  | x :: xs' => s' <- body x s ;; for_each xs' body s'
  end.

(** The environment of the engine: library calls and oracles that the
    source delegates to. *)
Record Env : Type := {
  (** [datetime.now()] at the [n]-th reading of the clock, in seconds. *)
  clock : nat -> Q;
  (** [t.isoformat()]. *)
  isoformat : Q -> string;
  (** [hashlib.md5(s.encode()).hexdigest()]. *)
  md5_hexdigest : string -> string;
  (** [f"{x:.1f}"] and [f"{x:.2f}"]. *)
  format_float : nat -> Q -> string;
  (** [str(x)] on a float. *)
  str_of_float : Q -> string;
  (** the [n]-th draw of [random.uniform(a, b)]. *)
  uniform : nat -> Q -> Q -> Q;
  (** the generation oracle, called as the entry of
      [self.generation_strategies] for a variant type; it may raise. *)
  strategy_func :
    VariantType -> VariantGenerationRequest -> result (string * string)
}.

(* ------------------------------------------------------------------ *)
(** *** VariantGenerator: the six strategies of the source *)
(* ------------------------------------------------------------------ *)

Definition _summarize_evidence (research_results : list SearchResult)
  : string :=
  match research_results with
  | [] => "No additional research evidence available."
  | _ =>
      let high_quality :=
        filter (fun r => Qltb 0.7%Q (quality_score r)) research_results in
      let medium_quality :=
        filter (fun r => Qle_bool 0.4%Q (quality_score r)
                         && Qle_bool (quality_score r) 0.7%Q)
          research_results in
      let high_part :=
        match high_quality with
        | [] => []
        | _ =>
            "High-Quality Evidence:"
            :: map (fun result =>
                      "- " ++ title result ++ ": "
                      ++ PyStr.take 200 (content_text result) ++ "...")
                 (firstn 3 high_quality)
        end in
      let medium_part :=
        match medium_quality with
        | [] => []
        | _ =>
            (PyStr.LF ++ "Supporting Evidence:")
            :: map (fun result =>
                      "- " ++ title result ++ ": "
                      ++ PyStr.take 150 (content_text result) ++ "...")
                 (firstn 2 medium_quality)
        end in
      PyStr.join PyStr.LF (List.app high_part medium_part)
  end.

Definition _simulate_perspective_shift (base_content evidence : string)
  : string :=
  let lines := PyStr.split PyStr.LF base_content in
  let transformed_lines :=
    map (fun line =>
           if negb (String.eqb (PyStr.strip line) "") then
             if prefix "The" line then
               PyStr.replace_first "The"
                 "From an alternative perspective, the" line
             else if PyStr.contains "shows" line then
               PyStr.replace "shows" "suggests from this viewpoint" line
             else if PyStr.contains "indicates" line then
               PyStr.replace "indicates" "can be interpreted as indicating"
                 line
             else line
           else line)
      lines in
  PyStr.join PyStr.LF transformed_lines
  ++ PyStr.LFLF
  ++ "This alternative analytical perspective reveals additional nuances in the evidence: "
  ++ PyStr.take 100 evidence ++ "...".

Definition _simulate_structure_reorganization (paragraphs : list string)
  (evidence : string) : string :=
  if (3 <=? List.length paragraphs)%nat then
    let reordered :=
      List.app [hd "" paragraphs]
        (List.app
           ["Research Evidence and Findings:" ++ PyStr.LF
            ++ PyStr.take 300 evidence ++ "..."]
           (List.app
              (map (fun para => "Analysis: " ++ para)
                 (removelast (tl paragraphs)))
              (if (1 <? List.length paragraphs)%nat
               then ["Synthesis and Implications:" ++ PyStr.LF
                     ++ last paragraphs ""]
               else []))) in
    PyStr.join PyStr.LFLF reordered
  else PyStr.join PyStr.LFLF paragraphs.

Definition _simulate_depth_enhancement (base_content evidence : string)
  : string :=
  let lines := PyStr.split PyStr.LF base_content in
  let enhanced_lines :=
    flat_map
      (fun line =>
         line
         :: (if PyStr.any_in ["important"; "significant"; "shows";
                              "indicates"] (PyStr.lower line)
             then ["This finding has deeper implications for understanding the underlying mechanisms and broader context. "
                   ++ PyStr.take 100 evidence ++ "..."]
             else []))
      lines in
  PyStr.join PyStr.LF enhanced_lines.

Definition _simulate_breadth_expansion (base_content evidence : string)
  : string :=
  base_content
  ++ PyStr.LFLF ++ "Broader Context and Related Domains:" ++ PyStr.LF
  ++ "The findings discussed here connect to broader trends and applications across multiple domains. "
  ++ PyStr.take 200 evidence ++ "..."
  ++ PyStr.LFLF ++ "Interdisciplinary Implications:" ++ PyStr.LF
  ++ "From multiple disciplinary perspectives, these results suggest convergent themes and cross-domain applicability.".

Definition _simulate_critical_analysis (base_content evidence : string)
  : string :=
  let lines := PyStr.split PyStr.LF base_content in
  let critical_lines :=
    List.app
      (flat_map
         (fun line =>
            line
            :: (if PyStr.any_in ["shows"; "proves"; "demonstrates"]
                     (PyStr.lower line)
                then ["However, it is important to critically evaluate this claim considering potential limitations and alternative interpretations."]
                else []))
         lines)
      [PyStr.LFLF ++ "Critical Evaluation:" ++ PyStr.LF
       ++ "A critical analysis of the evidence reveals both strengths and limitations: "
       ++ PyStr.take 150 evidence ++ "..."] in
  PyStr.join PyStr.LF critical_lines.

Definition _simulate_synthesis_integration (base_content evidence : string)
  : string :=
  base_content
  ++ PyStr.LFLF ++ "Synthesized Analysis:" ++ PyStr.LF
  ++ "Integrating multiple perspectives and evidence sources reveals emergent patterns and novel insights: "
  ++ PyStr.take 200 evidence ++ "..."
  ++ PyStr.LFLF ++ "Unified Understanding:" ++ PyStr.LF
  ++ "This synthesized view creates a more comprehensive and nuanced understanding that transcends individual perspectives.".

(** [self.generation_strategies]: the methods [_generate_*_variant], each
    returning the variant's content and its rationale.  On well-formed
    arguments they do not raise. *)
Definition generation_strategies (t : VariantType)
  (request : VariantGenerationRequest) : result (string * string) :=
  let evidence_summary := _summarize_evidence (research_results request) in
  match t with
  | PERSPECTIVE_SHIFT =>
      Ok (_simulate_perspective_shift (base_content request) evidence_summary,
          "Applied alternative analytical perspective while maintaining factual accuracy. Explored different stakeholder viewpoints and interpretations.")
  | STRUCTURE_REORGANIZATION =>
      Ok (_simulate_structure_reorganization
            (PyStr.split PyStr.LFLF (base_content request)) evidence_summary,
          "Reorganized content structure for improved logical flow and coherence. Enhanced paragraph transitions and overall readability.")
  | DEPTH_ENHANCEMENT =>
      Ok (_simulate_depth_enhancement (base_content request) evidence_summary,
          "Enhanced analytical depth with more detailed explanations, stronger causal reasoning, and nuanced interpretations.")
  | BREADTH_EXPANSION =>
      Ok (_simulate_breadth_expansion (base_content request) evidence_summary,
          "Expanded content scope with broader contextual information, parallel examples, and interdisciplinary perspectives.")
  | CRITICAL_ANALYSIS =>
      Ok (_simulate_critical_analysis (base_content request) evidence_summary,
          "Applied critical evaluation to all claims, addressed counterarguments, and strengthened evidence-based reasoning.")
  | SYNTHESIS_INTEGRATION =>
      Ok (_simulate_synthesis_integration (base_content request)
            evidence_summary,
          "Integrated multiple perspectives and sources into coherent narrative with novel connections and unified understanding.")
  end.

Section Engine.

Variable E : Env.

(** [datetime.now()]. *)
Definition datetime_now : M Q :=
  fun w => (Ok (clock E (ticks w)), with_ticks (S (ticks w)) w).

(** [datetime.now().isoformat()]. *)
Definition now_isoformat : M string :=
  t <- datetime_now ;; ret (isoformat E t).

(** [random.uniform(a, b)]. *)
Definition random_uniform (a b : Q) : M Q :=
  fun w => (Ok (uniform E (draws w) a b), with_draws (S (draws w)) w).

(** [hashlib.md5(s.encode()).hexdigest()[:n]]. *)
Definition md5_prefix (n : nat) (s : string) : string :=
  PyStr.take n (md5_hexdigest E s).

(** Creating a [ContentVariant] object. *)
Definition alloc (v : ContentVariant) : M ref :=
  fun w => (Ok (List.length (heap w)), with_heap (heap w ++ [v]) w).

Definition with_quality_scores (scores : dict Q) (v : ContentVariant)
  : ContentVariant :=
  {| variant_id := variant_id v;
     cv_variant_type := cv_variant_type v;
     content := content v;
     generation_strategy := generation_strategy v;
     base_content_id := base_content_id v;
     quality_scores := scores;
     improvement_rationale := improvement_rationale v;
     generation_timestamp := generation_timestamp v;
     tokens_generated := tokens_generated v |}.

Fixpoint heap_update (r : ref) (f : ContentVariant -> ContentVariant)
  (h : list ContentVariant) : list ContentVariant :=
  match h, r with
  | [], _ => []
  | v :: h', O => f v :: h'
  | v :: h', S r' => v :: heap_update r' f h'
  end.

(** [obj.quality_scores = scores] on the object behind a reference. *)
Definition set_quality_scores (r : ref) (scores : dict Q) : M unit :=
  modify
    (fun w => with_heap (heap_update r (with_quality_scores scores) (heap w)) w).

(** Reading the object behind a reference. *)
Definition deref (r : ref) : M ContentVariant :=
  fun w =>
    match nth_error (heap w) r with
    | Some v => (Ok v, w)
    | None => (Raise (ReferenceError "dangling reference"), w)
    end.

(* ------------------------------------------------------------------ *)
(** *** VariantGenerator *)
(* ------------------------------------------------------------------ *)

Definition _create_fallback_variant (request : VariantGenerationRequest)
  : M ContentVariant :=
  t_id <- now_isoformat ;;
  let variant_id := md5_prefix 12 ("fallback_" ++ t_id) in
  t_gen <- now_isoformat ;;
  ret {| variant_id := variant_id;
         cv_variant_type := variant_type request;
         content := base_content request;
         generation_strategy := "fallback";
         base_content_id := md5_prefix 12 (base_content request);
         quality_scores := [("overall", 0.5%Q)];
         improvement_rationale := "Fallback variant due to generation failure";
         generation_timestamp := t_gen;
         tokens_generated :=
           Z.of_nat (PyStr.count_words (base_content request)) |}.

Definition generate_variant (request : VariantGenerationRequest)
  : M ContentVariant :=
  try_except
    (generation_start <- datetime_now ;;
     '(variant_content, rationale) <-
        lift (strategy_func E (variant_type request) request) ;;
     t_id <- now_isoformat ;;
     let variant_id :=
       md5_prefix 12 (base_content request ++ "_"
                      ++ VariantType_str (variant_type request) ++ "_" ++ t_id) in
     t_end <- datetime_now ;;
     let duration := (t_end - generation_start)%Q in
     t_gen <- now_isoformat ;;
     ret {| variant_id := variant_id;
            cv_variant_type := variant_type request;
            content := variant_content;
            generation_strategy :=
              "task_tool_" ++ VariantType_value (variant_type request);
            base_content_id := md5_prefix 12 (base_content request);
            quality_scores := [];
            improvement_rationale := rationale;
            generation_timestamp := t_gen;
            tokens_generated :=
              Z.of_nat (PyStr.count_words variant_content) |})
    (fun _ => _create_fallback_variant request).

(* ------------------------------------------------------------------ *)
(** *** LLMJudgeEvaluator *)
(* ------------------------------------------------------------------ *)

Record Criteria : Type := {
  weight : Q;
  description : string;
  rubric : list (Z * string)
}.

(** [self.evaluation_criteria], in insertion order. *)
Definition evaluation_criteria : list (EvaluationDimension * Criteria) :=
  [ (ACCURACY,
     {| weight := 0.2%Q;
        description := "Factual correctness and evidence alignment";
        rubric :=
          [ (5%Z, "All facts accurate, evidence properly cited");
            (4%Z, "Mostly accurate with minor factual issues");
            (3%Z, "Generally accurate with some questionable claims");
            (2%Z, "Multiple factual errors or unsupported claims");
            (1%Z, "Significant inaccuracies or misleading information") ] |});
    (COMPLETENESS,
     {| weight := 0.15%Q;
        description := "Coverage of required topics and aspects";
        rubric :=
          [ (5%Z, "Comprehensive coverage of all required aspects");
            (4%Z, "Good coverage with minor gaps");
            (3%Z, "Adequate coverage with some missing elements");
            (2%Z, "Incomplete coverage with significant gaps");
            (1%Z, "Major aspects missing or superficial treatment") ] |});
    (COHERENCE,
     {| weight := 0.15%Q;
        description := "Logical flow and structural organization";
        rubric :=
          [ (5%Z, "Excellent logical flow with clear connections");
            (4%Z, "Good organization with minor flow issues");
            (3%Z, "Adequate structure with some logical gaps");
            (2%Z, "Poor organization with confusing flow");
            (1%Z, "Incoherent structure and illogical progression") ] |});
    (ORIGINALITY,
     {| weight := 0.1%Q;
        description := "Novel insights and creative analysis";
        rubric :=
          [ (5%Z, "Highly original insights and creative synthesis");
            (4%Z, "Good original thinking with fresh perspectives");
            (3%Z, "Some original elements and unique viewpoints");
            (2%Z, "Limited originality, mostly standard analysis");
            (1%Z, "No original thinking, entirely conventional") ] |});
    (EVIDENCE_QUALITY,
     {| weight := 0.15%Q;
        description := "Quality and integration of supporting evidence";
        rubric :=
          [ (5%Z, "High-quality evidence expertly integrated");
            (4%Z, "Good evidence with effective integration");
            (3%Z, "Adequate evidence with decent integration");
            (2%Z, "Weak evidence or poor integration");
            (1%Z, "Insufficient or irrelevant evidence") ] |});
    (LOGICAL_FLOW,
     {| weight := 0.1%Q;
        description := "Reasoning quality and argumentative structure";
        rubric :=
          [ (5%Z, "Exceptional reasoning with strong arguments");
            (4%Z, "Good logical reasoning with solid arguments");
            (3%Z, "Adequate reasoning with acceptable logic");
            (2%Z, "Weak reasoning with logical flaws");
            (1%Z, "Poor reasoning with major logical errors") ] |});
    (CRITICAL_THINKING,
     {| weight := 0.1%Q;
        description := "Critical analysis and evaluation depth";
        rubric :=
          [ (5%Z, "Exceptional critical analysis and evaluation");
            (4%Z, "Good critical thinking with thoughtful analysis");
            (3%Z, "Adequate critical evaluation");
            (2%Z, "Limited critical thinking");
            (1%Z, "Lacks critical analysis or evaluation") ] |});
    (SYNTHESIS_QUALITY,
     {| weight := 0.05%Q;
        description := "Integration of multiple perspectives and sources";
        rubric :=
          [ (5%Z, "Masterful synthesis of diverse perspectives");
            (4%Z, "Good integration of multiple viewpoints");
            (3%Z, "Adequate synthesis with some integration");
            (2%Z, "Limited synthesis or integration");
            (1%Z, "No meaningful synthesis or integration") ] |}) ].

(** [len([r for r in evidence if r.quality_score > 0.7])]. *)
Definition count_high_quality (evidence : list SearchResult) : Z :=
  Z.of_nat
    (List.length (filter (fun r => Qltb 0.7%Q (quality_score r)) evidence)).

Definition _calculate_dimension_score (content : string)
  (dimension : EvaluationDimension) (criteria : Criteria)
  (target_section : Section) (evidence : list SearchResult) : M Q :=
  let base_score := 3.0%Q in
  base_score <-
    match dimension with
    | ACCURACY =>
        let b1 :=
          if PyStr.any_in ["research shows"; "study found"; "data indicates"]
               (PyStr.lower content)
          then (base_score + 0.5)%Q else base_score in
        let b2 :=
          if PyStr.any_in ["according to"; "evidence suggests"]
               (PyStr.lower content)
          then (b1 + 0.3)%Q else b1 in
        let b3 :=
          if (2 <? count_high_quality evidence)%Z
          then (b2 + 0.2)%Q else b2 in
        ret b3
    | COMPLETENESS =>
        match content_requirements target_section with
        | None =>
            raise (AttributeError
                     "object has no attribute 'content_requirements'")
        | Some requirements =>
            let required_elements := required_elements requirements in
            let covered_elements :=
              Z.of_nat
                (List.length
                   (filter
                      (fun elem =>
                         PyStr.contains (PyStr.lower elem)
                           (PyStr.lower content))
                      required_elements)) in
            let coverage_ratio :=
              (inject_Z covered_elements
               / inject_Z
                   (Z.max (Z.of_nat (List.length required_elements)) 1))%Q in
            ret (1.0 + coverage_ratio * 4.0)%Q
        end
    | COHERENCE =>
        let paragraphs := PyStr.split PyStr.LFLF content in
        let b1 :=
          if (3 <=? List.length paragraphs)%nat
          then (base_score + 0.5)%Q else base_score in
        let b2 :=
          if PyStr.any_in ["therefore"; "however"; "furthermore";
                           "consequently"] (PyStr.lower content)
          then (b1 + 0.3)%Q else b1 in
        ret b2
    | EVIDENCE_QUALITY =>
        let high_quality_evidence := count_high_quality evidence in
        ret (1.0
             + py_min (inject_Z high_quality_evidence / 3.0) 1.0 * 4.0)%Q
    | _ => ret base_score
    end ;;
  noise <- random_uniform (-0.2)%Q 0.2%Q ;;
  ret (py_max 1.0%Q (py_min 5.0%Q (base_score + noise)%Q)).

Definition _get_improvement_suggestion (dimension : EvaluationDimension)
  (score : Q) : string :=
  match dimension with
  | ACCURACY =>
      "Strengthen factual claims with additional evidence and citations"
  | COMPLETENESS => "Address missing required elements and expand coverage"
  | COHERENCE => "Improve logical flow and paragraph transitions"
  | ORIGINALITY => "Add unique insights and creative analytical perspectives"
  | EVIDENCE_QUALITY => "Integrate higher-quality sources and evidence"
  | LOGICAL_FLOW => "Strengthen reasoning and argumentative structure"
  | CRITICAL_THINKING =>
      "Add critical evaluation and alternative perspectives"
  | SYNTHESIS_QUALITY => "Better integrate multiple sources and viewpoints"
  end.

Definition _get_evidence_requirements (dimension : EvaluationDimension)
  : list string :=
  match dimension with
  | ACCURACY =>
      ["peer-reviewed sources"; "recent data"; "authoritative references"]
  | COMPLETENESS =>
      ["comprehensive coverage"; "additional perspectives";
       "missing elements"]
  | COHERENCE => ["clear transitions"; "logical structure"; "topic sentences"]
  | EVIDENCE_QUALITY =>
      ["high-impact sources"; "primary research"; "expert opinions"]
  | _ => ["general supporting evidence"]
  end.

Definition _generate_dimension_critique_points (content : string)
  (dimension : EvaluationDimension) (score : Q) (criteria : Criteria)
  : M (list CritiquePoint) :=
  let critique_points : list CritiquePoint := [] in
  if Qltb score 3.0%Q then
    t <- now_isoformat ;;
    let critique_id :=
      md5_prefix 8 (EvaluationDimension_value dimension ++ "_" ++ t) in
    let point :=
      {| cp_critique_id := critique_id;
         dimension := dimension;
         severity := py_int (4 - score)%Q;
         issue_description :=
           "Score " ++ format_float E 1 score ++ "/5.0 for "
           ++ description criteria;
         suggested_improvement := _get_improvement_suggestion dimension score;
         evidence_required := _get_evidence_requirements dimension;
         priority_level := py_int (4 - score)%Q |} in
    ret (critique_points ++ [point])%list
  else ret critique_points.

Definition _evaluate_dimension (content : string)
  (dimension : EvaluationDimension) (criteria : Criteria)
  (target_section : Section) (evidence : list SearchResult)
  : M (Q * list CritiquePoint) :=
  score <- _calculate_dimension_score content dimension criteria
             target_section evidence ;;
  critique_points <- _generate_dimension_critique_points content dimension
                       score criteria ;;
  ret (score, critique_points).

(** [sorted(xs, key=key)]: stable, ascending. *)
Fixpoint insert_asc {A : Type} (key : A -> Q) (x : A) (xs : list A) : list A :=
  match xs with
  | [] => [x]
  | y :: xs' =>
      if Qltb (key x) (key y) then x :: y :: xs'
      else y :: insert_asc key x xs'
  end.

Definition sorted_asc {A : Type} (key : A -> Q) (xs : list A) : list A :=
  fold_left (fun acc x => insert_asc key x acc) xs [].

(** [sorted(xs, key=key, reverse=True)]: stable, descending. *)
Fixpoint insert_desc {A : Type} (key : A -> Q) (x : A) (xs : list A)
  : list A :=
  match xs with
  | [] => [x]
  | y :: xs' =>
      if Qltb (key y) (key x) then x :: y :: xs'
      else y :: insert_desc key x xs'
  end.

Definition sorted_desc {A : Type} (key : A -> Q) (xs : list A) : list A :=
  fold_left (fun acc x => insert_desc key x acc) xs [].

Definition _generate_improvement_priorities (dimension_scores : dict Q)
  : list string :=
  let sorted_dimensions := sorted_asc snd dimension_scores in
  flat_map
    (fun '(dimension, score) =>
       if Qltb score 3.5%Q
       then ["Improve " ++ dimension ++ " (current: "
             ++ format_float E 1 score ++ "/5.0)"]
       else [])
    (firstn 3 sorted_dimensions).

Definition _identify_strengths (dimension_scores : dict Q) : list string :=
  flat_map
    (fun '(dimension, score) =>
       if Qle_bool 4.0%Q score
       then ["Strong " ++ dimension ++ " (score: "
             ++ format_float E 1 score ++ "/5.0)"]
       else [])
    dimension_scores.

Definition _generate_revision_recommendations
  (critique_points : list CritiquePoint) : list string :=
  let high_priority :=
    filter (fun cp => (4 <=? priority_level cp)%Z) critique_points in
  let medium_priority :=
    filter (fun cp => (priority_level cp =? 3)%Z) critique_points in
  List.app
    (map (fun cp => "HIGH PRIORITY: " ++ suggested_improvement cp)
       high_priority)
    (map (fun cp => "MEDIUM PRIORITY: " ++ suggested_improvement cp)
       (firstn 2 medium_priority)).

Definition _create_fallback_critique (variant : ContentVariant)
  : M ComprehensiveCritique :=
  let critique_id := md5_prefix 12 ("fallback_" ++ variant_id variant) in
  let dimension_scores :=
    dict_of EvaluationDimension_value (fun _ => 3.0%Q)
      all_EvaluationDimension in
  t <- now_isoformat ;;
  ret {| critique_id := critique_id;
         target_variant_id := variant_id variant;
         overall_score := 3.0%Q;
         dimension_scores := dimension_scores;
         critique_points := [];
         improvement_priorities := ["General improvement needed"];
         strengths_identified := ["Content generated successfully"];
         revision_recommendations := ["Review and refine content"];
         cc_timestamp := t |}.

(** The body of the [try] block of [evaluate_variant]. *)
Definition evaluate_variant_body (variant : ContentVariant)
  (target_section : Section) (research_evidence : list SearchResult)
  : M ComprehensiveCritique :=
  evaluation_start <- datetime_now ;;
  '(dimension_scores, critique_points) <-
     for_each evaluation_criteria
       (fun '(dimension, criteria) '(dimension_scores, critique_points) =>
          '(score, points) <-
             _evaluate_dimension (content variant) dimension criteria
               target_section research_evidence ;;
          ret (dict_set (EvaluationDimension_value dimension) score
                 dimension_scores,
               (critique_points ++ points)%list))
       ([], []) ;;
  overall_score <-
     for_each evaluation_criteria
       (fun '(dim, criteria) total =>
          match dict_get (EvaluationDimension_value dim) dimension_scores with
          | Some score => ret (total + score * weight criteria)%Q
          | None => raise (KeyError (EvaluationDimension_value dim))
          end)
       0%Q ;;
  let improvement_priorities :=
    _generate_improvement_priorities dimension_scores in
  let strengths := _identify_strengths dimension_scores in
  let revision_recommendations :=
    _generate_revision_recommendations critique_points in
  t_id <- now_isoformat ;;
  let critique_id := md5_prefix 12 (variant_id variant ++ "_" ++ t_id) in
  t <- now_isoformat ;;
  ret {| critique_id := critique_id;
         target_variant_id := variant_id variant;
         overall_score := overall_score;
         dimension_scores := dimension_scores;
         critique_points := critique_points;
         improvement_priorities := improvement_priorities;
         strengths_identified := strengths;
         revision_recommendations := revision_recommendations;
         cc_timestamp := t |}.

Definition evaluate_variant (variant : ContentVariant)
  (target_section : Section) (research_evidence : list SearchResult)
  : M ComprehensiveCritique :=
  try_except
    (evaluate_variant_body variant target_section research_evidence)
    (fun _ => _create_fallback_critique variant).

(* ------------------------------------------------------------------ *)
(** *** VariantMerger *)
(* ------------------------------------------------------------------ *)

(** [critique_map.get(variant_id)] with a default score for a variant
    that has no critique. *)
Definition score_of (critique_map : dict ComprehensiveCritique)
  (default : Q) (variant_id : string) : Q :=
  match dict_get variant_id critique_map with
  | Some critique => overall_score critique
  | None => default
  end.

Record SectionCandidate : Type := {
  sc_content : string;
  sc_quality : Q;
  sc_variant_id : string
}.

Definition _merge_best_sections (variants : list ContentVariant)
  (critiques : list ComprehensiveCritique) : result string :=
  let critique_map := dict_of target_variant_id (fun c => c) critiques in
  let variant_sections :=
    dict_of variant_id (fun v => PyStr.split PyStr.LFLF (content v))
      variants in
  match map (fun kv => List.length (snd kv)) variant_sections with
  | [] => Raise (ValueError "max() arg is an empty sequence")
  | n :: ns =>
      let max_sections := fold_left Nat.max ns n in
      let merged_sections :=
        flat_map
          (fun section_idx =>
             let section_candidates :=
               flat_map
                 (fun '(variant_id, sections) =>
                    match nth_error sections section_idx with
                    | Some section =>
                        [ {| sc_content := section;
                             sc_quality := score_of critique_map 3.0%Q
                                             variant_id;
                             sc_variant_id := variant_id |} ]
                    | None => []
                    end)
                 variant_sections in
             match section_candidates with
             | [] => []
             | c :: cs => [sc_content (max_by sc_quality c cs)]
             end)
          (seq 0 max_sections) in
      Ok (PyStr.join PyStr.LFLF merged_sections)
  end.

Definition _extract_key_sentences (content : string) : list string :=
  let sentences := PyStr.split ". " content in
  let key_sentences :=
    flat_map
      (fun sentence =>
         if PyStr.any_in ["important"; "significant"; "key"; "crucial";
                          "essential"; "research shows"; "study found"]
              (PyStr.lower sentence)
         then [PyStr.strip sentence ++ "."] else [])
      sentences in
  firstn 5 key_sentences.

Definition _organize_synthesis (synthesis_parts : list string) : string :=
  match synthesis_parts with
  | [] => "No synthesis possible from available content."
  | _ =>
      let organized_content :=
        List.app ["Synthesized Analysis:"]
          (List.app (firstn 3 synthesis_parts)
             (List.app [PyStr.LF ++ "Key Findings:"]
                (List.app (firstn 3 (skipn 3 synthesis_parts))
                   (if (6 <? List.length synthesis_parts)%nat
                    then (PyStr.LF ++ "Additional Insights:")
                         :: skipn 6 synthesis_parts
                    else [])))) in
      PyStr.join PyStr.LF organized_content
  end.

Definition _merge_weighted_synthesis (variants : list ContentVariant)
  (critiques : list ComprehensiveCritique) : result string :=
  match variants with
  | [] => Ok ""
  | _ =>
      let critique_map := dict_of target_variant_id (fun c => c) critiques in
      let total_score :=
        py_sum
          (map (fun v => score_of critique_map 3.0%Q (variant_id v))
             variants) in
      if Qeq_bool total_score 0%Q
      then Raise (ZeroDivisionError "float division by zero")
      else
        let synthesis_parts :=
          flat_map
            (fun variant =>
               let weight :=
                 (score_of critique_map 3.0%Q (variant_id variant)
                  / total_score)%Q in
               if Qltb 0.3%Q weight then
                 let key_sentences :=
                   _extract_key_sentences (content variant) in
                 slice_to
                   (py_int (inject_Z (Z.of_nat (List.length key_sentences))
                            * weight)%Q)
                   key_sentences
               else [])
            variants in
        Ok (_organize_synthesis synthesis_parts)
  end.

(** [Counter(xs)]: occurrence counts, keys in order of first
    occurrence. *)
Definition counter (xs : list string) : dict Z :=
  fold_left
    (fun d x =>
       dict_set x (match dict_get x d with Some n => n + 1 | None => 1 end)%Z
         d)
    xs [].

Definition _identify_common_themes (variants : list ContentVariant)
  : list string :=
  let all_keywords :=
    flat_map
      (fun variant =>
         filter (fun w => (4 <? String.length w)%nat)
           (PyStr.findall_words (PyStr.lower (content variant))))
      variants in
  let word_counts := counter all_keywords in
  let most_common :=
    firstn 5 (sorted_desc (fun kv => inject_Z (snd kv)) word_counts) in
  flat_map
    (fun '(word, count) =>
       if Qle_bool (inject_Z (Z.of_nat (List.length variants)) * 0.6)%Q
            (inject_Z count)
       then [word] else [])
    most_common.

Definition _find_supporting_variants (theme : string)
  (variants : list ContentVariant) : list ContentVariant :=
  filter
    (fun variant =>
       PyStr.contains (PyStr.lower theme) (PyStr.lower (content variant)))
    variants.

Definition _synthesize_theme (theme : string)
  (supporting_variants : list ContentVariant) : string :=
  let relevant_sentences :=
    flat_map
      (fun variant =>
         flat_map
           (fun sentence =>
              if PyStr.contains (PyStr.lower theme) (PyStr.lower sentence)
              then [PyStr.strip sentence] else [])
           (PyStr.split ". " (content variant)))
      supporting_variants in
  match relevant_sentences with
  | [] => "Common theme identified: " ++ theme
  | _ =>
      "Regarding " ++ theme ++ ": "
      ++ PyStr.join ". " (firstn 2 relevant_sentences) ++ "."
  end.

Definition _merge_consensus_building (variants : list ContentVariant)
  (critiques : list ComprehensiveCritique) : result string :=
  let common_themes := _identify_common_themes variants in
  let consensus_content :=
    flat_map
      (fun theme =>
         let supporting_variants :=
           _find_supporting_variants theme variants in
         if Qle_bool (inject_Z (Z.of_nat (List.length variants)) * 0.6)%Q
              (inject_Z (Z.of_nat (List.length supporting_variants)))
         then [_synthesize_theme theme supporting_variants]
         else [])
      common_themes in
  Ok (PyStr.join PyStr.LFLF consensus_content).

Definition _integrate_improvements (base_content improvement_content : string)
  : string :=
  let base_sentences := PyStr.split ". " base_content in
  let improvement_sentences := PyStr.split ". " improvement_content in
  let unique_improvements :=
    flat_map
      (fun sentence =>
         if negb (String.eqb (PyStr.strip sentence) "")
            && negb (existsb (String.eqb sentence) base_sentences)
            && PyStr.any_in ["however"; "furthermore"; "additionally";
                             "moreover"; "research indicates"]
                 (PyStr.lower sentence)
         then [PyStr.strip sentence] else [])
      improvement_sentences in
  match unique_improvements with
  | [] => base_content
  | _ =>
      base_content ++ PyStr.LFLF
      ++ PyStr.join ". " (firstn 2 unique_improvements) ++ "."
  end.

Definition _merge_hierarchical_integration (variants : list ContentVariant)
  (critiques : list ComprehensiveCritique) : result string :=
  let critique_map := dict_of target_variant_id (fun c => c) critiques in
  let sorted_variants :=
    sorted_desc (fun v => score_of critique_map 3.0%Q (variant_id v))
      variants in
  match sorted_variants with
  | [] => Raise (IndexError "list index out of range")
  | best :: others =>
      Ok (fold_left (fun base_content variant =>
                       _integrate_improvements base_content (content variant))
            others (content best))
  end.

Definition _select_best_variant (variants : list ContentVariant)
  (critiques : list ComprehensiveCritique) : string :=
  match variants with
  | [] => ""
  | first :: rest =>
      match critiques with
      | [] => content first
      | _ =>
          let critique_map :=
            dict_of target_variant_id (fun c => c) critiques in
          content
            (max_by (fun v => score_of critique_map 0.0%Q (variant_id v))
               first rest)
      end
  end.

(** [self.merge_strategies.get(merge_strategy, self._merge_best_sections)]. *)
Definition merge_strategies (merge_strategy : string)
  : list ContentVariant -> list ComprehensiveCritique -> result string :=
  if String.eqb merge_strategy "best_sections" then _merge_best_sections
  else if String.eqb merge_strategy "weighted_synthesis"
  then _merge_weighted_synthesis
  else if String.eqb merge_strategy "consensus_building"
  then _merge_consensus_building
  else if String.eqb merge_strategy "hierarchical_integration"
  then _merge_hierarchical_integration
  else _merge_best_sections.

Definition merge_variants (variants : list ContentVariant)
  (critiques : list ComprehensiveCritique) (merge_strategy : string)
  : string :=
  let attempt : result string :=
    match variants with
    | [] => Ok ""
    | [v] => Ok (content v)
    | _ => merge_strategies merge_strategy variants critiques
    end in
  match attempt with
  | Ok merged_content => merged_content
  | Raise _ => _select_best_variant variants critiques
  end.

(* ------------------------------------------------------------------ *)
(** *** SelfEvolutionAgent *)
(* ------------------------------------------------------------------ *)

(** [SelfEvolutionAgent(tools_available)] in a fresh process. *)
Definition default_config : Config :=
  {| max_iterations := 5;
     max_variants_per_iteration := 6;
     convergence_threshold := 4.0%Q;
     plateau_detection_window := 3;
     quality_improvement_threshold := 0.1%Q;
     parallel_generation := true |}.

Definition SelfEvolutionAgent_init (task_tool : bool) : World :=
  {| ticks := 0; draws := 0; heap := []; tools_Task := task_tool;
     config := default_config; current_evolution := None;
     evolution_progress := None; evolution_history := [] |}.

(** [self.config.update(custom_config)]. *)
Definition config_update (custom : CustomConfig) (c : Config) : Config :=
  let pick {A : Type} (o : option A) (d : A) : A :=
    match o with Some a => a | None => d end in
  {| max_iterations := pick (cc_max_iterations custom) (max_iterations c);
     max_variants_per_iteration :=
       pick (cc_max_variants_per_iteration custom)
         (max_variants_per_iteration c);
     convergence_threshold :=
       pick (cc_convergence_threshold custom) (convergence_threshold c);
     plateau_detection_window :=
       pick (cc_plateau_detection_window custom) (plateau_detection_window c);
     quality_improvement_threshold :=
       pick (cc_quality_improvement_threshold custom)
         (quality_improvement_threshold c);
     parallel_generation :=
       pick (cc_parallel_generation custom) (parallel_generation c) |}.

(** [self.config]. *)
Definition get_config : M Config := w <- get ;; ret (config w).

(** [self.evolution_progress], about to be read or written through. *)
Definition get_progress : M EvolutionProgress :=
  w <- get ;;
  match evolution_progress w with
  | Some p => ret p
  | None => raise (AttributeError "'NoneType' object has no attribute")
  end.

Definition update_progress (f : EvolutionProgress -> EvolutionProgress)
  : M unit :=
  p <- get_progress ;; modify (with_evolution_progress (Some (f p))).

Definition _create_minimal_variant (base_content : string)
  : M ContentVariant :=
  t_id <- now_isoformat ;;
  let variant_id := md5_prefix 12 ("minimal_" ++ t_id) in
  t_gen <- now_isoformat ;;
  ret {| variant_id := variant_id;
         cv_variant_type := PERSPECTIVE_SHIFT;
         content := base_content;
         generation_strategy := "minimal_fallback";
         base_content_id := md5_prefix 12 base_content;
         quality_scores := [("overall", 3.0%Q)];
         improvement_rationale := "Minimal variant for error recovery";
         generation_timestamp := t_gen;
         tokens_generated := Z.of_nat (PyStr.count_words base_content) |}.

Definition _generate_variants_task_parallel (base_content : string)
  (research_results : list SearchResult) (target_section : Section)
  (variant_types : list VariantType) : M (list ref) :=
  for_each variant_types
    (fun variant_type variants =>
       try_except
         (let request :=
            {| base_content := base_content;
               research_results := research_results;
               target_section := target_section;
               variant_type := variant_type |} in
          variant <- generate_variant request ;;
          r <- alloc variant ;;
          ret (variants ++ [r])%list)
         (fun _ => ret variants))
    [].

Definition _generate_variants_sequential (base_content : string)
  (research_results : list SearchResult) (target_section : Section)
  (variant_types : list VariantType) : M (list ref) :=
  for_each variant_types
    (fun variant_type variants =>
       try_except
         (let request :=
            {| base_content := base_content;
               research_results := research_results;
               target_section := target_section;
               variant_type := variant_type |} in
          variant <- generate_variant request ;;
          r <- alloc variant ;;
          ret (variants ++ [r])%list)
         (fun _ => ret variants))
    [].

Definition _generate_variants_parallel (base_content : string)
  (research_results : list SearchResult) (target_section : Section)
  : M (list ref) :=
  try_except
    (let variant_types := all_VariantType in
     w <- get ;;
     if parallel_generation (config w) && tools_Task w
     then _generate_variants_task_parallel base_content research_results
            target_section variant_types
     else _generate_variants_sequential base_content research_results
            target_section variant_types)
    (fun _ =>
       variant <- _create_minimal_variant base_content ;;
       r <- alloc variant ;;
       ret [r]).

Definition _evaluate_variants (variants : list ref) (target_section : Section)
  (research_results : list SearchResult) : M (list ComprehensiveCritique) :=
  for_each variants
    (fun variant critiques =>
       try_except
         (v <- deref variant ;;
          critique <- evaluate_variant v target_section research_results ;;
          set_quality_scores variant (dimension_scores critique) ;;
          ret (critiques ++ [critique])%list)
         (fun _ => ret critiques))
    [].

(** [[v for v in variants]], reading each object. *)
Fixpoint deref_all (variants : list ref) : M (list ContentVariant) :=
  match variants with
  | [] => ret []
  | r :: rs => v <- deref r ;; vs <- deref_all rs ;; ret (v :: vs)
  end.

(** [next(v for v in variants if v.variant_id == id)]. *)
Fixpoint next_with_id (id : string) (variants : list ref) : M ContentVariant :=
  match variants with
  | [] => raise StopIteration
  | r :: rs =>
      v <- deref r ;;
      if String.eqb (variant_id v) id then ret v else next_with_id id rs
  end.

Definition _merge_variants (variants : list ref)
  (critiques : list ComprehensiveCritique) : M string :=
  try_except
    (vs <- deref_all variants ;;
     ret (merge_variants vs critiques "best_sections"))
    (fun _ =>
       match critiques with
       | c :: cs =>
           let best_critique := max_by overall_score c cs in
           best_variant <-
             next_with_id (target_variant_id best_critique) variants ;;
           ret (content best_variant)
       | [] =>
           match variants with
           | r :: _ => v <- deref r ;; ret (content v)
           | [] => ret "No content available"
           end
       end).

Definition _calculate_quality_improvement
  (critiques : list ComprehensiveCritique) : M Q :=
  match map overall_score critiques with
  | [] => ret 0.0%Q
  | s :: current_scores =>
      let max_current := max_of s current_scores in
      p <- get_progress ;;
      match rev (score_history p) with
      | previous_best :: _ => ret (max_current - previous_best)%Q
      | [] => ret (max_current - 3.0)%Q
      end
  end.

Definition _calculate_variance (scores : list Q) : Q :=
  if (List.length scores <=? 1)%nat then 0.0%Q
  else
    let n := inject_Z (Z.of_nat (List.length scores)) in
    let mean := (py_sum scores / n)%Q in
    (py_sum (map (fun score => (score - mean) ^ 2) scores) / n)%Q.

Definition _calculate_convergence_metrics
  (critiques : list ComprehensiveCritique) : dict Q :=
  match map overall_score critiques with
  | [] => [("score_variance", 0.0%Q); ("max_score", 0.0%Q);
           ("avg_score", 0.0%Q)]
  | s :: rest =>
      let scores := s :: rest in
      [ ("score_variance", _calculate_variance scores);
        ("max_score", max_of s rest);
        ("avg_score",
         (py_sum scores / inject_Z (Z.of_nat (List.length scores)))%Q);
        ("score_range", (max_of s rest - min_of s rest)%Q);
        ("high_quality_count",
         inject_Z
           (Z.of_nat
              (List.length (filter (fun x => Qle_bool 4.0%Q x) scores)))) ]
  end.

Definition _detect_plateau : M bool :=
  p <- get_progress ;;
  let score_history := score_history p in
  cfg <- get_config ;;
  let window := plateau_detection_window cfg in
  let threshold := quality_improvement_threshold cfg in
  if (Z.of_nat (List.length score_history) <? window + 1)%Z then ret false
  else
    let recent_scores := slice_from (- window)%Z score_history in
    match recent_scores with
    | [] => raise (ValueError "max() arg is an empty sequence")
    | x :: xs =>
        let improvement := (max_of x xs - min_of x xs)%Q in
        ret (Qltb improvement threshold)
    end.

Definition _check_convergence (current_score : Q) (iteration : Z)
  : M (bool * string) :=
  cfg <- get_config ;;
  if (max_iterations cfg <=? iteration)%Z then
    ret (false,
         "Reached maximum iterations (" ++ str_of_Z (max_iterations cfg)
         ++ ")")
  else if Qle_bool (convergence_threshold cfg) current_score then
    ret (false,
         "Achieved convergence threshold ("
         ++ format_float E 2 current_score ++ " >= "
         ++ str_of_float E (convergence_threshold cfg) ++ ")")
  else
    plateau <- _detect_plateau ;;
    if plateau
    then ret (false, "Quality plateau detected - no significant improvement")
    else ret (true, "Continue evolution").

(** [[xs[i] - xs[i-1] for i in range(1, len(xs))]]. *)
Fixpoint diffs (xs : list Q) : list Q :=
  match xs with
  | a :: (b :: _) as rest => (b - a)%Q :: diffs rest
  | _ => []
  end.

(** [xs.index(x)] for an [x] that occurs in [xs]. *)
Fixpoint index_of (x : Q) (xs : list Q) : Z :=
  match xs with
  | [] => 0
  | y :: ys => if Qeq_bool y x then 0 else (1 + index_of x ys)%Z
  end.

Definition _generate_evolution_insights (score_history : list Q)
  (variant_type_counts : dict Z) : list string :=
  let first_score := hd 0%Q score_history in
  let last_score := last score_history 0%Q in
  let progression :=
    if (2 <=? List.length score_history)%nat then
      List.app
        (if Qltb first_score last_score
         then ["Quality improved by "
               ++ format_float E 2 (last_score - first_score)%Q
               ++ " points through evolution"]
         else [])
        (match diffs score_history with
         | [] => []
         | d :: ds =>
             let best_iter := (index_of (max_of d ds) (d :: ds) + 2)%Z in
             ["Greatest improvement occurred in iteration "
              ++ str_of_Z best_iter]
         end)
    else [] in
  let variant_types :=
    match variant_type_counts with
    | [] => []
    | kv :: kvs =>
        let most_used := max_by (fun kv => inject_Z (snd kv)) kv kvs in
        ["Most frequently generated variant type: " ++ fst most_used ++ " ("
         ++ str_of_Z (snd most_used) ++ " variants)"]
    end in
  let convergence :=
    if (3 <=? List.length score_history)%nat then
      let recent_variance :=
        _calculate_variance (slice_from (-3)%Z score_history) in
      if Qltb recent_variance 0.1%Q
      then ["Evolution converged to stable quality level"]
      else ["Quality continued to vary in recent iterations"]
    else [] in
  List.app progression (List.app variant_types convergence).

Definition _generate_evolution_recommendations (score_history : list Q)
  (final_score : Q) : M (list string) :=
  let by_score :=
    if Qltb final_score 3.5%Q then
      ["Consider additional iterations with focus on accuracy and completeness"]
    else if Qltb final_score 4.0%Q then
      ["Focus on coherence and evidence quality improvements"]
    else ["Excellent quality achieved - consider finalizing content"] in
  cfg <- get_config ;;
  let by_iterations :=
    if (max_iterations cfg <=? Z.of_nat (List.length score_history))%Z then
      ["Maximum iterations reached - consider increasing iteration limit if more improvement needed"]
    else [] in
  let by_rate :=
    if (2 <=? List.length score_history)%nat then
      let avg_improvement :=
        ((last score_history 0 - hd 0 score_history)
         / inject_Z (Z.of_nat (List.length score_history)))%Q in
      if Qltb avg_improvement 0.1%Q then
        ["Low improvement rate - consider adjusting generation strategies"]
      else if Qltb 0.3%Q avg_improvement then
        ["High improvement rate - current strategies are effective"]
      else []
    else [] in
  ret (List.app by_score (List.app by_iterations by_rate)).

Record EvolutionSummary : Type := {
  es_total_iterations : Z;
  es_final_score : Q;
  es_total_improvement : Q;
  es_convergence_achieved : bool
}.

Record VariantAnalysis : Type := {
  total_variants_generated : Z;
  variant_type_distribution : dict Z;
  most_effective_type : option string
}.

Record QualityTrajectory : Type := {
  qt_score_history : list Q;
  improvement_per_iteration : list Q;
  peak_score : Q;
  qt_final_score : Q
}.

Record FinalAnalysis : Type := {
  evolution_summary : EvolutionSummary;
  variant_analysis : VariantAnalysis;
  quality_trajectory : QualityTrajectory;
  insights : list string;
  recommendations : list string
}.

Definition _compile_evolution_results (best_content : string) (best_score : Q)
  : M FinalAnalysis :=
  p <- get_progress ;;
  let score_history := score_history p in
  let total_improvement := (best_score - hd 0 score_history)%Q in
  w <- get ;;
  variant_type_counts <-
    for_each (flat_map generated_variants (evolution_history w))
      (fun variant counts =>
         v <- deref variant ;;
         let variant_type := VariantType_value (cv_variant_type v) in
         ret (dict_set variant_type
                (match dict_get variant_type counts with
                 | Some n => n
                 | None => 0
                 end + 1)%Z
                counts))
      [] ;;
  let insights :=
    _generate_evolution_insights score_history variant_type_counts in
  cfg <- get_config ;;
  recommendations <-
    _generate_evolution_recommendations score_history best_score ;;
  ret {| evolution_summary :=
           {| es_total_iterations :=
                Z.of_nat (List.length (evolution_history w));
              es_final_score := best_score;
              es_total_improvement := total_improvement;
              es_convergence_achieved :=
                Qle_bool (convergence_threshold cfg) best_score |};
         variant_analysis :=
           {| total_variants_generated :=
                fold_left Z.add
                  (map (fun it =>
                          Z.of_nat (List.length (generated_variants it)))
                     (evolution_history w))
                  0%Z;
              variant_type_distribution := variant_type_counts;
              most_effective_type :=
                match variant_type_counts with
                | [] => None
                | kv :: kvs =>
                    Some (fst (max_by (fun kv => inject_Z (snd kv)) kv kvs))
                end |};
         quality_trajectory :=
           {| qt_score_history := score_history;
              improvement_per_iteration := diffs score_history;
              peak_score :=
                match score_history with
                | [] => 0%Q
                | x :: xs => max_of x xs
                end;
              qt_final_score := last score_history 0%Q |};
         insights := insights;
         recommendations := recommendations |}.

(** The dictionary returned by [_execute_evolution_iteration]. *)
Record IterationResult : Type := {
  ir_best_content : string;
  ir_best_score : Q;
  ir_variants_generated : Z;
  ir_iteration_metrics : dict Q
}.

Definition _execute_evolution_iteration (iteration_number : Z)
  (base_content : string) (research_results : list SearchResult)
  (target_section : Section) : M IterationResult :=
  iteration_start <- datetime_now ;;
  w <- get ;;
  let iteration_id :=
    match current_evolution w with Some id => id | None => "None" end
    ++ "_iter_" ++ str_of_Z iteration_number in
  variants <-
    _generate_variants_parallel base_content research_results target_section ;;
  critiques <- _evaluate_variants variants target_section research_results ;;
  merged_content <- _merge_variants variants critiques ;;
  let best_score :=
    match map overall_score critiques with
    | [] => 0.0%Q
    | s :: rest => max_of s rest
    end in
  quality_improvement <- _calculate_quality_improvement critiques ;;
  let convergence_metrics := _calculate_convergence_metrics critiques in
  t_end <- datetime_now ;;
  let iteration_duration := (t_end - iteration_start)%Q in
  timestamp <- now_isoformat ;;
  let evolution_iteration :=
    {| iteration_id := iteration_id;
       iteration_number := iteration_number;
       base_variants := [PyStr.take 50 base_content ++ "..."];
       generated_variants := variants;
       critiques := critiques;
       merged_result := merged_content;
       quality_improvement := quality_improvement;
       convergence_metrics := convergence_metrics;
       duration_seconds := iteration_duration;
       ei_timestamp := timestamp |} in
  modify
    (fun w =>
       with_evolution_history
         (evolution_history w ++ [evolution_iteration])%list w) ;;
  ret {| ir_best_content := merged_content;
         ir_best_score := best_score;
         ir_variants_generated := Z.of_nat (List.length variants);
         ir_iteration_metrics := convergence_metrics |}.

(** The two shapes of the dictionary returned by [evolve_content]; the
    audit records are returned as they stand in [evolution_history]
    ([asdict] copies them), their variants being read in the final
    store. *)
Record SuccessResult : Type := {
  sr_evolution_id : string;
  final_content : string;
  final_score : Q;
  iterations_completed : Z;
  improvement_achieved : Q;
  sr_evolution_history : list EvolutionIteration;
  final_analysis : FinalAnalysis
}.

Record ErrorResult : Type := {
  error : string;
  er_evolution_id : option string;
  partial_results : list EvolutionIteration
}.

Inductive Output : Type :=
| Success (r : SuccessResult)
| Error (r : ErrorResult).

(** [result['status']]. *)
Definition status (o : Output) : string :=
  match o with
  | Success _ => "success"
  | Error _ => "error"
  end.

(** The [for iteration in range(max_iterations)] loop of [evolve_content]:
    [remaining] counts the values of [iteration] still to come; [break]
    ends the loop early. *)
Fixpoint evolution_loop (research_results : list SearchResult)
  (target_section : Section) (remaining : nat) (iteration : Z)
  (best_content : string) (best_score : Q) : M (string * Q) :=
  match remaining with
  | O => ret (best_content, best_score)
  | S remaining' =>
      iteration_result <-
        _execute_evolution_iteration (iteration + 1) best_content
          research_results target_section ;;
      let '(best_content, best_score) :=
        if Qltb best_score (ir_best_score iteration_result)
        then (ir_best_content iteration_result,
              ir_best_score iteration_result)
        else (best_content, best_score) in
      update_progress
        (fun p =>
           {| evolution_id := evolution_id p;
              total_iterations := total_iterations p;
              completed_iterations := completed_iterations p + 1;
              current_best_score := current_best_score p;
              score_history := score_history p;
              ep_convergence_threshold := ep_convergence_threshold p;
              estimated_completion := estimated_completion p;
              last_updated := last_updated p |}) ;;
      update_progress
        (fun p =>
           {| evolution_id := evolution_id p;
              total_iterations := total_iterations p;
              completed_iterations := completed_iterations p;
              current_best_score := current_best_score p;
              score_history := (score_history p ++ [best_score])%list;
              ep_convergence_threshold := ep_convergence_threshold p;
              estimated_completion := estimated_completion p;
              last_updated := last_updated p |}) ;;
      update_progress
        (fun p =>
           {| evolution_id := evolution_id p;
              total_iterations := total_iterations p;
              completed_iterations := completed_iterations p;
              current_best_score := best_score;
              score_history := score_history p;
              ep_convergence_threshold := ep_convergence_threshold p;
              estimated_completion := estimated_completion p;
              last_updated := last_updated p |}) ;;
      '(should_continue, reason) <-
         _check_convergence best_score (iteration + 1) ;;
      if should_continue : bool
      then evolution_loop research_results target_section remaining'
             (iteration + 1) best_content best_score
      else ret (best_content, best_score)
  end.

(** The body of the [try] block of [evolve_content], after the evolution
    id has been drawn. *)
Definition evolve_content_body (evolution_id : string)
  (input_data : InputData) : M Output :=
  modify (with_current_evolution (Some evolution_id)) ;;
  let base_content :=
    match in_content input_data with Some c => c | None => "" end in
  let research_results :=
    match in_research_results input_data with Some r => r | None => [] end in
  match base_content, in_target_section input_data with
  | EmptyString, _ | _, None =>
      raise (ValueError "Missing required input: content or target_section")
  | _, Some target_section =>
      match in_config input_data with
      | Some custom_config =>
          modify (fun w => with_config (config_update custom_config (config w)) w)
      | None => ret tt
      end ;;
      cfg <- get_config ;;
      t <- now_isoformat ;;
      modify
        (with_evolution_progress
           (Some {| evolution_id := evolution_id;
                    total_iterations := max_iterations cfg;
                    completed_iterations := 0;
                    current_best_score := 0.0%Q;
                    score_history := [];
                    ep_convergence_threshold := convergence_threshold cfg;
                    estimated_completion := "";
                    last_updated := t |})) ;;
      '(best_content, best_score) <-
         evolution_loop research_results target_section
           (Z.to_nat (max_iterations cfg)) 0 base_content 0.0%Q ;;
      final_results <- _compile_evolution_results best_content best_score ;;
      p <- get_progress ;;
      w <- get ;;
      ret (Success
             {| sr_evolution_id := evolution_id;
                final_content := best_content;
                final_score := best_score;
                iterations_completed := completed_iterations p;
                improvement_achieved :=
                  (best_score - hd 0 (score_history p))%Q;
                sr_evolution_history := evolution_history w;
                final_analysis := final_results |})
  end.

Definition evolve_content (input_data : InputData) : M Output :=
  t <- now_isoformat ;;
  let evolution_id := md5_prefix 12 ("evolution_" ++ t) in
  try_except
    (evolve_content_body evolution_id input_data)
    (fun e =>
       w <- get ;;
       ret (Error {| error := str_of_exn e;
                     er_evolution_id := Some evolution_id;
                     partial_results := evolution_history w |})).

End Engine.

(* ================================================================== *)
(** ** Concrete environments and inputs, for running the engine *)
(* ================================================================== *)

Fixpoint string_rev (s : string) : string :=
  match s with
  | EmptyString => EmptyString
  | String c s' => string_rev s' ++ String c ""
  end.

(** A clock that advances one second per reading. *)
Definition demo_clock (n : nat) : Q := inject_Z (Z.of_nat n).

Definition demo_isoformat (t : Q) : string := "T" ++ str_of_Z (Qfloor t).

(** A stand-in for MD5 that keeps distinct inputs distinct. *)
Definition demo_md5 (s : string) : string := string_rev s.

(** A stand-in for float formatting: the value scaled by [10^digits]. *)
Definition demo_format (digits : nat) (x : Q) : string :=
  str_of_Z (Qfloor (x * inject_Z (10 ^ Z.of_nat digits))).

(** A random generator that always draws the midpoint. *)
Definition demo_uniform (n : nat) (a b : Q) : Q := ((a + b) / 2)%Q.

(** A generation oracle that is down. *)
Definition failing_oracle (t : VariantType) (request : VariantGenerationRequest)
  : result (string * string) :=
  Raise (OracleError "generation oracle unavailable").

Definition failing_env : Env :=
  {| clock := demo_clock; isoformat := demo_isoformat;
     md5_hexdigest := demo_md5; format_float := demo_format;
     str_of_float := demo_format 1; uniform := demo_uniform;
     strategy_func := failing_oracle |}.

(** The environment of the source: its own six strategies. *)
Definition source_env : Env :=
  {| clock := demo_clock; isoformat := demo_isoformat;
     md5_hexdigest := demo_md5; format_float := demo_format;
     str_of_float := demo_format 1; uniform := demo_uniform;
     strategy_func := generation_strategies |}.

Definition demo_section : Section :=
  {| section_id := "ai_overview";
     section_title := "AI Technology Overview";
     content_requirements :=
       Some {| required_elements := ["machine learning"; "deep learning";
                                     "applications"];
               key_concepts := ["AI"; "ML"; "neural networks"];
               evidence_types := ["academic"; "technical"] |} |}.

(** A [target_section] that is not a [Section] object (a plain dictionary,
    as the system integration passes): it has no attributes. *)
Definition malformed_section : Section :=
  {| section_id := "main_analysis";
     section_title := "Main Analysis";
     content_requirements := None |}.

Definition demo_research : list SearchResult :=
  [ {| result_id := "test_result_1";
       title := "Deep Learning Advances";
       content_text :=
         "Recent advances in deep learning have led to breakthrough performance...";
       quality_score := 0.8%Q;
       relevance_score := 0.9%Q |} ].

Definition demo_content : string :=
  "Machine learning algorithms enable computers to learn from data."
  ++ PyStr.LFLF
  ++ "Deep learning models have achieved remarkable performance.".

Definition demo_input (max_iter : Z) : InputData :=
  {| in_content := Some demo_content;
     in_research_results := Some demo_research;
     in_target_section := Some demo_section;
     in_config :=
       Some {| cc_max_iterations := Some max_iter;
               cc_max_variants_per_iteration := None;
               cc_convergence_threshold := Some 4.0%Q;
               cc_plateau_detection_window := None;
               cc_quality_improvement_threshold := None;
               cc_parallel_generation := None |} |}.

Definition demo_variant (id text : string) : ContentVariant :=
  {| variant_id := id; cv_variant_type := PERSPECTIVE_SHIFT; content := text;
     generation_strategy := "task_tool_perspective_shift";
     base_content_id := "base"; quality_scores := [];
     improvement_rationale := ""; generation_timestamp := "T0";
     tokens_generated := Z.of_nat (PyStr.count_words text) |}.

(* ================================================================== *)
(** ** Vocabulary of the specification *)
(* ================================================================== *)

(** [returns c w P]: if [c], run from [w], returns normally, the value and
    the final state satisfy [P]. *)
Definition returns {A : Type} (c : M A) (w : World)
  (P : A -> World -> Prop) : Prop :=
  match c w with
  | (Ok a, w') => P a w'
  | (Raise _, _) => True
  end.

(** A score on the rubric scale. *)
Definition in_range (s : Q) : Prop := (1.0 <= s <= 5.0)%Q.

(** Sum of the weights of a list of criteria. *)
Definition total_weight (cl : list (EvaluationDimension * Criteria)) : Q :=
  py_sum (map (fun dc => weight (snd dc)) cl).

(** The weighted sum of a table of dimension scores. *)
Definition weighted_sum (scores : dict Q) : Q :=
  fold_left
    (fun total dc =>
       (total
        + match dict_get (EvaluationDimension_value (fst dc)) scores with
          | Some score => score
          | None => 0
          end * weight (snd dc))%Q)
    evaluation_criteria 0%Q.

(** Rounding to the nearest integer, ties to the even one, as Python's
    [round]. *)
Definition round_half_even (x : Q) : Z :=
  let f := Qfloor x in
  let r := (x - inject_Z f)%Q in
  if Qltb r 0.5%Q then f
  else if Qltb 0.5%Q r then (f + 1)%Z
  else if Z.even f then f else (f + 1)%Z.

Definition clamp (n lo hi : Z) : Z := Z.max lo (Z.min hi n).

(** [preserves R c]: whatever its outcome, [c] leaves a state related by
    [R] to the one it started from. *)
Definition preserves {A : Type} (R : World -> World -> Prop) (c : M A)
  : Prop :=
  forall w, R w (snd (c w)).

(** The attributes of the agent are untouched (the clock, the random
    generator and the store may have moved). *)
Definition agent_frame (w w' : World) : Prop :=
  tools_Task w' = tools_Task w
  /\ config w' = config w
  /\ current_evolution w' = current_evolution w
  /\ evolution_progress w' = evolution_progress w
  /\ evolution_history w' = evolution_history w.

(** Only the clock and the random generator have moved. *)
Definition clock_frame (w w' : World) : Prop :=
  heap w' = heap w /\ agent_frame w w'.

(** Two variant objects that agree on every field but [quality_scores]. *)
Definition same_but_scores (v v' : ContentVariant) : Prop :=
  v' = with_quality_scores (quality_scores v') v.

(** The store after, against the store before: every object is still
    there with all its fields but [quality_scores] unchanged, and an
    object not listed in [touched] is unchanged altogether. *)
Definition heap_frame (touched : list ref) (w w' : World) : Prop :=
  forall r v,
    nth_error (heap w) r = Some v ->
    exists v',
      nth_error (heap w') r = Some v'
      /\ same_but_scores v v'
      /\ (~ In r touched -> v' = v).

(** An audit record agrees with the store: each of its variants is
    stored, carries as [quality_scores] the dimension scores of the
    critique at the same position, and is the target of that critique. *)
Definition record_consistent (w : World) (it : EvolutionIteration) : Prop :=
  Forall2
    (fun r c =>
       exists v,
         nth_error (heap w) r = Some v
         /\ quality_scores v = dimension_scores c
         /\ target_variant_id c = variant_id v)
    (generated_variants it) (critiques it).

(** The audit trail after, against the audit trail before: the objects
    stored before are unchanged, the history has only grown, and every
    record added to it agrees with the store. *)
Definition audit_frame (w w' : World) : Prop :=
  heap_frame [] w w'
  /\ exists its,
       evolution_history w' = (evolution_history w ++ its)%list
       /\ Forall (record_consistent w') its.

(** The best score of an audit record: the maximum of its critiques'
    overall scores, 0.0 when it has none. *)
Definition iteration_best (it : EvolutionIteration) : Q :=
  match map overall_score (critiques it) with
  | [] => 0.0%Q
  | s :: rest => max_of s rest
  end.

(** The running best of a series of scores, starting from [best]: an
    entry replaces the best only when it is strictly greater. *)
Fixpoint running_best (best : Q) (scores : list Q) : list Q :=
  match scores with
  | [] => []
  | s :: rest =>
      let best' := if Qltb best s then s else best in
      best' :: running_best best' rest
  end.

(** An agent whose score history is [h], under the default
    configuration. *)
Definition world_with_history (h : list Q) : World :=
  with_evolution_progress
    (Some {| evolution_id := "demo"; total_iterations := 5;
             completed_iterations := Z.of_nat (List.length h);
             current_best_score := last h 0.0%Q; score_history := h;
             ep_convergence_threshold := 4.0%Q; estimated_completion := "";
             last_updated := "T0" |})
    (SelfEvolutionAgent_init true).

(** The severity formula as the specification words it:
    [clamp(round(4 - score), 1, 5)]. *)
Definition spec_severity (score : Q) : Z :=
  clamp (round_half_even (4 - score)%Q) 1 5.

(* ================================================================== *)
(** ** Vocabulary of the further properties *)
(* ================================================================== *)

(** A critique of the variant [id] with overall score [score]. *)
Definition demo_critique (id : string) (score : Q) : ComprehensiveCritique :=
  {| critique_id := "c_" ++ id; target_variant_id := id;
     overall_score := score; dimension_scores := [];
     critique_points := []; improvement_priorities := [];
     strengths_identified := []; revision_recommendations := [];
     cc_timestamp := "T0" |}.

(** What the critique points say, in order: the dimension and the
    severity of each. *)
Definition point_summary (points : list CritiquePoint) : list (string * Z) :=
  map (fun p => (EvaluationDimension_value (dimension p), severity p)) points.

(** What a table of dimension scores calls for: one entry for every
    dimension scoring below 3.0, with the integer part of [4 - score]. *)
Definition low_dimensions (scores : dict Q) : list (string * Z) :=
  flat_map
    (fun '(dimension, score) =>
       if Qltb score 3.0 then [(dimension, py_int (4 - score)%Q)] else [])
    scores.

(** A random generator that honours its bounds. *)
Definition fair_uniform (E : Env) : Prop :=
  forall n a b, (a <= b)%Q -> (a <= uniform E n a b <= b)%Q.

(** The audit trail after a computation, against the audit trail before
    it, for a property [P] of audit records that may depend on the store:
    the objects stored before are unchanged, the history has only grown,
    and every record added satisfies [P] in the final store. *)
Definition run_frame (P : World -> EvolutionIteration -> Prop)
  (w w' : World) : Prop :=
  heap_frame [] w w'
  /\ exists its,
       evolution_history w' = (evolution_history w ++ its)%list
       /\ Forall (P w') its.

(** The progress record after an iteration that leaves [best_score] as
    the best score: one more completed iteration, one more entry in the
    score history. *)
Definition progress_after (p : EvolutionProgress) (best_score : Q)
  : EvolutionProgress :=
  {| evolution_id := evolution_id p;
     total_iterations := total_iterations p;
     completed_iterations := completed_iterations p + 1;
     current_best_score := best_score;
     score_history := (score_history p ++ [best_score])%list;
     ep_convergence_threshold := ep_convergence_threshold p;
     estimated_completion := estimated_completion p;
     last_updated := last_updated p |}.

(** Every variant that an audit record of the history refers to is
    stored. *)
Definition history_stored (w : World) : Prop :=
  Forall
    (fun it =>
       Forall (fun r => nth_error (heap w) r <> None) (generated_variants it))
    (evolution_history w).

(** An input whose convergence threshold, 1.0, is reached by any
    critique: the run stops after its first iteration.  Its target
    section is a plain dictionary. *)
Definition eager_input : InputData :=
  {| in_content := Some demo_content;
     in_research_results := Some demo_research;
     in_target_section := Some malformed_section;
     in_config :=
       Some {| cc_max_iterations := Some 3%Z;
               cc_max_variants_per_iteration := None;
               cc_convergence_threshold := Some 1.0%Q;
               cc_plateau_detection_window := None;
               cc_quality_improvement_threshold := None;
               cc_parallel_generation := None |} |}.

(** The distribution that counts [n] variants of each type, in the order
    of the enumeration. *)
Definition even_distribution (n : Z) : dict Z :=
  map (fun t => (VariantType_value t, n)) all_VariantType.

(** Every audit record of the agent holds six stored variants, one of
    each type in the order of the enumeration. *)
Definition history_typed (w : World) : Prop :=
  Forall
    (fun it =>
       Forall2
         (fun t r =>
            exists v, nth_error (heap w) r = Some v /\ cv_variant_type v = t)
         all_VariantType (generated_variants it))
    (evolution_history w).

(** [[f(x, y) for x, y in zip(xs, ys)]]. *)
Definition zip_with {A B C : Type} (f : A -> B -> C) (xs : list A)
  (ys : list B) : list C :=
  map (fun xy => f (fst xy) (snd xy)) (combine xs ys).

(** The loop of [_compile_evolution_results] that counts the variant
    types. *)
Definition count_types (refs : list ref) (counts : dict Z) : M (dict Z) :=
  for_each refs
    (fun variant counts =>
       v <- deref variant ;;
       let variant_type := VariantType_value (cv_variant_type v) in
       ret (dict_set variant_type
              (match dict_get variant_type counts with
               | Some n => n
               | None => 0
               end + 1)%Z
              counts))
    counts.

(* ================================================================== *)
(** * Properties *)
(* ================================================================== *)

Unset Implicit Arguments.

(** ** Strings *)

Lemma append_nil_r (s : string) : s ++ "" = s.
Proof. induction s; simpl; congruence. Qed.

Lemma append_assoc (a b c : string) : (a ++ b) ++ c = a ++ (b ++ c).
Proof. induction a; simpl; congruence. Qed.

Lemma prefix_drop (p s : string) :
  prefix p s = true -> s = p ++ PyStr.drop (String.length p) s.
Proof.
  revert s; induction p as [|a p IH]; intros s H; simpl.
  - destruct s; reflexivity.
  - destruct s as [|b s]; simpl in H; [discriminate|].
    destruct (ascii_dec a b) as [->|]; [|discriminate].
    simpl. f_equal. auto.
Qed.

Lemma split_from_nonempty sep cur s : PyStr.split_from sep cur s <> [].
Proof.
  funelim (PyStr.split_from sep cur s); simp split_from; try discriminate.
  all: try (rewrite Heq; simpl; try discriminate; auto).
Qed.

Lemma join_cons sep p rest :
  rest <> [] -> PyStr.join sep (p :: rest) = p ++ sep ++ PyStr.join sep rest.
Proof. destruct rest; [congruence | reflexivity]. Qed.

Lemma join_split_from sep cur s :
  sep <> "" -> PyStr.join sep (PyStr.split_from sep cur s) = cur ++ s.
Proof.
  funelim (PyStr.split_from sep cur s); intros Hsep.
  - simpl. symmetry; apply append_nil_r.
  - rewrite join_cons by apply split_from_nonempty.
    rewrite H by assumption. simpl.
    apply prefix_drop in Heq.
    destruct sep as [|a sep']; [congruence|]. simpl in Heq. simpl.
    now rewrite <- Heq.
  - rewrite H by assumption.
    rewrite append_assoc. reflexivity.
Qed.

Lemma join_split sep s : sep <> "" -> PyStr.join sep (PyStr.split sep s) = s.
Proof. intros H. unfold PyStr.split. now rewrite join_split_from. Qed.

(** ** Numbers *)

Lemma Qltb_lt x y : Qltb x y = true <-> (x < y)%Q.
Proof.
  unfold Qltb. rewrite negb_true_iff.
  split; intros H.
  - apply Qnot_le_lt. intros Hle. apply Qle_bool_iff in Hle. congruence.
  - destruct (Qle_bool y x) eqn:Hb; [|reflexivity].
    apply Qle_bool_iff in Hb. exfalso. eapply Qlt_not_le; eauto.
Qed.

Lemma Qltb_ge x y : Qltb x y = false <-> (y <= x)%Q.
Proof.
  unfold Qltb. rewrite negb_false_iff. apply Qle_bool_iff.
Qed.

Lemma py_min_spec a b : (py_min a b <= a /\ py_min a b <= b)%Q.
Proof.
  unfold py_min. destruct (Qltb b a) eqn:H.
  - apply Qltb_lt in H. split; [apply Qlt_le_weak; assumption | apply Qle_refl].
  - apply Qltb_ge in H. split; [apply Qle_refl | assumption].
Qed.

Lemma py_max_spec a b : (a <= py_max a b /\ b <= py_max a b)%Q.
Proof.
  unfold py_max. destruct (Qltb a b) eqn:H.
  - apply Qltb_lt in H. split; [apply Qlt_le_weak; assumption | apply Qle_refl].
  - apply Qltb_ge in H. split; [apply Qle_refl | assumption].
Qed.

Lemma clamp_bounds x : (1.0 <= py_max 1.0 (py_min 5.0 x) <= 5.0)%Q.
Proof.
  split; [apply py_max_spec|].
  unfold py_max. destruct (Qltb _ _); [apply py_min_spec | discriminate].
Qed.

(** ** What a computation returns *)

Lemma calculate_dimension_score_bounds E content dim crit ts ev w :
  match _calculate_dimension_score E content dim crit ts ev w with
  | (Ok s, _) => (1.0 <= s <= 5.0)%Q
  | (Raise _, _) => True
  end.
Proof.
  unfold _calculate_dimension_score.
  unfold bind at 1.
  match goal with |- context [match ?c w with _ => _ end] =>
    destruct (c w) as [[b|e] w1] end; [|exact I].
  unfold bind, random_uniform, ret. apply clamp_bounds.
Qed.


Lemma returns_ret {A} (a : A) w (P : A -> World -> Prop) :
  P a w -> returns (ret a) w P.
Proof. exact (fun H => H). Qed.

Lemma returns_bind {A B} (c : M A) (k : A -> M B) w (P : B -> World -> Prop) :
  returns c w (fun a w' => returns (k a) w' P) -> returns (bind c k) w P.
Proof.
  unfold returns, bind. destruct (c w) as [[a|e] w']; auto.
Qed.

Lemma returns_weaken {A} (c : M A) w (P Q : A -> World -> Prop) :
  (forall a w', P a w' -> Q a w') -> returns c w P -> returns c w Q.
Proof.
  unfold returns. destruct (c w) as [[a|e] w']; auto.
Qed.

Lemma returns_for_each {A S} (I : S -> Prop) (body : A -> S -> M S) xs :
  (forall x s w, I s -> returns (body x s) w (fun s' _ => I s')) ->
  forall s w, I s -> returns (for_each xs body s) w (fun s' _ => I s').
Proof.
  intros Hbody. induction xs as [|x xs IH]; intros s w Hs; simpl.
  - exact Hs.
  - apply returns_bind. eapply returns_weaken; [|apply Hbody; exact Hs].
    intros s' w' Hs'. apply IH; exact Hs'.
Qed.


Lemma dict_set_Forall {V} (P : V -> Prop) k v (d : dict V) :
  P v -> Forall (fun kv => P (snd kv)) d ->
  Forall (fun kv => P (snd kv)) (dict_set k v d).
Proof.
  intros Hv. induction d as [|[k' v'] d IH]; intros Hd; simpl.
  - constructor; auto.
  - inversion Hd; subst. destruct (String.eqb k k'); constructor; auto.
Qed.

Lemma dict_get_Forall {V} (P : V -> Prop) k v (d : dict V) :
  Forall (fun kv => P (snd kv)) d -> dict_get k d = Some v -> P v.
Proof.
  induction d as [|[k' v'] d IH]; simpl; intros Hd Hg; [discriminate|].
  inversion Hd; subst. destruct (String.eqb k k'); auto. now inversion Hg; subst.
Qed.

Lemma evaluate_dimension_range E content dim crit ts ev w :
  returns (_evaluate_dimension E content dim crit ts ev) w
    (fun sp _ => in_range (fst sp)).
Proof.
  unfold _evaluate_dimension. apply returns_bind.
  pose proof (calculate_dimension_score_bounds E content dim crit ts ev w) as H.
  unfold returns.
  destruct (_calculate_dimension_score E content dim crit ts ev w)
    as [[s|e] w1]; [|exact I].
  destruct (_generate_dimension_critique_points E content dim s crit w1)
    as [[pts|e] w2] eqn:Hp; unfold bind; rewrite Hp; [|exact I].
  exact H.
Qed.

Lemma fold_left_Qplus_shift xs a :
  (fold_left Qplus xs a == a + fold_left Qplus xs 0)%Q.
Proof.
  revert a. induction xs as [|x xs IH]; intros a; simpl.
  - lra.
  - rewrite (IH (a + x)%Q), (IH (0 + x)%Q). lra.
Qed.

Lemma weighted_sum_range (ds : dict Q) :
  Forall (fun kv => in_range (snd kv)) ds ->
  forall cl total w,
    Forall (fun dc => (0 <= weight (snd dc))%Q) cl ->
    returns
      (for_each cl
         (fun '(dim, criteria) total =>
            match dict_get (EvaluationDimension_value dim) ds with
            | Some score => ret (total + score * weight criteria)%Q
            | None => raise (KeyError (EvaluationDimension_value dim))
            end)
         total)
      w
      (fun t _ => (total + 1.0 * total_weight cl <= t
                   /\ t <= total + 5.0 * total_weight cl)%Q).
Proof.
  intros Hds. induction cl as [|[dim crit] cl IH]; intros total w Hw; simpl.
  - unfold returns, ret, total_weight, py_sum; simpl. split; lra.
  - inversion Hw as [|? ? Hc Hcl]; subst. simpl in Hc.
    apply returns_bind.
    destruct (dict_get (EvaluationDimension_value dim) ds) as [s|] eqn:Hg;
      [|exact I].
    destruct (dict_get_Forall in_range _ _ _ Hds Hg) as [Hlo Hhi].
    unfold returns at 1, ret.
    eapply returns_weaken; [|apply IH; exact Hcl].
    intros t _ [H1 H2].
    unfold total_weight, py_sum in *. simpl.
    rewrite fold_left_Qplus_shift.
    set (W := fold_left Qplus (map (fun dc => weight (snd dc)) cl) 0%Q) in *.
    split; nra.
Qed.

Lemma evaluation_criteria_weights_nonneg :
  Forall (fun dc => (0 <= weight (snd dc))%Q) evaluation_criteria.
Proof. repeat constructor; simpl; discriminate. Qed.

Lemma total_weight_evaluation_criteria :
  (total_weight evaluation_criteria == 1)%Q.
Proof. reflexivity. Qed.

Lemma evaluate_variant_body_range E variant ts ev w :
  returns (evaluate_variant_body E variant ts ev) w
    (fun c _ => in_range (overall_score c)
                /\ Forall (fun kv => in_range (snd kv)) (dimension_scores c)).
Proof.
  unfold evaluate_variant_body.
  apply returns_bind. unfold returns at 1, datetime_now.
  apply returns_bind.
  eapply returns_weaken;
    [| apply (returns_for_each
                (fun s : dict Q * list CritiquePoint =>
                   Forall (fun kv => in_range (snd kv)) (fst s)));
       [| constructor ] ].
  - intros [ds cps] w1 Hds. simpl in Hds.
    apply returns_bind.
    eapply returns_weaken;
      [| apply (weighted_sum_range ds Hds);
         exact evaluation_criteria_weights_nonneg ].
    intros total w2 [Hlo Hhi].
    rewrite total_weight_evaluation_criteria in Hlo, Hhi.
    unfold returns, bind, now_isoformat, bind, datetime_now, ret. simpl.
    split; [split; lra | exact Hds].
  - intros [dim crit] [ds cps] w1 Hds. simpl in Hds.
    apply returns_bind.
    eapply returns_weaken; [| apply evaluate_dimension_range].
    intros [s pts] w2 Hs. unfold returns, ret. simpl.
    apply dict_set_Forall; assumption.
Qed.

Lemma fallback_critique_spec E variant w :
  exists c w',
    _create_fallback_critique E variant w = (Ok c, w')
    /\ overall_score c = 3.0%Q
    /\ dimension_scores c =
         map (fun d => (EvaluationDimension_value d, 3.0%Q))
           all_EvaluationDimension
    /\ critique_points c = []
    /\ improvement_priorities c = ["General improvement needed"]
    /\ target_variant_id c = variant_id variant.
Proof.
  unfold _create_fallback_critique, bind, now_isoformat, bind, datetime_now, ret.
  simpl. do 2 eexists. split; [reflexivity|]. simpl. repeat split; reflexivity.
Qed.


(** ** The judge *)

Lemma weighted_loop_value (ds : dict Q) :
  forall cl total w,
    returns
      (for_each cl
         (fun '(dim, criteria) total =>
            match dict_get (EvaluationDimension_value dim) ds with
            | Some score => ret (total + score * weight criteria)%Q
            | None => raise (KeyError (EvaluationDimension_value dim))
            end)
         total)
      w
      (fun t _ =>
         t = fold_left
               (fun total dc =>
                  (total
                   + match dict_get (EvaluationDimension_value (fst dc)) ds with
                     | Some score => score
                     | None => 0
                     end * weight (snd dc))%Q)
               cl total).
Proof.
  induction cl as [|[dim crit] cl IH]; intros total w; simpl.
  - reflexivity.
  - apply returns_bind.
    destruct (dict_get (EvaluationDimension_value dim) ds) as [s|]; [|exact I].
    unfold returns at 1, ret. apply IH.
Qed.

Lemma evaluate_variant_body_weighted E variant ts ev w :
  returns (evaluate_variant_body E variant ts ev) w
    (fun c _ => overall_score c = weighted_sum (dimension_scores c)).
Proof.
  unfold evaluate_variant_body.
  apply returns_bind. unfold returns at 1, datetime_now.
  apply returns_bind.
  match goal with |- returns ?c ?w0 _ => destruct (c w0) as [[[ds cps]|e] w1] eqn:Hloop;
    unfold returns at 1; rewrite Hloop; [|exact I] end.
  apply returns_bind.
  eapply returns_weaken; [| apply weighted_loop_value].
  intros total w2 ->.
  unfold returns, bind, now_isoformat, bind, datetime_now, ret. simpl.
  reflexivity.
Qed.

Lemma evaluate_variant_total E variant ts ev w :
  exists c w', evaluate_variant E variant ts ev w = (Ok c, w').
Proof.
  unfold evaluate_variant, try_except.
  destruct (evaluate_variant_body E variant ts ev w) as [[c|e] w1].
  - eauto.
  - destruct (fallback_critique_spec E variant w1) as (c & w' & H & _). eauto.
Qed.

(** C3 (as amended).  [evaluate_variant] never raises; when the
    evaluation fails inside, it returns the neutral critique: every one of
    the eight dimension scores is 3.0, the overall score is 3.0, the list
    of critique points is empty, and the only generic item is the single
    improvement priority "General improvement needed". *)
Theorem judge_failure_policy (E : Env) (variant : ContentVariant)
  (ts : Section) (ev : list SearchResult) (w : World) :
  (exists c w', evaluate_variant E variant ts ev w = (Ok c, w'))
  /\ (forall e w1,
        evaluate_variant_body E variant ts ev w = (Raise e, w1) ->
        exists c w',
          evaluate_variant E variant ts ev w = (Ok c, w')
          /\ overall_score c = 3.0%Q
          /\ dimension_scores c =
               map (fun d => (EvaluationDimension_value d, 3.0%Q))
                 all_EvaluationDimension
          /\ critique_points c = []
          /\ improvement_priorities c = ["General improvement needed"]
          /\ target_variant_id c = variant_id variant).
Proof.
  split; [apply evaluate_variant_total|].
  intros e w1 Hbody. unfold evaluate_variant, try_except. rewrite Hbody.
  apply fallback_critique_spec.
Qed.

Lemma judge_failure_policy_witness :
  exists c w',
    evaluate_variant failing_env (demo_variant "v1" demo_content)
      malformed_section demo_research (SelfEvolutionAgent_init true)
    = (Ok c, w')
    /\ overall_score c = 3.0%Q
    /\ critique_points c = [].
Proof.
  destruct (judge_failure_policy failing_env (demo_variant "v1" demo_content)
              malformed_section demo_research (SelfEvolutionAgent_init true))
    as [_ H].
  edestruct H as (c & w' & H1 & H2 & _ & H3 & _);
    [vm_compute; reflexivity|].
  exists c, w'. auto.
Defined.

(** C3, as stated, fails: the neutral critique returned on failure has no
    critique point at all, not exactly one. *)
Lemma judge_failure_no_critique_point :
  exists e w1 c w',
    evaluate_variant_body failing_env (demo_variant "v1" demo_content)
      malformed_section demo_research (SelfEvolutionAgent_init true)
    = (Raise e, w1)
    /\ evaluate_variant failing_env (demo_variant "v1" demo_content)
         malformed_section demo_research (SelfEvolutionAgent_init true)
       = (Ok c, w')
    /\ List.length (critique_points c) <> 1%nat.
Proof.
  do 4 eexists. split; [vm_compute; reflexivity|].
  split; [vm_compute; reflexivity|]. simpl. discriminate.
Qed.

Lemma py_int_nonneg x : (0 <= x)%Q -> py_int x = Qfloor x.
Proof.
  destruct x as [n d]. unfold Qle, py_int, Qfloor; simpl. intros H.
  apply Z.quot_div_nonneg; lia.
Qed.

Lemma Qfloor_bounds x (lo hi : Z) :
  (inject_Z lo <= x)%Q -> (x < inject_Z hi + 1)%Q ->
  (lo <= Qfloor x <= hi)%Z.
Proof.
  intros Hlo Hhi. split.
  - apply Qfloor_resp_le in Hlo. now rewrite Qfloor_Z in Hlo.
  - pose proof (Qfloor_le x) as Hf.
    assert (H : (inject_Z (Qfloor x) < inject_Z (hi + 1))%Q)
      by (rewrite inject_Z_plus; eapply Qle_lt_trans; eauto).
    rewrite <- Zlt_Qlt in H. lia.
Qed.

(** C4 (as amended).  A dimension scoring strictly below 3.0 yields exactly
    one critique point, for that dimension, whose severity is the integer
    part of [4 - score] (truncation, with no rounding and no clamping) and
    whose priority equals its severity; for a score in [1.0, 3.0) that
    severity is 1, 2 or 3.  A dimension scoring 3.0 or more yields no
    critique point. *)
Theorem critique_point_severity (E : Env) (content : string)
  (dim : EvaluationDimension) (score : Q) (crit : Criteria) (w : World) :
  exists pts w',
    _generate_dimension_critique_points E content dim score crit w
    = (Ok pts, w')
    /\ ((score < 3.0)%Q ->
        exists p,
          pts = [p]
          /\ dimension p = dim
          /\ severity p = py_int (4 - score)%Q
          /\ priority_level p = severity p
          /\ (inject_Z (severity p) <= 4 - score
              /\ 4 - score < inject_Z (severity p) + 1)%Q
          /\ ((1.0 <= score)%Q -> (1 <= severity p <= 3)%Z))
    /\ ((3.0 <= score)%Q -> pts = []).
Proof.
  unfold _generate_dimension_critique_points.
  destruct (Qltb score 3.0) eqn:Hlt.
  - apply Qltb_lt in Hlt.
    unfold bind, now_isoformat, bind, datetime_now, ret. simpl.
    do 2 eexists. split; [reflexivity|]. split.
    + intros _. eexists. split; [reflexivity|]. simpl.
      assert (Hpos : (0 <= 4 - score)%Q) by lra.
      rewrite (py_int_nonneg _ Hpos).
      split; [reflexivity|]. split; [reflexivity|]. split; [reflexivity|].
      split; [split|].
      * apply Qfloor_le.
      * pose proof (Qlt_floor (4 - score)%Q) as H.
        rewrite inject_Z_plus in H. exact H.
      * intros Hge. apply Qfloor_bounds; unfold inject_Z; lra.
    + intros Hge. exfalso. lra.
  - apply Qltb_ge in Hlt. unfold ret.
    do 2 eexists. split; [reflexivity|]. split.
    + intros H. exfalso. lra.
    + reflexivity.
Qed.

Lemma critique_point_severity_witness :
  exists pts w' p,
    _generate_dimension_critique_points source_env demo_content
      EVIDENCE_QUALITY 2.4%Q
      {| weight := 0.15%Q;
         description := "Quality and integration of supporting evidence";
         rubric := [] |}
      (SelfEvolutionAgent_init true)
    = (Ok pts, w')
    /\ pts = [p] /\ severity p = 1%Z /\ priority_level p = 1%Z.
Proof.
  destruct (critique_point_severity source_env demo_content EVIDENCE_QUALITY
              2.4%Q
              {| weight := 0.15%Q;
                 description :=
                   "Quality and integration of supporting evidence";
                 rubric := [] |}
              (SelfEvolutionAgent_init true))
    as (pts & w' & Hrun & Hlow & _).
  destruct (Hlow ltac:(reflexivity)) as (p & Hp & _ & Hs & Hpr & _).
  exists pts, w', p. rewrite Hpr, Hs. auto.
Defined.

(** C4, as stated, fails: at score 2.4 the code gives severity
    [int(1.6) = 1], where [clamp(round(4 - 2.4), 1, 5) = 2]. *)
Lemma severity_truncates_not_rounds :
  exists p w',
    _generate_dimension_critique_points source_env demo_content
      EVIDENCE_QUALITY 2.4%Q
      {| weight := 0.15%Q;
         description := "Quality and integration of supporting evidence";
         rubric := [] |}
      (SelfEvolutionAgent_init true)
    = (Ok [p], w')
    /\ severity p = 1%Z
    /\ spec_severity 2.4%Q = 2%Z
    /\ severity p <> spec_severity 2.4%Q.
Proof.
  do 2 eexists. split; [vm_compute; reflexivity|].
  repeat split; vm_compute; congruence.
Qed.

(** C5.  The eight dimension weights are the fixed ones and sum to 1;
    every dimension score that [_calculate_dimension_score] returns lies in
    [1, 5]; and every critique that [evaluate_variant] returns (it always
    returns one) has all its dimension scores and its overall score in
    [1, 5], the overall score of a successful evaluation being the weighted
    sum of the dimension scores. *)
Theorem quality_weights_and_score_bounds (E : Env) :
  map (fun dc => (fst dc, weight (snd dc))) evaluation_criteria
  = [ (ACCURACY, 0.2%Q); (COMPLETENESS, 0.15%Q); (COHERENCE, 0.15%Q);
      (ORIGINALITY, 0.1%Q); (EVIDENCE_QUALITY, 0.15%Q);
      (LOGICAL_FLOW, 0.1%Q); (CRITICAL_THINKING, 0.1%Q);
      (SYNTHESIS_QUALITY, 0.05%Q) ]
  /\ (total_weight evaluation_criteria == 1.0)%Q
  /\ (Qabs (total_weight evaluation_criteria - 1.0) <= 0.000001)%Q
  /\ (forall content dim crit ts ev w,
        returns (_calculate_dimension_score E content dim crit ts ev) w
          (fun s _ => (1.0 <= s <= 5.0)%Q))
  /\ (forall variant ts ev w,
        returns (evaluate_variant_body E variant ts ev) w
          (fun c _ => overall_score c = weighted_sum (dimension_scores c)))
  /\ (forall variant ts ev w,
        exists c w',
          evaluate_variant E variant ts ev w = (Ok c, w')
          /\ (1.0 <= overall_score c <= 5.0)%Q
          /\ Forall (fun kv => (1.0 <= snd kv <= 5.0)%Q)
               (dimension_scores c)).
Proof.
  split; [reflexivity|]. split; [reflexivity|].
  split; [vm_compute; discriminate|].
  split; [intros; apply calculate_dimension_score_bounds|].
  split; [intros; apply evaluate_variant_body_weighted|].
  intros variant ts ev w.
  pose proof (evaluate_variant_body_range E variant ts ev w) as Hbody.
  unfold evaluate_variant, try_except, returns in *.
  destruct (evaluate_variant_body E variant ts ev w) as [[c|e] w1].
  - exists c, w1. destruct Hbody as [Ho Hd]. auto.
  - destruct (fallback_critique_spec E variant w1)
      as (c & w' & Hrun & Ho & Hd & _).
    exists c, w'. split; [exact Hrun|]. rewrite Ho, Hd.
    split; [split; discriminate|].
    repeat constructor; simpl; discriminate.
Qed.

(** ** The merger *)

Lemma dict_set_nonempty {V} k (v : V) d : dict_set k v d <> [].
Proof.
  destruct d as [|[k' v'] d]; simpl; [|destruct (String.eqb k k')];
    discriminate.
Qed.

Lemma fold_dict_set_Forall {A V} (P : V -> Prop) (key : A -> string)
  (val : A -> V) xs :
  (forall x, In x xs -> P (val x)) ->
  forall d, Forall (fun kv => P (snd kv)) d ->
    Forall (fun kv => P (snd kv))
      (fold_left (fun d x => dict_set (key x) (val x) d) xs d).
Proof.
  induction xs as [|x xs IH]; intros HP d Hd; simpl; [exact Hd|].
  apply IH.
  - intros y Hy. apply HP. now right.
  - apply dict_set_Forall; [apply HP; now left | exact Hd].
Qed.

Lemma fold_dict_set_nonempty {A V} (key : A -> string) (val : A -> V) xs :
  forall d, (xs <> [] \/ d <> []) ->
    fold_left (fun d x => dict_set (key x) (val x) d) xs d <> [].
Proof.
  induction xs as [|x xs IH]; intros d H; simpl.
  - destruct H; congruence.
  - apply IH. right. apply dict_set_nonempty.
Qed.

Lemma max_by_Forall {A} (P : A -> Prop) (key : A -> Q) xs :
  forall x, P x -> Forall P xs -> P (max_by key x xs).
Proof.
  unfold max_by. induction xs as [|y xs IH]; intros x Hx Hxs; simpl; [exact Hx|].
  inversion Hxs; subst. apply IH; [|assumption].
  destruct (Qltb (key x) (key y)); assumption.
Qed.

Lemma fold_max_const (n : nat) ns :
  Forall (fun m => m = n) ns -> fold_left Nat.max ns n = n.
Proof.
  induction ns as [|m ns IH]; intros H; simpl; [reflexivity|].
  inversion H; subst. rewrite Nat.max_id. auto.
Qed.

Lemma flat_map_singletons {A} (f : nat -> list A) (xs : list A) :
  forall a,
    (forall i x, nth_error xs i = Some x -> f (a + i) = [x]) ->
    flat_map f (seq a (List.length xs)) = xs.
Proof.
  induction xs as [|x xs IH]; intros a Hf; simpl; [reflexivity|].
  pose proof (Hf 0 x eq_refl) as H0. rewrite Nat.add_0_r in H0.
  rewrite H0. simpl. f_equal.
  apply IH. intros i y Hi. rewrite Nat.add_succ_comm. apply (Hf (S i) y Hi).
Qed.

(** Every candidate for a section index carries the section that all the
    variants share at that index. *)
Lemma section_candidates_same (critique_map : dict ComprehensiveCritique)
  (sections : list string) (idx : nat) (section : string)
  (variant_sections : dict (list string)) :
  nth_error sections idx = Some section ->
  Forall (fun kv => snd kv = sections) variant_sections ->
  let candidates :=
    flat_map
      (fun '(variant_id, sections) =>
         match nth_error sections idx with
         | Some section =>
             [ {| sc_content := section;
                  sc_quality := score_of critique_map 3.0%Q variant_id;
                  sc_variant_id := variant_id |} ]
         | None => []
         end)
      variant_sections in
  Forall (fun c => sc_content c = section) candidates
  /\ (variant_sections <> [] -> candidates <> []).
Proof.
  intros Hnth Hall. induction Hall as [|[k s] d Hs Hd IH]; simpl.
  - split; [constructor | congruence].
  - simpl in Hs. subst s. rewrite Hnth. simpl. destruct IH as [IH _].
    split; [constructor; [reflexivity | exact IH] | discriminate].
Qed.

Lemma LFLF_nonempty : PyStr.LFLF <> "".
Proof. discriminate. Qed.

(** Merging variants that all carry the same text gives that text back. *)
Lemma merge_best_sections_identical (base : string)
  (variants : list ContentVariant) (critiques : list ComprehensiveCritique) :
  variants <> [] ->
  Forall (fun v => content v = base) variants ->
  _merge_best_sections variants critiques = Ok base.
Proof.
  intros Hne Hall. unfold _merge_best_sections.
  set (critique_map := dict_of target_variant_id (fun c => c) critiques).
  set (sections := PyStr.split PyStr.LFLF base).
  set (variant_sections :=
         dict_of variant_id (fun v => PyStr.split PyStr.LFLF (content v))
           variants).
  assert (Hvs : Forall (fun kv => snd kv = sections) variant_sections).
  { unfold variant_sections, dict_of.
    apply (fold_dict_set_Forall (fun s => s = sections)); [|constructor].
    intros v Hv. rewrite Forall_forall in Hall. now rewrite (Hall v Hv). }
  assert (Hvne : variant_sections <> [])
    by (unfold variant_sections, dict_of;
        apply fold_dict_set_nonempty; now left).
  assert (Hlen : Forall (fun m => m = List.length sections)
                   (map (fun kv => List.length (snd kv)) variant_sections)).
  { rewrite Forall_map. eapply Forall_impl; [|exact Hvs].
    intros kv Hkv; simpl in *. now rewrite Hkv. }
  destruct (map (fun kv => List.length (snd kv)) variant_sections)
    as [|n ns] eqn:Hmap.
  - destruct variant_sections; [congruence | discriminate].
  - inversion Hlen as [|? ? Hn Hns]; subst n.
    rewrite (fold_max_const _ _ Hns).
    rewrite (flat_map_singletons _ sections 0).
    + f_equal. apply join_split. exact LFLF_nonempty.
    + intros i section Hi. simpl.
      destruct (section_candidates_same critique_map sections i section
                  variant_sections Hi Hvs) as [Hsame Hcne].
      specialize (Hcne Hvne). cbv zeta in Hsame, Hcne.
      match goal with |- match ?cands with _ => _ end = _ =>
        destruct cands as [|c cs] end; [congruence|].
      f_equal. inversion Hsame as [|? ? Hc Hcs]; subst.
      apply (max_by_Forall (fun c' => sc_content c' = sc_content c));
        [reflexivity | exact Hcs].
Qed.

(** C7.  Whatever the critiques and the strategy, merging no variant gives
    the empty string and merging a single variant gives its content
    unchanged. *)
Theorem merge_base_cases (critiques : list ComprehensiveCritique)
  (strategy : string) (v : ContentVariant) :
  merge_variants [] critiques strategy = ""
  /\ merge_variants [v] critiques strategy = content v.
Proof. split; reflexivity. Qed.

(** ** Frames: what a computation leaves unchanged *)

Section Frames.

Context {R : World -> World -> Prop} {HR : PreOrder R}.

Lemma preserves_ret {A} (a : A) : preserves R (ret a).
Proof. intros w. reflexivity. Qed.

Lemma preserves_raise {A} e : preserves R (@raise A e).
Proof. intros w. reflexivity. Qed.

Lemma preserves_lift {A} (r : result A) : preserves R (lift r).
Proof. intros w. reflexivity. Qed.

Lemma preserves_get : preserves R get.
Proof. intros w. reflexivity. Qed.

Lemma preserves_modify (f : World -> World) :
  (forall w, R w (f w)) -> preserves R (modify f).
Proof. intros H w. apply H. Qed.

Lemma preserves_bind {A B} (c : M A) (k : A -> M B) :
  preserves R c -> (forall a, preserves R (k a)) -> preserves R (bind c k).
Proof.
  intros Hc Hk w. unfold bind. specialize (Hc w).
  destruct (c w) as [[a|e] w1]; simpl in *; [|exact Hc].
  etransitivity; [exact Hc | apply Hk].
Qed.

Lemma preserves_try_except {A} (c : M A) (h : exn -> M A) :
  preserves R c -> (forall e, preserves R (h e)) ->
  preserves R (try_except c h).
Proof.
  intros Hc Hh w. unfold try_except. specialize (Hc w).
  destruct (c w) as [[a|e] w1]; simpl in *; [exact Hc|].
  etransitivity; [exact Hc | apply Hh].
Qed.

Lemma preserves_for_each {A S} (xs : list A) (body : A -> S -> M S) :
  (forall x s, In x xs -> preserves R (body x s)) ->
  forall s, preserves R (for_each xs body s).
Proof.
  induction xs as [|x xs IH]; intros Hbody s; simpl.
  - apply preserves_ret.
  - apply preserves_bind; [apply Hbody; now left|].
    intros s'. apply IH. intros y s'' Hy. apply Hbody. now right.
Qed.

End Frames.

Lemma preserves_weaken {A} (R1 R2 : World -> World -> Prop) (c : M A) :
  (forall w w', R1 w w' -> R2 w w') -> preserves R1 c -> preserves R2 c.
Proof. intros H Hc w. apply H, Hc. Qed.

#[export] Instance agent_frame_preorder : PreOrder agent_frame.
Proof.
  split.
  - intros w. repeat split; reflexivity.
  - intros w1 w2 w3 (H1 & H2 & H3 & H4 & H5) (G1 & G2 & G3 & G4 & G5).
    repeat split; congruence.
Qed.

Lemma same_but_scores_refl v : same_but_scores v v.
Proof. destruct v; reflexivity. Qed.

Lemma same_but_scores_trans v1 v2 v3 :
  same_but_scores v1 v2 -> same_but_scores v2 v3 -> same_but_scores v1 v3.
Proof.
  unfold same_but_scores. intros H12 H23. rewrite H23 at 1. rewrite H12.
  reflexivity.
Qed.

#[export] Instance heap_frame_preorder touched : PreOrder (heap_frame touched).
Proof.
  split.
  - intros w r v Hr. exists v. split; [exact Hr|].
    split; [apply same_but_scores_refl | reflexivity].
  - intros w1 w2 w3 H12 H23 r v Hr.
    destruct (H12 r v Hr) as (v2 & Hr2 & Hs2 & Hu2).
    destruct (H23 r v2 Hr2) as (v3 & Hr3 & Hs3 & Hu3).
    exists v3. split; [exact Hr3|]. split.
    + eapply same_but_scores_trans; eauto.
    + intros Hn. rewrite (Hu3 Hn). apply Hu2, Hn.
Qed.

Lemma nth_error_heap_update_same r f h v :
  nth_error h r = Some v -> nth_error (heap_update r f h) r = Some (f v).
Proof.
  revert r; induction h as [|x h IH]; intros [|r] H; simpl in *;
    try discriminate.
  - now inversion H.
  - auto.
Qed.

Lemma nth_error_heap_update_other r r' f h :
  r <> r' -> nth_error (heap_update r f h) r' = nth_error h r'.
Proof.
  revert r r'; induction h as [|x h IH]; intros [|r] [|r'] H; simpl;
    try reflexivity; try congruence.
  apply IH. congruence.
Qed.

Lemma heap_update_length r f h :
  List.length (heap_update r f h) = List.length h.
Proof.
  revert r; induction h as [|x h IH]; intros [|r]; simpl; auto.
Qed.

Create HintDb frame.

Lemma agent_frame_clock n w : agent_frame w (with_ticks n w).
Proof. repeat split. Qed.

Lemma agent_frame_draws n w : agent_frame w (with_draws n w).
Proof. repeat split. Qed.

Lemma agent_frame_heap h w : agent_frame w (with_heap h w).
Proof. repeat split. Qed.

Lemma heap_frame_same_heap touched w w' :
  heap w' = heap w -> heap_frame touched w w'.
Proof.
  intros H r v Hr. exists v. rewrite H. split; [exact Hr|].
  split; [apply same_but_scores_refl | reflexivity].
Qed.

Lemma heap_frame_alloc touched v w :
  heap_frame touched w (with_heap (heap w ++ [v]) w).
Proof.
  intros r x Hr. exists x. simpl. split.
  - rewrite nth_error_app1; [exact Hr|].
    apply nth_error_Some. congruence.
  - split; [apply same_but_scores_refl | reflexivity].
Qed.

Lemma heap_frame_set_scores touched r scores w :
  In r touched ->
  heap_frame touched w
    (with_heap (heap_update r (with_quality_scores scores) (heap w)) w).
Proof.
  intros Hin r' v Hr'. simpl.
  destruct (Nat.eq_dec r r') as [->|Hne].
  - exists (with_quality_scores scores v).
    split; [now apply nth_error_heap_update_same|].
    split; [reflexivity | intros Hn; contradiction].
  - exists v. rewrite nth_error_heap_update_other by exact Hne.
    split; [exact Hr'|]. split; [apply same_but_scores_refl | reflexivity].
Qed.

Section Primitives.

Variable E : Env.

Lemma datetime_now_agent : preserves agent_frame (datetime_now E).
Proof. intros w. apply agent_frame_clock. Qed.

Lemma random_uniform_agent a b : preserves agent_frame (random_uniform E a b).
Proof. intros w. apply agent_frame_draws. Qed.

Lemma alloc_agent v : preserves agent_frame (alloc v).
Proof. intros w. apply agent_frame_heap. Qed.

Lemma deref_agent r : preserves agent_frame (deref r).
Proof.
  intros w. unfold deref. destruct (nth_error (heap w) r); reflexivity.
Qed.

Lemma set_quality_scores_agent r scores :
  preserves agent_frame (set_quality_scores r scores).
Proof. intros w. apply agent_frame_heap. Qed.

Lemma datetime_now_heap touched : preserves (heap_frame touched) (datetime_now E).
Proof. intros w. now apply heap_frame_same_heap. Qed.

Lemma random_uniform_heap touched a b :
  preserves (heap_frame touched) (random_uniform E a b).
Proof. intros w. now apply heap_frame_same_heap. Qed.

Lemma alloc_heap touched v : preserves (heap_frame touched) (alloc v).
Proof. intros w. apply heap_frame_alloc. Qed.

Lemma deref_heap touched r : preserves (heap_frame touched) (deref r).
Proof.
  intros w. unfold deref. destruct (nth_error (heap w) r); reflexivity.
Qed.

Lemma set_quality_scores_heap touched r scores :
  In r touched -> preserves (heap_frame touched) (set_quality_scores r scores).
Proof. intros H w. now apply heap_frame_set_scores. Qed.

End Primitives.

#[export] Hint Resolve datetime_now_agent random_uniform_agent alloc_agent
  deref_agent set_quality_scores_agent datetime_now_heap random_uniform_heap
  alloc_heap deref_heap set_quality_scores_heap : frame.

(** One step of a frame proof: follow the structure of the computation. *)
Ltac frame_step :=
  cbv beta zeta;
  lazymatch goal with
  | |- preserves _ (bind _ _) => apply preserves_bind; [|intros]
  | |- preserves _ (try_except _ _) => apply preserves_try_except; [|intros]
  | |- preserves _ (for_each _ _ _) => apply preserves_for_each; intros
  | |- preserves _ (ret _) => apply preserves_ret
  | |- preserves _ (raise _) => apply preserves_raise
  | |- preserves _ (lift _) => apply preserves_lift
  | |- preserves _ get => apply preserves_get
  | |- preserves _ (modify _) => apply preserves_modify; intros
  | |- preserves _ (match ?x with _ => _ end) => destruct x
  | |- preserves _ ((match ?x with _ => _ end) _) => destruct x
  end.

Ltac frame :=
  repeat first
    [ solve [eauto with frame typeclass_instances] | frame_step ].

Section ComponentFrames.

Variable E : Env.
Context {R : World -> World -> Prop} {HR : PreOrder R}.
Hypothesis R_clock : preserves R (datetime_now E).
Hypothesis R_random : forall a b, preserves R (random_uniform E a b).

Lemma now_isoformat_frame : preserves R (now_isoformat E).
Proof. unfold now_isoformat. frame. Qed.

Hint Resolve now_isoformat_frame : frame.

Lemma generate_variant_frame request : preserves R (generate_variant E request).
Proof. unfold generate_variant, _create_fallback_variant. frame. Qed.

Lemma create_minimal_variant_frame base :
  preserves R (_create_minimal_variant E base).
Proof. unfold _create_minimal_variant. frame. Qed.

Lemma evaluate_variant_frame variant ts ev :
  preserves R (evaluate_variant E variant ts ev).
Proof.
  unfold evaluate_variant, evaluate_variant_body, _create_fallback_critique,
    _evaluate_dimension, _calculate_dimension_score,
    _generate_dimension_critique_points.
  frame.
Qed.

End ComponentFrames.

Lemma get_config_frame {R} {HR : PreOrder R} : preserves R get_config.
Proof. unfold get_config. frame. Qed.

Lemma get_progress_frame {R} {HR : PreOrder R} : preserves R get_progress.
Proof. unfold get_progress. frame. Qed.

#[export] Hint Resolve get_config_frame get_progress_frame : frame.

Section EngineFrames.

Variable E : Env.
Context {R : World -> World -> Prop} {HR : PreOrder R}.
Hypothesis R_clock : preserves R (datetime_now E).
Hypothesis R_random : forall a b, preserves R (random_uniform E a b).
Hypothesis R_alloc : forall v, preserves R (alloc v).
Hypothesis R_deref : forall r, preserves R (deref r).

Hint Resolve now_isoformat_frame generate_variant_frame
  create_minimal_variant_frame evaluate_variant_frame : frame.

Lemma generate_variants_task_parallel_frame base rr ts vts :
  preserves R (_generate_variants_task_parallel E base rr ts vts).
Proof. unfold _generate_variants_task_parallel. frame. Qed.

Lemma generate_variants_sequential_frame base rr ts vts :
  preserves R (_generate_variants_sequential E base rr ts vts).
Proof. unfold _generate_variants_sequential. frame. Qed.

Hint Resolve generate_variants_task_parallel_frame
  generate_variants_sequential_frame : frame.

Lemma generate_variants_parallel_frame base rr ts :
  preserves R (_generate_variants_parallel E base rr ts).
Proof. unfold _generate_variants_parallel. frame. Qed.

Lemma evaluate_variants_frame variants ts rr :
  (forall r scores, In r variants -> preserves R (set_quality_scores r scores)) ->
  preserves R (_evaluate_variants E variants ts rr).
Proof. intros Hset. unfold _evaluate_variants. frame. Qed.

Lemma deref_all_frame variants : preserves R (deref_all variants).
Proof. induction variants; simpl; frame. Qed.

Lemma next_with_id_frame id variants : preserves R (next_with_id id variants).
Proof. induction variants; simpl; frame. Qed.

Hint Resolve deref_all_frame next_with_id_frame : frame.

Lemma merge_variants_frame variants critiques :
  preserves R (_merge_variants variants critiques).
Proof. unfold _merge_variants. frame. Qed.

Lemma calculate_quality_improvement_frame critiques :
  preserves R (_calculate_quality_improvement critiques).
Proof. unfold _calculate_quality_improvement. frame. Qed.

Lemma detect_plateau_frame : preserves R _detect_plateau.
Proof. unfold _detect_plateau. frame. Qed.

Hint Resolve detect_plateau_frame : frame.

Lemma check_convergence_frame score iteration :
  preserves R (_check_convergence E score iteration).
Proof. unfold _check_convergence. frame. Qed.

Lemma compile_evolution_results_frame best_content best_score :
  preserves R (_compile_evolution_results E best_content best_score).
Proof.
  unfold _compile_evolution_results, _generate_evolution_recommendations.
  frame.
Qed.

End EngineFrames.

Section AgentFrames.

Variable E : Env.

Lemma generate_variants_parallel_agent base rr ts :
  preserves agent_frame (_generate_variants_parallel E base rr ts).
Proof. apply generate_variants_parallel_frame; auto with frame typeclass_instances. Qed.

Lemma evaluate_variants_agent variants ts rr :
  preserves agent_frame (_evaluate_variants E variants ts rr).
Proof. apply evaluate_variants_frame; auto with frame typeclass_instances. Qed.

Lemma merge_variants_agent variants critiques :
  preserves agent_frame (_merge_variants variants critiques).
Proof. apply merge_variants_frame; auto with frame typeclass_instances. Qed.

Lemma calculate_quality_improvement_agent critiques :
  preserves agent_frame (_calculate_quality_improvement critiques).
Proof.
  apply calculate_quality_improvement_frame;
    auto with frame typeclass_instances.
Qed.

Lemma check_convergence_agent score iteration :
  preserves agent_frame (_check_convergence E score iteration).
Proof.
  apply check_convergence_frame; auto with frame typeclass_instances.
Qed.

Lemma compile_evolution_results_agent best_content best_score :
  preserves agent_frame (_compile_evolution_results E best_content best_score).
Proof. apply compile_evolution_results_frame; auto with frame typeclass_instances. Qed.

Lemma now_isoformat_agent : preserves agent_frame (now_isoformat E).
Proof. apply now_isoformat_frame; auto with frame typeclass_instances. Qed.

End AgentFrames.

(** ** Stepping through a computation *)

Lemma bind_inv {A B} (c : M A) (k : A -> M B) w r w' :
  bind c k w = (r, w') ->
  (exists a w1, c w = (Ok a, w1) /\ k a w1 = (r, w'))
  \/ (exists e, c w = (Raise e, w') /\ r = Raise e).
Proof.
  unfold bind. destruct (c w) as [[a|e] w1]; intros H.
  - left. eauto.
  - right. inversion H; subst. eauto.
Qed.

(** Split [H : bind c k w = (r, w')] into the run of [c] and the run of
    [k], recording that [c] preserves the agent's attributes. *)
Ltac bind_step H lem :=
  let a := fresh "a" in
  let w1 := fresh "w" in
  let Hc := fresh "Hc" in
  let e := fresh "e" in
  let F := fresh "F" in
  apply bind_inv in H as [(a & w1 & Hc & H) | (e & Hc & ->)];
  match type of Hc with
  | ?c ?w = _ =>
      pose proof (lem w : agent_frame w (snd (c w))) as F;
      rewrite Hc in F; simpl in F;
      destruct F as (? & ? & ? & ? & ?)
  end.

Lemma execute_iteration_spec E n base rr ts w r w' :
  _execute_evolution_iteration E n base rr ts w = (r, w') ->
  tools_Task w' = tools_Task w
  /\ config w' = config w
  /\ current_evolution w' = current_evolution w
  /\ evolution_progress w' = evolution_progress w
  /\ match r with
     | Ok res =>
         exists it,
           evolution_history w' = (evolution_history w ++ [it])%list
           /\ iteration_best it = ir_best_score res
           /\ merged_result it = ir_best_content res
           /\ iteration_number it = n
     | Raise _ => evolution_history w' = evolution_history w
     end.
Proof.
  unfold _execute_evolution_iteration. intros H.
  bind_step H (datetime_now_agent E); [|repeat split; congruence].
  bind_step H (@preserves_get agent_frame _); [|repeat split; congruence].
  bind_step H (generate_variants_parallel_agent E base rr ts);
    [|repeat split; congruence].
  bind_step H (evaluate_variants_agent E a1 ts rr);
    [|repeat split; congruence].
  bind_step H (merge_variants_agent a1 a2); [|repeat split; congruence].
  bind_step H (calculate_quality_improvement_agent a2);
    [|repeat split; congruence].
  bind_step H (datetime_now_agent E); [|repeat split; congruence].
  bind_step H (now_isoformat_agent E); [|repeat split; congruence].
  unfold bind, modify, ret in H. inversion H; subst; clear H. simpl.
  repeat split; try congruence.
  eexists. split; [f_equal; congruence|]. simpl. repeat split.
Qed.

Lemma update_progress_some f w p :
  evolution_progress w = Some p ->
  update_progress f w = (Ok tt, with_evolution_progress (Some (f p)) w).
Proof.
  intros H. unfold update_progress, get_progress, bind, get, modify.
  rewrite H. reflexivity.
Qed.

Lemma update_progress_with f p w :
  update_progress f (with_evolution_progress (Some p) w)
  = (Ok tt, with_evolution_progress (Some (f p)) w).
Proof. reflexivity. Qed.

Lemma last_cons_default {A} (x : A) xs d d' : last (x :: xs) d = last (x :: xs) d'.
Proof.
  revert x. induction xs as [|y xs IH]; intros x; [reflexivity|].
  simpl in *. apply IH.
Qed.

Lemma last_skip {A} (a b : A) l d d' :
  last (b :: l) d' = last (a :: b :: l) d.
Proof. simpl. apply (last_cons_default b l d' d). Qed.

(** The loop of [evolve_content], from any state in which progress
    tracking is initialised: each iteration appends one audit record and
    one entry to the score history, and counts as one completed
    iteration. *)
Lemma evolution_loop_spec E rr ts :
  forall remaining iteration bc bs w p r w',
    evolution_progress w = Some p ->
    evolution_loop E rr ts remaining iteration bc bs w = (r, w') ->
    exists p' its,
      evolution_progress w' = Some p'
      /\ evolution_history w' = (evolution_history w ++ its)%list
      /\ config w' = config w
      /\ score_history p' =
           (score_history p
            ++ running_best bs (map iteration_best its))%list
      /\ completed_iterations p' =
           (completed_iterations p + Z.of_nat (List.length its))%Z
      /\ (List.length its <= remaining)%nat
      /\ (its = [] -> p' = p)
      /\ (its <> [] ->
          current_best_score p' =
            last (running_best bs (map iteration_best its)) bs)
      /\ (forall res, r = Ok res ->
            snd res = last (running_best bs (map iteration_best its)) bs
            /\ (remaining <> 0%nat -> its <> [])).
Proof.
  induction remaining as [|remaining IH];
    intros iteration bc bs w p r w' Hp H; simpl in H.
  - inversion H; subst. exists p, []. rewrite !app_nil_r. simpl.
    repeat split; auto; try lia; try congruence.
    inversion H0; reflexivity.
  - apply bind_inv in H as [(res & w1 & Hc & H) | (e & Hc & ->)];
      apply execute_iteration_spec in Hc;
      destruct Hc as (Ht & Hcfg & Hcur & Hprog & Hhist).
    2:{ exists p, []. rewrite !app_nil_r, Hhist. simpl.
        repeat split; auto; try lia; try congruence; try discriminate. }
    destruct Hhist as (it & Hhist & Hbest & _ & _).
    rewrite Hp in Hprog.
    set (bs1 := if Qltb bs (ir_best_score res)
                then ir_best_score res else bs) in *.
    set (bc1 := if Qltb bs (ir_best_score res)
                then ir_best_content res else bc) in *.
    assert (Hsel : (if Qltb bs (ir_best_score res)
                    then (ir_best_content res, ir_best_score res)
                    else (bc, bs)) = (bc1, bs1))
      by (unfold bc1, bs1; destruct (Qltb bs (ir_best_score res));
          reflexivity).
    rewrite Hsel in H.
    unfold bind at 1 in H. rewrite (update_progress_some _ _ _ Hprog) in H.
    unfold bind at 1 in H. rewrite update_progress_with in H.
    unfold bind at 1 in H. rewrite update_progress_with in H.
    cbv beta iota in H.
    match type of H with
    | bind _ _ ?w2 = _ => set (wu := w2) in *
    end.
    apply bind_inv in H as [([cont reason] & w3 & Hc & H) | (e & Hc & ->)];
      pose proof (check_convergence_agent E bs1 (iteration + 1) wu) as F;
      rewrite Hc in F; simpl in F; destruct F as (_ & Fc & _ & Fp & Fh).
    2:{ eexists. exists [it]. rewrite Fp, Fh, Fc. simpl.
        rewrite Hbest. fold bs1.
        repeat split; auto; try lia; try congruence; try discriminate. }
    destruct cont.
    + eapply IH in H; [|rewrite Fp; reflexivity].
      destruct H as (p' & its & Gp & Gh & Gc & Gs & Gn & Gl & Ge & Gb & Gr).
      exists p', (it :: its). simpl in Gs, Gn. simpl map. simpl running_best.
      rewrite Hbest. fold bs1.
      split; [exact Gp|].
      split; [rewrite Gh, Fh; simpl; rewrite Hhist, <- app_assoc; reflexivity|].
      split; [rewrite Gc, Fc; simpl; exact Hcfg|].
      split; [rewrite Gs, <- app_assoc; reflexivity|].
      split; [rewrite Gn; simpl List.length; lia|].
      split; [simpl; lia|].
      split; [discriminate|].
      split.
      * intros _. destruct its as [|it2 its].
        -- rewrite (Ge eq_refl). reflexivity.
        -- rewrite Gb by discriminate.
           simpl map. simpl running_best. apply last_skip.
      * intros res' Hres. destruct (Gr res' Hres) as [Gv _].
        split; [|discriminate].
        rewrite Gv. destruct its as [|it2 its]; [reflexivity|].
        simpl map. simpl running_best. apply last_skip.
    + unfold ret in H. inversion H; subst.
      eexists. exists [it]. rewrite Fp, Fh, Fc. simpl.
      rewrite Hbest. fold bs1.
      repeat split; auto; try lia; try congruence; try discriminate.
      match goal with
      | Hres : Ok _ = Ok ?x |- snd ?x = _ => inversion Hres; reflexivity
      end.
Qed.

(** ** The entry point *)

Lemma evolve_content_body_invalid E id input w :
  in_content input = None \/ in_content input = Some ""
  \/ in_target_section input = None ->
  evolve_content_body E id input w
  = (Raise (ValueError "Missing required input: content or target_section"),
     with_current_evolution (Some id) w).
Proof.
  intros H. unfold evolve_content_body, bind, modify, raise.
  destruct input as [c rr t cc]; simpl in *.
  destruct H as [-> | [-> | ->]]; try reflexivity.
  destruct c as [[|? ?]|]; reflexivity.
Qed.

(** The configuration in force during a run: the agent's configuration
    overridden by the ['config'] entry of the input. *)
Lemma evolve_content_body_valid E id input w c ts r w' :
  in_content input = Some c -> c <> "" ->
  in_target_section input = Some ts ->
  evolve_content_body E id input w = (r, w') ->
  config w' = match in_config input with
              | Some custom => config_update custom (config w)
              | None => config w
              end
  /\ exists p its,
       evolution_progress w' = Some p
       /\ evolution_history w' = (evolution_history w ++ its)%list
       /\ score_history p = running_best 0.0%Q (map iteration_best its)
       /\ completed_iterations p = Z.of_nat (List.length its)
       /\ (List.length its <= Z.to_nat (max_iterations (config w')))%nat
       /\ current_best_score p = last (score_history p) 0.0%Q
       /\ match r with
          | Ok (Success sr) =>
              final_score sr = last (score_history p) 0.0%Q
              /\ iterations_completed sr = completed_iterations p
              /\ sr_evolution_history sr = evolution_history w'
              /\ (Z.to_nat (max_iterations (config w')) <> 0%nat -> its <> [])
          | Ok (Error _) => False
          | Raise _ => True
          end.
Proof.
  intros Hc Hne Hts H. unfold evolve_content_body in H.
  rewrite Hc, Hts in H. destruct c as [|a c]; [congruence|].
  unfold bind at 1, modify at 1 in H.
  set (w0 := with_current_evolution (Some id) w) in *.
  set (cfg := match in_config input with
              | Some custom => config_update custom (config w)
              | None => config w
              end).
  set (w1 := match in_config input with
             | Some custom =>
                 with_config (config_update custom (config w0)) w0
             | None => w0
             end).
  assert (Hcfg1 : config w1 = cfg)
    by (unfold w1, cfg; destruct (in_config input); reflexivity).
  assert (Hh1 : evolution_history w1 = evolution_history w)
    by (unfold w1; destruct (in_config input); reflexivity).
  assert (Hstep1 :
            (match in_config input with
             | Some custom_config =>
                 modify (fun w => with_config
                                    (config_update custom_config (config w)) w)
             | None => ret tt
             end) w0 = (Ok tt, w1))
    by (unfold w1; destruct (in_config input); reflexivity).
  unfold bind at 1 in H. rewrite Hstep1 in H.
  unfold bind at 1, get_config, bind at 1, get, ret in H. cbv beta iota in H.
  unfold bind at 1, now_isoformat, bind at 1, datetime_now, ret in H.
  cbv beta iota in H.
  unfold bind at 1, modify at 1 in H. cbv beta iota in H.
  match type of H with
  | bind _ _ ?w2 = _ => set (w2' := w2) in *
  end.
  match type of H with
  | bind (evolution_loop _ _ _ ?n _ _ _) _ _ = _ => set (n0 := n) in *
  end.
  apply bind_inv in H as [([bc bs] & w3 & Hloop & H) | (e & Hloop & ->)];
    eapply evolution_loop_spec in Hloop; try reflexivity;
    destruct Hloop as (p & its & Gp & Gh & Gc & Gs & Gn & Gl & Ge & Gb & Gr);
    simpl in Gs, Gn, Gh, Gc;
    unfold n0 in Gl; rewrite Hcfg1 in Gl; rewrite Hh1 in Gh;
    assert (Hcb : current_best_score p = last (score_history p) 0.0%Q)
      by (destruct its as [|it its];
          [rewrite (Ge eq_refl); reflexivity
          | rewrite Gs; apply Gb; discriminate]).
  2:{ split; [rewrite Gc; exact Hcfg1|].
      exists p, its. rewrite Gc, Hcfg1. repeat split; auto. }
  destruct (Gr _ eq_refl) as [Gv Gne]. simpl in Gv.
  apply bind_inv in H as [(fa & w4 & Hcomp & H) | (e & Hcomp & ->)];
    pose proof (compile_evolution_results_agent E bc bs w3) as F;
    rewrite Hcomp in F; simpl in F; destruct F as (_ & Fc & _ & Fp & Fh).
  2:{ split; [rewrite Fc, Gc; exact Hcfg1|].
      exists p, its. rewrite Fp, Fh, Fc, Gc, Hcfg1. repeat split; auto. }
  unfold bind at 1, get_progress, bind at 1, get in H. cbv beta iota in H.
  rewrite Fp, Gp in H. unfold ret at 1, bind at 1, get, ret in H.
  inversion H; subst; clear H.
  split; [rewrite Fc, Gc; exact Hcfg1|].
  exists p, its. rewrite Fp, Fh, Fc, Gc, Hcfg1. simpl.
  repeat split; auto.
  - rewrite Gs. reflexivity.
  - intros Hn. apply Gne. unfold n0. rewrite Hcfg1. exact Hn.
Qed.

Lemma evolve_content_unfold E input w :
  evolve_content E input w
  = let id :=
      md5_prefix E 12 ("evolution_" ++ isoformat E (clock E (ticks w))) in
    match evolve_content_body E id input (with_ticks (S (ticks w)) w) with
    | (Ok o, w') => (Ok o, w')
    | (Raise e, w') =>
        (Ok (Error {| error := str_of_exn e;
                      er_evolution_id := Some id;
                      partial_results := evolution_history w' |}), w')
    end.
Proof.
  unfold evolve_content, bind at 1, now_isoformat, bind at 1, datetime_now,
    ret at 1, try_except.
  cbv beta iota zeta.
  destruct (evolve_content_body E _ input (with_ticks (S (ticks w)) w))
    as [[o|e] w']; reflexivity.
Qed.

Lemma running_best_sorted b xs : Sorted Qle (b :: running_best b xs).
Proof.
  revert b. induction xs as [|x xs IH]; intros b; simpl.
  - repeat constructor.
  - constructor; [apply IH|]. constructor.
    destruct (Qltb b x) eqn:Hlt.
    + apply Qltb_lt in Hlt. apply Qlt_le_weak. exact Hlt.
    + apply Qle_refl.
Qed.

Lemma running_best_strongly_sorted b xs :
  StronglySorted Qle (b :: running_best b xs).
Proof.
  apply Sorted_StronglySorted; [|apply running_best_sorted].
  intros x y z. apply Qle_trans.
Qed.

(** C2.  In every run of [evolve_content] on a valid input, the score
    history left in the progress record is the running best of the
    iterations' best critique scores, started from 0.0 (an entry replaces
    the best only when it is strictly greater); hence the series, 0.0
    included, is non-decreasing; the tracked best score is its last entry,
    and it is the final score of a successful run. *)
Theorem best_score_ratchet (E : Env) (input : InputData) (w : World)
  (c : string) (ts : Section) :
  in_content input = Some c -> c <> "" ->
  in_target_section input = Some ts ->
  exists p its,
    evolution_progress (snd (evolve_content E input w)) = Some p
    /\ evolution_history (snd (evolve_content E input w))
       = (evolution_history w ++ its)%list
    /\ score_history p = running_best 0.0%Q (map iteration_best its)
    /\ StronglySorted Qle (0.0%Q :: score_history p)
    /\ current_best_score p = last (score_history p) 0.0%Q
    /\ (forall sr,
          fst (evolve_content E input w) = Ok (Success sr) ->
          final_score sr = current_best_score p).
Proof.
  intros Hc Hne Hts. rewrite evolve_content_unfold. cbv zeta.
  destruct (evolve_content_body E _ input (with_ticks (S (ticks w)) w))
    as [r w'] eqn:Hbody.
  destruct (evolve_content_body_valid _ _ _ _ _ _ _ _ Hc Hne Hts Hbody)
    as (_ & p & its & Hp & Hh & Hs & _ & _ & Hcb & Hr).
  exists p, its.
  assert (Hsorted : StronglySorted Qle (0.0%Q :: score_history p))
    by (rewrite Hs; apply running_best_strongly_sorted).
  destruct r as [[sr|er]|e]; simpl; simpl in Hh.
  - destruct Hr as (Hf & _). repeat split; auto.
    intros sr' Heq. inversion Heq; subst. congruence.
  - contradiction.
  - repeat split; auto. intros sr' Heq. discriminate.
Qed.

Lemma best_score_ratchet_witness :
  exists p,
    evolution_progress
      (snd (evolve_content source_env (demo_input 3)
              (SelfEvolutionAgent_init true))) = Some p
    /\ StronglySorted Qle (0.0%Q :: score_history p)
    /\ List.length (score_history p) = 3%nat.
Proof.
  destruct (best_score_ratchet source_env (demo_input 3)
              (SelfEvolutionAgent_init true) demo_content demo_section
              eq_refl ltac:(discriminate) eq_refl)
    as (p & its & Hp & _ & _ & Hs & _).
  exists p. split; [exact Hp|]. split; [exact Hs|].
  vm_compute in Hp. inversion Hp. reflexivity.
Defined.

(** C6 (as amended).  A successful run reports a number of completed
    iterations between 0 and the configured limit (the limit in force is
    the agent's configuration overridden by the input's); it is at least
    1 whenever that limit is at least 1.  With a limit of 0 or less no
    iteration runs and the run still succeeds, reporting 0. *)
Theorem iteration_count_bounds (E : Env) (input : InputData) (w w' : World)
  (sr : SuccessResult) :
  evolve_content E input w = (Ok (Success sr), w') ->
  config w' = match in_config input with
              | Some custom => config_update custom (config w)
              | None => config w
              end
  /\ (0 <= iterations_completed sr <= Z.max 0 (max_iterations (config w')))%Z
  /\ ((1 <= max_iterations (config w'))%Z ->
      (1 <= iterations_completed sr <= max_iterations (config w'))%Z).
Proof.
  rewrite evolve_content_unfold. cbv zeta. intros H.
  destruct (evolve_content_body E _ input (with_ticks (S (ticks w)) w))
    as [r w1] eqn:Hbody.
  destruct r as [o|e]; [|discriminate]. inversion H; subst; clear H.
  destruct (in_content input) as [[|a c]|] eqn:Hc;
    try (rewrite evolve_content_body_invalid in Hbody by auto; discriminate).
  destruct (in_target_section input) as [ts|] eqn:Hts;
    try (rewrite evolve_content_body_invalid in Hbody by auto; discriminate).
  destruct (evolve_content_body_valid _ _ _ _ _ _ _ _ Hc
              ltac:(discriminate) Hts Hbody)
    as (Hcfg & p & its & _ & _ & _ & Hn & Hl & _ & Hr).
  simpl in Hr. destruct Hr as (_ & Hic & _ & Hne).
  split; [exact Hcfg|]. rewrite Hic, Hn.
  split; [lia|]. intros Hmax. split; [|lia].
  destruct its as [|it its]; [|simpl; lia].
  exfalso. apply Hne; [lia | reflexivity].
Qed.

Lemma iteration_count_bounds_witness :
  exists sr w',
    evolve_content source_env (demo_input 3) (SelfEvolutionAgent_init true)
    = (Ok (Success sr), w')
    /\ (1 <= iterations_completed sr <= 3)%Z.
Proof.
  destruct (evolve_content source_env (demo_input 3)
              (SelfEvolutionAgent_init true)) as [r w'] eqn:Hrun.
  assert (Hr : exists sr, r = Ok (Success sr) /\ max_iterations (config w') = 3%Z).
  { vm_compute in Hrun. inversion Hrun. eexists. split; reflexivity. }
  destruct Hr as (sr & -> & Hmax).
  exists sr, w'. split; [reflexivity|].
  destruct (iteration_count_bounds source_env (demo_input 3)
              (SelfEvolutionAgent_init true) w' sr Hrun) as (_ & _ & H).
  rewrite Hmax in H. apply H. lia.
Defined.

(** C6, as stated, fails: with a configured limit of 0 the run succeeds
    without any iteration, so [1 <= iterations_completed] does not hold. *)
Lemma zero_iterations_success :
  exists sr w',
    evolve_content source_env (demo_input 0) (SelfEvolutionAgent_init true)
    = (Ok (Success sr), w')
    /\ max_iterations (config w') = 0%Z
    /\ iterations_completed sr = 0%Z
    /\ ~ (1 <= iterations_completed sr <= max_iterations (config w'))%Z.
Proof.
  do 2 eexists. split; [vm_compute; reflexivity|].
  simpl. repeat split. lia.
Qed.

(** C10.  Whatever the input and the state of the agent,
    [evolve_content] returns (it never raises) a result whose status is
    'success' or 'error'; an error result carries the audit records
    accumulated so far; and when the content is absent or empty, or the
    target section is absent, the result is an error with the message of
    the validation, and no iteration is attempted. *)
Theorem evolve_content_total (E : Env) (input : InputData) (w : World) :
  exists o w',
    evolve_content E input w = (Ok o, w')
    /\ (status o = "success" \/ status o = "error")
    /\ (forall er, o = Error er -> partial_results er = evolution_history w')
    /\ (in_content input = None \/ in_content input = Some ""
        \/ in_target_section input = None ->
        exists er,
          o = Error er
          /\ error er = "Missing required input: content or target_section"
          /\ partial_results er = evolution_history w
          /\ evolution_history w' = evolution_history w
          /\ evolution_progress w' = evolution_progress w).
Proof.
  rewrite evolve_content_unfold. cbv zeta.
  destruct (evolve_content_body E _ input (with_ticks (S (ticks w)) w))
    as [r w1] eqn:Hbody.
  destruct r as [o|e].
  - exists o, w1. split; [reflexivity|]. split; [|split].
    + destruct o; [left | right]; reflexivity.
    + intros er ->. exfalso.
      destruct (in_content input) as [[|a c]|] eqn:Hc;
        try (rewrite evolve_content_body_invalid in Hbody by auto;
             discriminate).
      destruct (in_target_section input) as [ts|] eqn:Hts;
        try (rewrite evolve_content_body_invalid in Hbody by auto;
             discriminate).
      destruct (evolve_content_body_valid _ _ _ _ _ _ _ _ Hc
                  ltac:(discriminate) Hts Hbody)
        as (_ & p & its & _ & _ & _ & _ & _ & _ & Hr).
      exact Hr.
    + intros Hbad. rewrite evolve_content_body_invalid in Hbody by exact Hbad.
      discriminate.
  - eexists. exists w1. split; [reflexivity|]. split; [right; reflexivity|].
    split; [intros er Her; inversion Her; reflexivity|].
    intros Hbad. rewrite evolve_content_body_invalid in Hbody by exact Hbad.
    inversion Hbody; subst. eexists. split; [reflexivity|].
    repeat split.
Qed.

Lemma evolve_content_total_witness :
  exists er w',
    evolve_content source_env
      {| in_content := Some ""; in_research_results := None;
         in_target_section := Some demo_section; in_config := None |}
      (SelfEvolutionAgent_init true)
    = (Ok (Error er), w')
    /\ error er = "Missing required input: content or target_section".
Proof.
  destruct (evolve_content_total source_env
              {| in_content := Some ""; in_research_results := None;
                 in_target_section := Some demo_section; in_config := None |}
              (SelfEvolutionAgent_init true))
    as (o & w' & Hrun & _ & _ & Hbad).
  destruct (Hbad (or_intror (or_introl eq_refl)))
    as (er & -> & Herr & _).
  exists er, w'. split; [exact Hrun | exact Herr].
Defined.

(** ** Plateau detection *)

Lemma slice_from_last {A} (k : Z) (xs : list A) :
  (1 <= k <= Z.of_nat (List.length xs))%Z ->
  slice_from (- k) xs = skipn (List.length xs - Z.to_nat k) xs.
Proof.
  intros Hk. unfold slice_from.
  destruct (Z.ltb_spec (- k) 0); [|lia].
  f_equal. lia.
Qed.

(** C1 (as amended).  With a window of at least one entry, the plateau
    detector fires exactly when the score history holds at least
    [plateau_window + 1] entries and, over its last [plateau_window]
    entries, max - min is below [quality_improvement_threshold]; and when
    the iteration limit is not reached and the score is below the
    convergence threshold, [_check_convergence] stops the loop with the
    plateau reason exactly when the detector fires. *)
Theorem plateau_detection (w : World) (p : EvolutionProgress) :
  evolution_progress w = Some p ->
  (1 <= plateau_detection_window (config w))%Z ->
  exists detected,
    _detect_plateau w = (Ok detected, w)
    /\ (detected = true <->
        (plateau_detection_window (config w) + 1
         <= Z.of_nat (List.length (score_history p)))%Z
        /\ exists x xs,
             skipn (List.length (score_history p)
                    - Z.to_nat (plateau_detection_window (config w)))
               (score_history p) = x :: xs
             /\ (max_of x xs - min_of x xs
                 < quality_improvement_threshold (config w))%Q)
    /\ (forall E current_score iteration,
          (iteration < max_iterations (config w))%Z ->
          (current_score < convergence_threshold (config w))%Q ->
          _check_convergence E current_score iteration w
          = (Ok (negb detected,
                 if detected
                 then "Quality plateau detected - no significant improvement"
                 else "Continue evolution"), w)).
Proof.
  intros Hp Hw.
  assert (Hdet : exists detected,
             _detect_plateau w = (Ok detected, w)
             /\ (detected = true <->
                 (plateau_detection_window (config w) + 1
                  <= Z.of_nat (List.length (score_history p)))%Z
                 /\ exists x xs,
                      skipn (List.length (score_history p)
                             - Z.to_nat (plateau_detection_window (config w)))
                        (score_history p) = x :: xs
                      /\ (max_of x xs - min_of x xs
                          < quality_improvement_threshold (config w))%Q)).
  { unfold _detect_plateau, bind at 1, get_progress, bind at 1, get.
    rewrite Hp. unfold ret at 1, bind at 1, get_config, bind at 1, get, ret at 1.
    cbv beta iota zeta.
    destruct (Z.ltb_spec (Z.of_nat (List.length (score_history p)))
                (plateau_detection_window (config w) + 1)) as [Hshort|Hlong].
    - exists false. split; [reflexivity|].
      split; [discriminate | intros [Hlen _]; lia].
    - rewrite slice_from_last by lia.
      destruct (skipn (List.length (score_history p)
                       - Z.to_nat (plateau_detection_window (config w)))
                  (score_history p)) as [|x xs] eqn:Hrecent.
      + exfalso.
        apply (f_equal (@List.length Q)) in Hrecent.
        rewrite length_skipn in Hrecent. simpl in Hrecent. lia.
      + eexists. split; [reflexivity|]. rewrite Qltb_lt. split.
        * intros Hlt. split; [lia|]. exists x, xs. auto.
        * intros [_ (x' & xs' & Heq & Hlt)]. inversion Heq; subst. exact Hlt. }
  destruct Hdet as (detected & Hrun & Hiff).
  exists detected. split; [exact Hrun|]. split; [exact Hiff|].
  intros E current_score iteration Hiter Hscore.
  unfold _check_convergence, bind at 1, get_config, bind at 1, get, ret at 1.
  cbv beta iota.
  destruct (Z.leb_spec (max_iterations (config w)) iteration); [lia|].
  destruct (Qle_bool (convergence_threshold (config w)) current_score)
    eqn:Hconv.
  - apply Qle_bool_iff in Hconv. exfalso. eapply Qlt_not_le; eauto.
  - unfold bind. rewrite Hrun. destruct detected; reflexivity.
Qed.

Lemma plateau_detection_witness :
  _detect_plateau (world_with_history [2.9%Q; 3.0%Q; 3.05%Q; 3.08%Q])
  = (Ok true, world_with_history [2.9%Q; 3.0%Q; 3.05%Q; 3.08%Q])
  /\ _detect_plateau (world_with_history [3.0%Q; 3.5%Q; 4.0%Q])
     = (Ok false, world_with_history [3.0%Q; 3.5%Q; 4.0%Q]).
Proof.
  split.
  - destruct (plateau_detection
                (world_with_history [2.9%Q; 3.0%Q; 3.05%Q; 3.08%Q]) _
                eq_refl ltac:(simpl; lia))
      as (detected & Hrun & Hiff & _).
    assert (Hd : detected = true).
    { apply Hiff. split; [simpl; lia|].
      exists 3.0%Q, [3.05%Q; 3.08%Q]. split; reflexivity. }
    rewrite Hd in Hrun. exact Hrun.
  - destruct (plateau_detection
                (world_with_history [3.0%Q; 3.5%Q; 4.0%Q]) _
                eq_refl ltac:(simpl; lia))
      as (detected & Hrun & Hiff & _).
    destruct detected; [|exact Hrun].
    exfalso. destruct (proj1 Hiff eq_refl) as [Hlen _]. simpl in Hlen. lia.
Defined.

(** C1, as stated, fails: the history [3.0, 3.05, 3.08] has max - min
    = 0.08 < 0.1 over its last three entries, yet the detector does not
    fire (it wants four entries) and the loop is told to continue. *)
Lemma plateau_needs_window_plus_one :
  plateau_detection_window (config (world_with_history [3.0%Q; 3.05%Q; 3.08%Q]))
  = 3%Z
  /\ (max_of 3.0 [3.05; 3.08] - min_of 3.0 [3.05; 3.08] < 0.1)%Q
  /\ fst (_detect_plateau (world_with_history [3.0%Q; 3.05%Q; 3.08%Q]))
     = Ok false
  /\ fst (_check_convergence source_env 3.08%Q 3
            (world_with_history [3.0%Q; 3.05%Q; 3.08%Q]))
     = Ok (true, "Continue evolution").
Proof. repeat split. Qed.

(** ** Generation when the oracle fails *)

Lemma generate_variant_oracle_failure E request w :
  (exists e, strategy_func E (variant_type request) request = Raise e) ->
  exists v w',
    generate_variant E request w = (Ok v, w')
    /\ content v = base_content request
    /\ generation_strategy v = "fallback"
    /\ heap w' = heap w
    /\ agent_frame w w'.
Proof.
  intros [e He].
  unfold generate_variant, try_except, bind at 1, datetime_now.
  cbv beta iota. unfold bind at 1, lift. rewrite He.
  unfold _create_fallback_variant, bind, now_isoformat, bind, datetime_now, ret.
  cbv beta iota. do 2 eexists. split; [reflexivity|]. simpl.
  repeat split.
Qed.

Lemma deref_all_seq vs :
  forall h w,
    heap w = (h ++ vs)%list ->
    deref_all (seq (List.length h) (List.length vs)) w = (Ok vs, w).
Proof.
  induction vs as [|v vs IH]; intros h w Hw; simpl; [reflexivity|].
  unfold bind at 1, deref. rewrite Hw, nth_error_app2 by lia.
  rewrite Nat.sub_diag. simpl.
  unfold bind at 1.
  specialize (IH (h ++ [v])%list w).
  rewrite length_app, Nat.add_1_r in IH.
  rewrite IH by (rewrite Hw, <- app_assoc; reflexivity).
  reflexivity.
Qed.

Lemma generation_loop (P : ContentVariant -> Prop)
  (body : VariantType -> list ref -> M (list ref)) :
  (forall t refs w,
     exists v w1,
       body t refs w = (Ok (refs ++ [List.length (heap w)])%list, w1)
       /\ heap w1 = (heap w ++ [v])%list
       /\ P v
       /\ agent_frame w w1) ->
  forall vts refs w,
  exists vs w',
    for_each vts body refs w
    = (Ok (refs ++ seq (List.length (heap w)) (List.length vts))%list, w')
    /\ heap w' = (heap w ++ vs)%list
    /\ List.length vs = List.length vts
    /\ Forall P vs
    /\ agent_frame w w'.
Proof.
  intros Hbody. induction vts as [|t vts IH]; intros refs w; simpl.
  - exists [], w. rewrite !app_nil_r. repeat split. constructor.
  - destruct (Hbody t refs w) as (v & w1 & Hstep & Hheap & Hv & Hagent).
    unfold bind. rewrite Hstep.
    destruct (IH (refs ++ [List.length (heap w)])%list w1)
      as (vs & w' & Hrun & Hh & Hlen & Hall & Hfr).
    rewrite Hrun. exists (v :: vs), w'.
    split.
    + f_equal. f_equal. rewrite <- app_assoc, Hheap, length_app.
      simpl. rewrite Nat.add_1_r. reflexivity.
    + split; [rewrite Hh, Hheap, <- app_assoc; reflexivity|].
      split; [simpl; congruence|].
      split; [constructor; auto|].
      etransitivity; [exact Hagent | exact Hfr].
Qed.

Lemma generation_step_oracle_failure E base rr ts t refs w :
  (forall t req, exists e, strategy_func E t req = Raise e) ->
  exists v w1,
    try_except
      (let request :=
         {| base_content := base; research_results := rr;
            target_section := ts; variant_type := t |} in
       variant <- generate_variant E request ;;
       r <- alloc variant ;;
       ret (refs ++ [r])%list)
      (fun _ => ret refs) w
    = (Ok (refs ++ [List.length (heap w)])%list, w1)
    /\ heap w1 = (heap w ++ [v])%list
    /\ (content v = base /\ generation_strategy v = "fallback")
    /\ agent_frame w w1.
Proof.
  intros Hfail.
  destruct (generate_variant_oracle_failure E
              {| base_content := base; research_results := rr;
                 target_section := ts; variant_type := t |} w
              (Hfail _ _))
    as (v & w1 & Hgen & Hcontent & Hstrategy & Hheap & Hagent).
  exists v, (with_heap (heap w1 ++ [v]) w1).
  unfold try_except, bind at 1. cbv zeta. rewrite Hgen.
  unfold bind, alloc, ret. rewrite Hheap. simpl.
  repeat split; auto.
  all: destruct Hagent as (? & ? & ? & ? & ?); assumption.
Qed.

Lemma generate_variants_parallel_oracle_failure E base rr ts w :
  (forall t req, exists e, strategy_func E t req = Raise e) ->
  exists vs w',
    _generate_variants_parallel E base rr ts w
    = (Ok (seq (List.length (heap w)) 6), w')
    /\ heap w' = (heap w ++ vs)%list
    /\ List.length vs = 6%nat
    /\ Forall (fun v => content v = base /\ generation_strategy v = "fallback")
         vs.
Proof.
  intros Hfail.
  unfold _generate_variants_parallel, try_except, bind at 1, get.
  cbv beta iota zeta.
  destruct (parallel_generation (config w) && tools_Task w).
  - unfold _generate_variants_task_parallel.
    match goal with
    | |- context [for_each _ ?body _ _] =>
        destruct (generation_loop
                    (fun v => content v = base
                              /\ generation_strategy v = "fallback")
                    body
                    (fun t refs w0 =>
                       generation_step_oracle_failure E base rr ts t refs w0
                         Hfail)
                    all_VariantType [] w)
          as (vs & w' & Hrun & Hh & Hlen & Hall & _)
    end.
    rewrite Hrun. exists vs, w'. auto.
  - unfold _generate_variants_sequential.
    match goal with
    | |- context [for_each _ ?body _ _] =>
        destruct (generation_loop
                    (fun v => content v = base
                              /\ generation_strategy v = "fallback")
                    body
                    (fun t refs w0 =>
                       generation_step_oracle_failure E base rr ts t refs w0
                         Hfail)
                    all_VariantType [] w)
          as (vs & w' & Hrun & Hh & Hlen & Hall & _)
    end.
    rewrite Hrun. exists vs, w'. auto.
Qed.

(** ** Evaluation and the stored variants *)

Lemma returns_for_each_any {A S} (body : A -> S -> M S) xs s w :
  returns (for_each xs body s) w (fun _ _ => True).
Proof.
  unfold returns. destruct (for_each xs body s w) as [[a|e] w']; exact I.
Qed.

Lemma evaluate_variant_target E variant ts ev w c w' :
  evaluate_variant E variant ts ev w = (Ok c, w') ->
  target_variant_id c = variant_id variant.
Proof.
  unfold evaluate_variant, try_except.
  destruct (evaluate_variant_body E variant ts ev w) as [[c0|e] w1] eqn:Hbody.
  - intros H; inversion H; subst; clear H.
    assert (Hret : returns (evaluate_variant_body E variant ts ev) w
                     (fun c _ => target_variant_id c = variant_id variant)).
    { unfold evaluate_variant_body.
      apply returns_bind. unfold returns at 1, datetime_now.
      apply returns_bind.
      eapply returns_weaken; [|apply returns_for_each_any].
      intros [ds cps] w2 _.
      apply returns_bind.
      eapply returns_weaken; [|apply returns_for_each_any].
      intros total w3 _.
      unfold returns, bind, now_isoformat, bind, datetime_now, ret. simpl.
      reflexivity. }
    unfold returns in Hret. rewrite Hbody in Hret. exact Hret.
  - intros H.
    destruct (fallback_critique_spec E variant w1)
      as (c1 & w2 & Hrun & _ & _ & _ & _ & Ht).
    rewrite Hrun in H. inversion H; subst. exact Ht.
Qed.

Lemma evaluate_variant_heap E variant ts ev w :
  heap_frame [] w (snd (evaluate_variant E variant ts ev w)).
Proof.
  apply (evaluate_variant_frame E (R := heap_frame []));
    auto with frame typeclass_instances.
Qed.

Lemma evaluate_variant_agent E variant ts ev w :
  agent_frame w (snd (evaluate_variant E variant ts ev w)).
Proof.
  apply (evaluate_variant_frame E (R := agent_frame));
    auto with frame typeclass_instances.
Qed.

Lemma heap_frame_untouched w w' r v :
  heap_frame [] w w' -> nth_error (heap w) r = Some v ->
  nth_error (heap w') r = Some v.
Proof.
  intros H Hr. destruct (H r v Hr) as (v' & Hr' & _ & Hu).
  rewrite Hr'. f_equal. apply Hu. intros [].
Qed.

(** One turn of the loop of [_evaluate_variants] on a stored variant. *)
Lemma evaluate_step E ts rr r cs w v :
  nth_error (heap w) r = Some v ->
  exists c w1,
    try_except
      (v <- deref r ;;
       critique <- evaluate_variant E v ts rr ;;
       set_quality_scores r (dimension_scores critique) ;;
       ret (cs ++ [critique])%list)
      (fun _ => ret cs) w
    = (Ok (cs ++ [c])%list,
       with_heap
         (heap_update r (with_quality_scores (dimension_scores c)) (heap w1))
         w1)
    /\ heap_frame [] w w1
    /\ agent_frame w w1
    /\ target_variant_id c = variant_id v.
Proof.
  intros Hr.
  destruct (evaluate_variant_total E v ts rr w) as (c & w1 & Hev).
  exists c, w1.
  unfold try_except, bind at 1, deref. rewrite Hr.
  unfold bind at 1. rewrite Hev.
  unfold bind, set_quality_scores, modify, ret. cbv beta iota.
  split; [reflexivity|].
  pose proof (evaluate_variant_heap E v ts rr w) as Hh.
  pose proof (evaluate_variant_agent E v ts rr w) as Ha.
  rewrite Hev in Hh, Ha. simpl in Hh, Ha.
  split; [exact Hh|]. split; [exact Ha|].
  eapply evaluate_variant_target; eauto.
Qed.

Lemma heap_frame_incl t1 t2 w w' :
  incl t1 t2 -> heap_frame t1 w w' -> heap_frame t2 w w'.
Proof.
  intros Hincl H r v Hr. destruct (H r v Hr) as (v' & Hr' & Hs & Hu).
  exists v'. split; [exact Hr'|]. split; [exact Hs|].
  intros Hn. apply Hu. intros Hin. apply Hn, Hincl, Hin.
Qed.

Lemma Forall2_impl_in {A B} (P Q : A -> B -> Prop) l l' :
  (forall a b, In a l -> P a b -> Q a b) ->
  Forall2 P l l' -> Forall2 Q l l'.
Proof.
  intros H HF. induction HF as [|a b l l' Hab HF IH]; constructor.
  - apply H; [now left | exact Hab].
  - apply IH. intros a' b' Hin. apply H. now right.
Qed.

(** The loop of [_evaluate_variants], from any list of critiques already
    gathered. *)
Lemma evaluate_loop E ts rr :
  forall variants cs w,
    NoDup variants ->
    Forall (fun r => nth_error (heap w) r <> None) variants ->
    exists cs' w',
      for_each variants
        (fun variant critiques =>
           try_except
             (v <- deref variant ;;
              critique <- evaluate_variant E v ts rr ;;
              set_quality_scores variant (dimension_scores critique) ;;
              ret (critiques ++ [critique])%list)
             (fun _ => ret critiques))
        cs w
      = (Ok (cs ++ cs')%list, w')
      /\ heap_frame variants w w'
      /\ agent_frame w w'
      /\ Forall2
           (fun r c =>
              exists v,
                nth_error (heap w) r = Some v
                /\ nth_error (heap w') r
                   = Some (with_quality_scores (dimension_scores c) v)
                /\ target_variant_id c = variant_id v)
           variants cs'.
Proof.
  induction variants as [|r vs IH]; intros cs w Hnd Hvalid; cbn [for_each].
  - exists [], w. rewrite app_nil_r. unfold ret.
    repeat split; try reflexivity. constructor.
  - inversion Hnd as [|? ? Hnotin Hnd']; subst.
    inversion Hvalid as [|? ? Hr Hvalid']; subst.
    destruct (nth_error (heap w) r) as [v|] eqn:Hrv; [clear Hr | congruence].
    destruct (evaluate_step E ts rr r cs w v Hrv)
      as (c & w1 & Hstep & Hh1 & Ha1 & Htarget).
    unfold bind at 1. rewrite Hstep.
    set (w2 := with_heap
                 (heap_update r (with_quality_scores (dimension_scores c))
                    (heap w1)) w1) in *.
    assert (Hh12 : heap_frame [r] w1 w2)
      by (apply heap_frame_set_scores; now left).
    assert (Hr1 : nth_error (heap w1) r = Some v)
      by (eapply heap_frame_untouched; eauto).
    assert (Hr2 : nth_error (heap w2) r
                  = Some (with_quality_scores (dimension_scores c) v))
      by (apply nth_error_heap_update_same; exact Hr1).
    assert (Hother : forall r', r' <> r ->
                       nth_error (heap w2) r' = nth_error (heap w1) r')
      by (intros r' Hne; simpl;
          apply nth_error_heap_update_other; congruence).
    assert (Hvalid2 : Forall (fun r' => nth_error (heap w2) r' <> None) vs).
    { rewrite Forall_forall in *. intros r' Hin.
      assert (Hne : r' <> r) by (intros ->; contradiction).
      rewrite (Hother r' Hne).
      specialize (Hvalid' r' Hin).
      destruct (nth_error (heap w) r') as [v'|] eqn:Hv'; [|congruence].
      rewrite (heap_frame_untouched _ _ _ _ Hh1 Hv'). discriminate. }
    destruct (IH (cs ++ [c])%list w2 Hnd' Hvalid2)
      as (cs' & w' & Hrun & Hh2 & Ha2 & Hall).
    rewrite Hrun. exists (c :: cs'), w'.
    split; [rewrite <- app_assoc; reflexivity|].
    split.
    { etransitivity;
        [eapply heap_frame_incl; [|exact Hh1]; intros ? []|].
      etransitivity;
        [eapply heap_frame_incl; [|exact Hh12];
         intros ? [<-|[]]; now left|].
      eapply heap_frame_incl; [|exact Hh2]. intros ? ?; now right. }
    split.
    { etransitivity; [exact Ha1|].
      etransitivity; [|exact Ha2]. apply agent_frame_heap. }
    constructor.
    + exists v. split; [exact Hrv|]. split; [|exact Htarget].
      destruct (Hh2 r _ Hr2) as (v' & Hr' & _ & Hu).
      rewrite Hr'. f_equal. apply Hu. exact Hnotin.
    + eapply Forall2_impl_in; [|exact Hall].
      intros r' c' Hin (v' & Hv2 & Hv' & Ht').
      assert (Hne : r' <> r) by (intros ->; contradiction).
      exists v'. split; [|split; assumption].
      rewrite (Hother r' Hne) in Hv2.
      rewrite Forall_forall in Hvalid'. specialize (Hvalid' r' Hin).
      destruct (nth_error (heap w) r') as [v0|] eqn:Hv0; [|congruence].
      rewrite (heap_frame_untouched _ _ _ _ Hh1 Hv0) in Hv2. exact Hv2.
Qed.

(** What [_evaluate_variants] returns and what it writes. *)
Lemma evaluate_variants_spec E variants ts rr w :
  NoDup variants ->
  Forall (fun r => (r < List.length (heap w))%nat) variants ->
  exists cs w',
    _evaluate_variants E variants ts rr w = (Ok cs, w')
    /\ Forall2
         (fun r c =>
            exists v,
              nth_error (heap w) r = Some v
              /\ nth_error (heap w') r
                 = Some (with_quality_scores (dimension_scores c) v)
              /\ target_variant_id c = variant_id v)
         variants cs
    /\ heap_frame variants w w'
    /\ agent_frame w w'.
Proof.
  intros Hnd Hvalid.
  assert (Hvalid' : Forall (fun r => nth_error (heap w) r <> None) variants)
    by (eapply Forall_impl; [|exact Hvalid];
        intros r Hr; now apply nth_error_Some).
  destruct (evaluate_loop E ts rr variants [] w Hnd Hvalid')
    as (cs & w' & Hrun & Hheap & Hagent & Hall).
  exists cs, w'. auto.
Qed.

(** ** Audit records and the store over a whole run *)

#[export] Instance clock_frame_preorder : PreOrder clock_frame.
Proof.
  split.
  - intros w. split; reflexivity.
  - intros w1 w2 w3 [H1 A1] [H2 A2]. split; [congruence|].
    etransitivity; eassumption.
Qed.

Lemma datetime_now_clock E : preserves clock_frame (datetime_now E).
Proof. intros w. split; [reflexivity | apply agent_frame_clock]. Qed.

Lemma random_uniform_clock E a b :
  preserves clock_frame (random_uniform E a b).
Proof. intros w. split; [reflexivity | apply agent_frame_draws]. Qed.

#[export] Hint Resolve datetime_now_clock random_uniform_clock : frame.

Lemma generate_variant_clock E request :
  preserves clock_frame (generate_variant E request).
Proof.
  apply generate_variant_frame; auto with frame typeclass_instances.
Qed.

Lemma generate_variant_total E request w :
  exists v w', generate_variant E request w = (Ok v, w').
Proof.
  unfold generate_variant, try_except.
  match goal with
  | |- context [match ?c w with _ => _ end] => destruct (c w) as [[v|e] w1]
  end; [eauto|].
  unfold _create_fallback_variant, bind, now_isoformat, bind, datetime_now, ret.
  cbv beta iota. eauto.
Qed.

Lemma generation_step E base rr ts t refs w :
  exists v w1,
    try_except
      (let request :=
         {| base_content := base; research_results := rr;
            target_section := ts; variant_type := t |} in
       variant <- generate_variant E request ;;
       r <- alloc variant ;;
       ret (refs ++ [r])%list)
      (fun _ => ret refs) w
    = (Ok (refs ++ [List.length (heap w)])%list, w1)
    /\ heap w1 = (heap w ++ [v])%list
    /\ True
    /\ agent_frame w w1.
Proof.
  set (request := {| base_content := base; research_results := rr;
                     target_section := ts; variant_type := t |}).
  destruct (generate_variant_total E request w) as (v & w1 & Hgen).
  pose proof (generate_variant_clock E request w) as [Hheap Hagent].
  rewrite Hgen in Hheap, Hagent. simpl in Hheap, Hagent.
  exists v, (with_heap (heap w1 ++ [v]) w1).
  unfold try_except, bind at 1. cbv zeta. fold request. rewrite Hgen.
  unfold bind, alloc, ret. rewrite Hheap. simpl.
  repeat split; auto.
  all: destruct Hagent as (? & ? & ? & ? & ?); assumption.
Qed.

(** Whatever the oracle does, an iteration generates six variants and
    stores them at six fresh addresses. *)
Lemma generate_variants_parallel_fresh E base rr ts w :
  exists vs w',
    _generate_variants_parallel E base rr ts w
    = (Ok (seq (List.length (heap w)) 6), w')
    /\ heap w' = (heap w ++ vs)%list
    /\ List.length vs = 6%nat
    /\ agent_frame w w'.
Proof.
  unfold _generate_variants_parallel, try_except, bind at 1, get.
  cbv beta iota zeta.
  destruct (parallel_generation (config w) && tools_Task w).
  - unfold _generate_variants_task_parallel.
    match goal with
    | |- context [for_each _ ?body _ _] =>
        destruct (generation_loop (fun _ => True) body
                    (fun t refs w0 => generation_step E base rr ts t refs w0)
                    all_VariantType [] w)
          as (vs & w' & Hrun & Hh & Hlen & _ & Ha)
    end.
    rewrite Hrun. exists vs, w'. auto.
  - unfold _generate_variants_sequential.
    match goal with
    | |- context [for_each _ ?body _ _] =>
        destruct (generation_loop (fun _ => True) body
                    (fun t refs w0 => generation_step E base rr ts t refs w0)
                    all_VariantType [] w)
          as (vs & w' & Hrun & Hh & Hlen & _ & Ha)
    end.
    rewrite Hrun. exists vs, w'. auto.
Qed.

(** Split [H : bind c k w = (r, w')] into the run of [c] and the run of
    [k], recording as [F] what [lem] says [c] preserves. *)
Ltac bind_frame H lem F :=
  let a := fresh "a" in
  let w1 := fresh "w" in
  let Hc := fresh "Hc" in
  let e := fresh "e" in
  apply bind_inv in H as [(a & w1 & Hc & H) | (e & Hc & ->)];
  match type of Hc with
  | ?c ?w = _ => pose proof (lem w) as F; rewrite Hc in F; cbn [snd] in F
  end.

Lemma merge_variants_heap variants critiques :
  preserves (heap_frame []) (_merge_variants variants critiques).
Proof. apply merge_variants_frame; auto with frame typeclass_instances. Qed.

Lemma calculate_quality_improvement_heap critiques :
  preserves (heap_frame []) (_calculate_quality_improvement critiques).
Proof.
  apply calculate_quality_improvement_frame;
    auto with frame typeclass_instances.
Qed.

Lemma now_isoformat_heap E : preserves (heap_frame []) (now_isoformat E).
Proof. apply now_isoformat_frame; auto with frame typeclass_instances. Qed.

Lemma heap_frame_app w w' vs :
  heap w' = (heap w ++ vs)%list -> heap_frame [] w w'.
Proof.
  intros H r v Hr. exists v. rewrite H. split.
  - rewrite nth_error_app1; [exact Hr|]. apply nth_error_Some. congruence.
  - split; [apply same_but_scores_refl | reflexivity].
Qed.

Lemma heap_frame_fresh touched w0 w w' :
  heap_frame [] w0 w ->
  heap_frame touched w w' ->
  (forall r, In r touched -> (List.length (heap w0) <= r)%nat) ->
  heap_frame [] w0 w'.
Proof.
  intros H0 H Hfresh r v Hr.
  pose proof (heap_frame_untouched _ _ _ _ H0 Hr) as Hr1.
  destruct (H r v Hr1) as (v' & Hr' & Hs & Hu).
  exists v'. split; [exact Hr'|]. split; [exact Hs|]. intros _.
  apply Hu. intros Hin. apply Hfresh in Hin.
  assert (Hlt : (r < List.length (heap w0))%nat)
    by (apply nth_error_Some; congruence).
  lia.
Qed.

(** Close a goal [heap_frame [] x y] by following a chain of hypotheses. *)
Ltac heap_chain :=
  solve
    [ eassumption
    | reflexivity
    | match goal with
      | F : heap_frame _ ?x ?y |- heap_frame _ ?x _ =>
          transitivity y; [exact F | heap_chain]
      end ].

(** One iteration and the store: the objects stored before it are left
    as they were, and the audit record it appends agrees with the store. *)
Lemma execute_iteration_audit E n base rr ts w r w' :
  _execute_evolution_iteration E n base rr ts w = (r, w') ->
  heap_frame [] w w'
  /\ match r with
     | Ok _ =>
         exists it,
           evolution_history w' = (evolution_history w ++ [it])%list
           /\ record_consistent w' it
           /\ generated_variants it = seq (List.length (heap w)) 6
     | Raise _ => True
     end.
Proof.
  intros H.
  pose proof (execute_iteration_spec E n base rr ts w r w' H)
    as (_ & _ & _ & _ & Hspec).
  unfold _execute_evolution_iteration in H.
  unfold bind at 1, datetime_now at 1 in H. cbv beta iota in H.
  unfold bind at 1, get at 1 in H. cbv beta iota in H.
  set (w0 := with_ticks (S (ticks w)) w) in *.
  assert (F0 : heap_frame [] w w0) by (now apply heap_frame_same_heap).
  destruct (generate_variants_parallel_fresh E base rr ts w0)
    as (vs & wg & Hgen & Hhg & Hlen & _).
  unfold bind at 1 in H. rewrite Hgen in H.
  assert (Fg : heap_frame [] w0 wg) by (eapply heap_frame_app; eauto).
  destruct (evaluate_variants_spec E (seq (List.length (heap w0)) 6) ts rr wg)
    as (cs & we & Hev & Hall & Fe & _).
  { apply seq_NoDup. }
  { rewrite Forall_forall. intros x Hx. apply in_seq in Hx.
    rewrite Hhg, length_app, Hlen. lia. }
  unfold bind at 1 in H. rewrite Hev in H.
  assert (Fe0 : heap_frame [] w we).
  { eapply (heap_frame_fresh _ w wg);
      [transitivity w0; [exact F0 | exact Fg] | exact Fe |].
    intros x Hx. apply in_seq in Hx. simpl in Hx. lia. }
  bind_frame H (merge_variants_heap (seq (List.length (heap w0)) 6) cs) Fm;
    [|split; [heap_chain | exact I]].
  bind_frame H (calculate_quality_improvement_heap cs) Fq;
    [|split; [heap_chain | exact I]].
  bind_frame H (datetime_now_heap E []) Ft;
    [|split; [heap_chain | exact I]].
  bind_frame H (now_isoformat_heap E) Fn;
    [|split; [heap_chain | exact I]].
  unfold bind, modify, ret in H. inversion H; subst; clear H.
  assert (Fend : heap_frame [] we w4) by heap_chain.
  split.
  - etransitivity; [exact Fe0|]. intros x v Hx.
    destruct (Fend x v Hx) as (v' & Hv' & Hs & Hu).
    exists v'. simpl. auto.
  - destruct Hspec as (it & Hhist & _). simpl in Hhist.
    apply app_inj_tail in Hhist. destruct Hhist as [Hhist <-].
    eexists. split; [simpl; rewrite Hhist; reflexivity|].
    split; [|reflexivity].
    unfold record_consistent. simpl.
    eapply Forall2_impl_in; [|exact Hall].
    intros x c _ (v & _ & Hv & Ht).
    exists (with_quality_scores (dimension_scores c) v).
    split; [eapply heap_frame_untouched; eauto|].
    split; [reflexivity | exact Ht].
Qed.

Lemma record_consistent_kept w w' it :
  heap_frame [] w w' -> record_consistent w it -> record_consistent w' it.
Proof.
  intros Hf Hc. unfold record_consistent in *.
  eapply Forall2_impl_in; [|exact Hc].
  intros r c _ (v & Hv & Hq & Ht). exists v.
  split; [eapply heap_frame_untouched; eauto | auto].
Qed.

#[export] Instance audit_frame_preorder : PreOrder audit_frame.
Proof.
  split.
  - intros w. split; [reflexivity|]. exists []. rewrite app_nil_r.
    split; [reflexivity | constructor].
  - intros w1 w2 w3 [H12 (its1 & Hh1 & Hc1)] [H23 (its2 & Hh2 & Hc2)].
    split; [etransitivity; eassumption|].
    exists (its1 ++ its2)%list. split.
    + rewrite Hh2, Hh1, app_assoc. reflexivity.
    + apply Forall_app. split; [|exact Hc2].
      eapply Forall_impl; [|exact Hc1].
      intros it. apply record_consistent_kept. exact H23.
Qed.

Lemma audit_frame_same w w' :
  heap w' = heap w -> evolution_history w' = evolution_history w ->
  audit_frame w w'.
Proof.
  intros Hh He. split; [now apply heap_frame_same_heap|].
  exists []. rewrite app_nil_r. split; [exact He | constructor].
Qed.

#[export] Hint Extern 1 (audit_frame _ _) =>
  apply audit_frame_same; reflexivity : frame.

Lemma datetime_now_audit E : preserves audit_frame (datetime_now E).
Proof. intros w. now apply audit_frame_same. Qed.

Lemma random_uniform_audit E a b :
  preserves audit_frame (random_uniform E a b).
Proof. intros w. now apply audit_frame_same. Qed.

Lemma deref_audit r : preserves audit_frame (deref r).
Proof.
  intros w. unfold deref. destruct (nth_error (heap w) r); reflexivity.
Qed.

#[export] Hint Resolve datetime_now_audit random_uniform_audit deref_audit
  : frame.

Lemma now_isoformat_audit E : preserves audit_frame (now_isoformat E).
Proof. apply now_isoformat_frame; auto with frame typeclass_instances. Qed.

Lemma update_progress_audit f : preserves audit_frame (update_progress f).
Proof. unfold update_progress. frame. Qed.

Lemma check_convergence_audit E score iteration :
  preserves audit_frame (_check_convergence E score iteration).
Proof.
  apply check_convergence_frame; auto with frame typeclass_instances.
Qed.

Lemma compile_evolution_results_audit E best_content best_score :
  preserves audit_frame (_compile_evolution_results E best_content best_score).
Proof.
  apply compile_evolution_results_frame; auto with frame typeclass_instances.
Qed.

Lemma execute_iteration_audit_frame E n base rr ts :
  preserves audit_frame (_execute_evolution_iteration E n base rr ts).
Proof.
  intros w.
  destruct (_execute_evolution_iteration E n base rr ts w) as [r w'] eqn:H.
  destruct (execute_iteration_audit _ _ _ _ _ _ _ _ H) as [Hheap Haudit].
  destruct (execute_iteration_spec _ _ _ _ _ _ _ _ H)
    as (_ & _ & _ & _ & Hspec).
  simpl. split; [exact Hheap|].
  destruct r as [res|e].
  - destruct Haudit as (it & Hh & Hc & _).
    exists [it]. split; [exact Hh | constructor; [exact Hc | constructor]].
  - exists []. rewrite app_nil_r. split; [exact Hspec | constructor].
Qed.

#[export] Hint Resolve now_isoformat_audit update_progress_audit
  check_convergence_audit compile_evolution_results_audit
  execute_iteration_audit_frame : frame.

Lemma evolution_loop_audit E rr ts remaining :
  forall iteration bc bs,
    preserves audit_frame (evolution_loop E rr ts remaining iteration bc bs).
Proof.
  induction remaining as [|remaining IH]; intros iteration bc bs; simpl.
  - frame.
  - frame.
Qed.

#[export] Hint Resolve evolution_loop_audit : frame.

(** Over a whole run of [evolve_content], whatever its outcome. *)
Lemma evolve_content_audit E input :
  preserves audit_frame (evolve_content E input).
Proof. unfold evolve_content, evolve_content_body. frame. Qed.

(** C9 (as amended).  A stored variant is written to after its
    construction in one way only: [_evaluate_variants], which returns one
    critique per variant, reassigns the [quality_scores] field of each
    variant it evaluates to the dimension scores of that variant's
    critique; every other field of every stored variant, every variant
    that is not being evaluated and the audit records already in the
    history are left as they were.  Over a whole run of [evolve_content],
    whatever its outcome, the variants stored before the run are
    unchanged, the history only grows, and every audit record added holds
    variants that, in the final store, still carry the scores of the
    critiques recorded with them. *)
Theorem stored_variants_written_once (E : Env) :
  (forall variants ts rr w,
     NoDup variants ->
     Forall (fun r => (r < List.length (heap w))%nat) variants ->
     exists cs w',
       _evaluate_variants E variants ts rr w = (Ok cs, w')
       /\ Forall2
            (fun r c =>
               exists v,
                 nth_error (heap w) r = Some v
                 /\ nth_error (heap w') r
                    = Some (with_quality_scores (dimension_scores c) v)
                 /\ target_variant_id c = variant_id v)
            variants cs
       /\ (forall r v,
             nth_error (heap w) r = Some v ->
             exists v',
               nth_error (heap w') r = Some v'
               /\ v' = with_quality_scores (quality_scores v') v
               /\ (~ In r variants -> v' = v))
       /\ evolution_history w' = evolution_history w)
  /\ (forall input w,
        (forall r v,
           nth_error (heap w) r = Some v ->
           nth_error (heap (snd (evolve_content E input w))) r = Some v)
        /\ exists its,
             evolution_history (snd (evolve_content E input w))
             = (evolution_history w ++ its)%list
             /\ Forall (record_consistent (snd (evolve_content E input w)))
                  its).
Proof.
  split.
  - intros variants ts rr w Hnd Hvalid.
    destruct (evaluate_variants_spec E variants ts rr w Hnd Hvalid)
      as (cs & w' & Hrun & Hall & Hheap & Hagent).
    exists cs, w'. split; [exact Hrun|]. split; [exact Hall|].
    split; [exact Hheap|]. apply Hagent.
  - intros input w. destruct (evolve_content_audit E input w) as [Hheap Hits].
    split; [|exact Hits].
    intros r v Hr. eapply heap_frame_untouched; eauto.
Qed.

Lemma stored_variants_written_once_witness :
  exists cs w' v',
    _evaluate_variants source_env [0%nat] demo_section demo_research
      (with_heap [demo_variant "v1" demo_content]
         (SelfEvolutionAgent_init true))
    = (Ok cs, w')
    /\ nth_error (heap w') 0 = Some v'
    /\ content v' = demo_content
    /\ variant_id v' = "v1".
Proof.
  destruct (proj1 (stored_variants_written_once source_env) [0%nat]
              demo_section demo_research
              (with_heap [demo_variant "v1" demo_content]
                 (SelfEvolutionAgent_init true)))
    as (cs & w' & Hrun & _ & Hframe & _).
  - repeat constructor. intros [].
  - repeat constructor.
  - destruct (Hframe 0%nat (demo_variant "v1" demo_content) eq_refl)
      as (v' & Hv' & Hsame & _).
    exists cs, w', v'. split; [exact Hrun|]. split; [exact Hv'|].
    rewrite Hsame. split; reflexivity.
Defined.

(** C9, as stated, fails: evaluating a stored variant reassigns its
    [quality_scores] field, empty at construction, after it was created. *)
Lemma variant_mutated_after_creation :
  exists cs w' v',
    _evaluate_variants source_env [0%nat] demo_section demo_research
      (with_heap [demo_variant "v1" demo_content]
         (SelfEvolutionAgent_init true))
    = (Ok cs, w')
    /\ nth_error (heap w') 0 = Some v'
    /\ quality_scores (demo_variant "v1" demo_content) = []
    /\ List.length (quality_scores v') = 8%nat
    /\ v' <> demo_variant "v1" demo_content.
Proof.
  do 3 eexists. split; [vm_compute; reflexivity|].
  split; [reflexivity|]. split; [reflexivity|]. split; [reflexivity|].
  discriminate.
Qed.

(** ** The oracle-failure scenario, end to end *)

Lemma deref_all_stored (P : ContentVariant -> Prop) refs w :
  Forall (fun r => exists v, nth_error (heap w) r = Some v /\ P v) refs ->
  exists vs,
    deref_all refs w = (Ok vs, w)
    /\ Forall P vs
    /\ List.length vs = List.length refs.
Proof.
  induction refs as [|r refs IH]; intros H; simpl.
  - exists []. repeat split. constructor.
  - inversion H as [|? ? (v & Hv & HP) Hrest]; subst.
    destruct (IH Hrest) as (vs & Hrun & Hall & Hlen).
    exists (v :: vs). unfold bind at 1, deref. rewrite Hv.
    unfold bind. rewrite Hrun. unfold ret.
    split; [reflexivity|]. split; [constructor; assumption|].
    simpl. congruence.
Qed.

Lemma Forall2_Forall_left {A B} (P : A -> B -> Prop) (Q : A -> Prop) l l' :
  (forall a b, In a l -> P a b -> Q a) -> Forall2 P l l' -> Forall Q l.
Proof.
  intros H HF. induction HF as [|a b l l' Hab HF IH]; constructor.
  - apply (H a b); [now left | exact Hab].
  - apply IH. intros a' b' Hin. apply H. now right.
Qed.

Lemma merge_variants_identical base vs critiques :
  vs <> [] ->
  Forall (fun v => content v = base) vs ->
  merge_variants vs critiques "best_sections" = base.
Proof.
  intros Hne Hall. unfold merge_variants.
  destruct vs as [|v1 [|v2 vs]]; [congruence | |].
  - inversion Hall; subst. reflexivity.
  - change (merge_strategies "best_sections") with _merge_best_sections.
    rewrite (merge_best_sections_identical base) by (auto; discriminate).
    reflexivity.
Qed.

(** With a failing oracle, the candidate that an iteration produces is
    the content it started from. *)
Lemma execute_iteration_oracle_failure E n base rr ts w res w' :
  (forall t req, exists e, strategy_func E t req = Raise e) ->
  _execute_evolution_iteration E n base rr ts w = (Ok res, w') ->
  ir_best_content res = base.
Proof.
  intros Hfail H. unfold _execute_evolution_iteration in H.
  unfold bind at 1, datetime_now at 1 in H. cbv beta iota in H.
  unfold bind at 1, get at 1 in H. cbv beta iota in H.
  set (w0 := with_ticks (S (ticks w)) w) in *.
  destruct (generate_variants_parallel_oracle_failure E base rr ts w0 Hfail)
    as (vs & wg & Hgen & Hhg & Hlen & Hbase).
  unfold bind at 1 in H. rewrite Hgen in H.
  destruct (evaluate_variants_spec E (seq (List.length (heap w0)) 6) ts rr wg)
    as (cs & we & Hev & Hall & _ & _).
  { apply seq_NoDup. }
  { rewrite Forall_forall. intros x Hx. apply in_seq in Hx.
    rewrite Hhg, length_app, Hlen. lia. }
  unfold bind at 1 in H. rewrite Hev in H.
  assert (Hstored :
            Forall (fun r => exists v, nth_error (heap we) r = Some v
                                       /\ content v = base)
              (seq (List.length (heap w0)) 6)).
  { eapply Forall2_Forall_left; [|exact Hall].
    intros r c Hr (v & Hv & Hv' & _).
    exists (with_quality_scores (dimension_scores c) v).
    split; [exact Hv'|]. simpl.
    apply in_seq in Hr.
    rewrite Hhg, nth_error_app2 in Hv by lia.
    apply nth_error_In in Hv.
    rewrite Forall_forall in Hbase. apply (Hbase v Hv). }
  destruct (deref_all_stored (fun v => content v = base) _ we Hstored)
    as (vs' & Hderef & Hvs' & Hlen').
  assert (Hmerge : _merge_variants (seq (List.length (heap w0)) 6) cs we
                   = (Ok base, we)).
  { unfold _merge_variants, try_except, bind. rewrite Hderef. unfold ret.
    rewrite (merge_variants_identical base); [reflexivity| |exact Hvs'].
    destruct vs'; [discriminate Hlen' | discriminate]. }
  unfold bind at 1 in H. rewrite Hmerge in H.
  apply bind_inv in H as [(q & w1 & _ & H) | (e & _ & Habs)];
    [|discriminate].
  apply bind_inv in H as [(t1 & w2 & _ & H) | (e & _ & Habs)];
    [|discriminate].
  apply bind_inv in H as [(t2 & w3 & _ & H) | (e & _ & Habs)];
    [|discriminate].
  unfold bind, modify, ret in H. inversion H; subst. reflexivity.
Qed.

Lemma evolution_loop_oracle_failure E rr ts base :
  (forall t req, exists e, strategy_func E t req = Raise e) ->
  forall remaining iteration bs w bc' bs' w',
    evolution_loop E rr ts remaining iteration base bs w
    = (Ok (bc', bs'), w') ->
    bc' = base.
Proof.
  intros Hfail.
  induction remaining as [|remaining IH];
    intros iteration bs w bc' bs' w' H; simpl in H.
  - inversion H. reflexivity.
  - apply bind_inv in H as [(res & w1 & Hc & H) | (e & _ & Habs)];
      [|discriminate].
    apply (execute_iteration_oracle_failure _ _ _ _ _ _ _ _ Hfail) in Hc.
    rewrite Hc in H.
    assert (Hsel : (if Qltb bs (ir_best_score res)
                    then (base, ir_best_score res) else (base, bs))
                   = (base, if Qltb bs (ir_best_score res)
                            then ir_best_score res else bs))
      by (destruct (Qltb bs (ir_best_score res)); reflexivity).
    rewrite Hsel in H.
    apply bind_inv in H as [(u1 & w2 & _ & H) | (e & _ & Habs)];
      [|discriminate].
    apply bind_inv in H as [(u2 & w3 & _ & H) | (e & _ & Habs)];
      [|discriminate].
    apply bind_inv in H as [(u3 & w4 & _ & H) | (e & _ & Habs)];
      [|discriminate].
    apply bind_inv in H as [([cont reason] & w5 & _ & H) | (e & _ & Habs)];
      [|discriminate].
    destruct cont.
    + eapply IH. exact H.
    + inversion H. reflexivity.
Qed.

Lemma evolve_content_oracle_failure E input w c ts sr w' :
  (forall t req, exists e, strategy_func E t req = Raise e) ->
  in_content input = Some c ->
  in_target_section input = Some ts ->
  evolve_content E input w = (Ok (Success sr), w') ->
  final_content sr = c.
Proof.
  intros Hfail Hc Hts. rewrite evolve_content_unfold. cbv zeta.
  destruct (evolve_content_body E _ input (with_ticks (S (ticks w)) w))
    as [r w1] eqn:Hbody.
  destruct r as [o|e]; [|discriminate]. intros H. inversion H; subst; clear H.
  unfold evolve_content_body in Hbody. rewrite Hc, Hts in Hbody.
  apply bind_inv in Hbody as [(u & w2 & _ & H) | (e & _ & Habs)];
    [|discriminate].
  destruct c as [|a c]; [discriminate H|].
  apply bind_inv in H as [(u1 & w3 & _ & H) | (e & _ & Habs)];
    [|discriminate].
  apply bind_inv in H as [(cfg & w4 & _ & H) | (e & _ & Habs)];
    [|discriminate].
  apply bind_inv in H as [(t & w5 & _ & H) | (e & _ & Habs)];
    [|discriminate].
  apply bind_inv in H as [(u2 & w6 & _ & H) | (e & _ & Habs)];
    [|discriminate].
  apply bind_inv in H as [([bc bs] & w7 & Hloop & H) | (e & _ & Habs)];
    [|discriminate].
  apply (evolution_loop_oracle_failure _ _ _ _ Hfail) in Hloop. subst bc.
  apply bind_inv in H as [(fa & w8 & _ & H) | (e & _ & Habs)];
    [|discriminate].
  apply bind_inv in H as [(p & w9 & _ & H) | (e & _ & Habs)];
    [|discriminate].
  apply bind_inv in H as [(wf & w10 & _ & H) | (e & _ & Habs)];
    [|discriminate].
  unfold ret in H. inversion H. reflexivity.
Qed.

(** C8.  When every call to the generation oracle fails, each of the six
    variants that an iteration generates is a fallback whose content is
    the base content; merging, by best sections, any non-empty list of
    variants whose content is the base content gives back exactly the base
    content, because splitting on the blank-line delimiter and joining
    again is the identity; hence each iteration's candidate is its base
    content, and a successful run returns the content it was given. *)
Theorem oracle_failure_round_trip (E : Env) (base : string)
  (rr : list SearchResult) (ts : Section) (w : World) :
  (forall t req, exists e, strategy_func E t req = Raise e) ->
  PyStr.join PyStr.LFLF (PyStr.split PyStr.LFLF base) = base
  /\ (exists refs vs w',
        _generate_variants_parallel E base rr ts w = (Ok refs, w')
        /\ deref_all refs w' = (Ok vs, w')
        /\ List.length vs = 6%nat
        /\ Forall (fun v => content v = base
                            /\ generation_strategy v = "fallback") vs
        /\ forall critiques,
             _merge_best_sections vs critiques = Ok base
             /\ merge_variants vs critiques "best_sections" = base)
  /\ (forall n, returns (_execute_evolution_iteration E n base rr ts) w
                  (fun res _ => ir_best_content res = base))
  /\ (forall input sr w',
        in_content input = Some base ->
        in_target_section input = Some ts ->
        evolve_content E input w = (Ok (Success sr), w') ->
        final_content sr = base).
Proof.
  intros Hfail. split; [apply join_split, LFLF_nonempty|]. split; [|split].
  - destruct (generate_variants_parallel_oracle_failure E base rr ts w Hfail)
      as (vs & w' & Hrun & Hh & Hlen & Hall).
    exists (seq (List.length (heap w)) 6), vs, w'.
    split; [exact Hrun|].
    split; [rewrite <- Hlen; apply deref_all_seq; exact Hh|].
    split; [exact Hlen|]. split; [exact Hall|].
    intros critiques.
    assert (Hcontent : Forall (fun v => content v = base) vs)
      by (eapply Forall_impl; [|exact Hall]; intros v [Hv _]; exact Hv).
    assert (Hne : vs <> []) by (destruct vs; discriminate).
    split; [now apply merge_best_sections_identical
           | now apply merge_variants_identical].
  - intros n. unfold returns.
    destruct (_execute_evolution_iteration E n base rr ts w)
      as [[res|e] w'] eqn:Hrun; [|exact I].
    eapply execute_iteration_oracle_failure; eauto.
  - intros input sr w' Hc Hts Hrun.
    eapply evolve_content_oracle_failure; eauto.
Qed.

Lemma oracle_failure_round_trip_witness :
  (exists refs vs w',
     _generate_variants_parallel failing_env demo_content demo_research
       demo_section (SelfEvolutionAgent_init true) = (Ok refs, w')
     /\ deref_all refs w' = (Ok vs, w')
     /\ merge_variants vs [] "best_sections" = demo_content)
  /\ exists sr w',
       evolve_content failing_env (demo_input 2) (SelfEvolutionAgent_init true)
       = (Ok (Success sr), w')
       /\ final_content sr = demo_content.
Proof.
  destruct (oracle_failure_round_trip failing_env demo_content demo_research
              demo_section (SelfEvolutionAgent_init true))
    as (_ & (refs & vs & w' & Hgen & Hderef & _ & _ & Hmerge) & _ & Hrun).
  - intros t req. eexists. reflexivity.
  - split.
    + exists refs, vs, w'. split; [exact Hgen|]. split; [exact Hderef|].
      apply Hmerge.
    + destruct (evolve_content failing_env (demo_input 2)
                  (SelfEvolutionAgent_init true)) as [r w2] eqn:Heq.
      assert (Hr : exists sr, r = Ok (Success sr))
        by (vm_compute in Heq; inversion Heq; eexists; reflexivity).
      destruct Hr as (sr & ->).
      exists sr, w2. split; [reflexivity|].
      eapply (Hrun (demo_input 2)); [reflexivity | reflexivity | exact Heq].
Defined.

(* ================================================================== *)
(** * Further properties of the code *)
(* ================================================================== *)

(** ** The generation strategies of the source *)

Lemma append_eq_nil (a b : string) : a ++ b = "" -> a = "" /\ b = "".
Proof. destruct a; simpl; [auto | discriminate]. Qed.

Lemma join_two_nonempty sep a b l :
  sep <> "" -> PyStr.join sep (a :: b :: l) <> "".
Proof.
  intros Hsep H. rewrite join_cons in H by discriminate.
  apply append_eq_nil in H as [_ H]. apply append_eq_nil in H as [H _].
  contradiction.
Qed.

Lemma prefix_app (p a b : string) :
  prefix p a = true -> prefix p (a ++ b) = true.
Proof.
  revert a. induction p as [|c p IH]; intros a H.
  - destruct (a ++ b); reflexivity.
  - destruct a as [|c' a]; simpl in *; [discriminate|].
    destruct (ascii_dec c c'); [auto | discriminate].
Qed.

Lemma contains_cons (sub : string) c s :
  PyStr.contains sub (String c s)
  = prefix sub (String c s) || PyStr.contains sub s.
Proof. reflexivity. Qed.

Lemma contains_app_l (sub a b : string) :
  PyStr.contains sub a = true -> PyStr.contains sub (a ++ b) = true.
Proof.
  induction a as [|c a IH]; intros H.
  - destruct sub; [|discriminate]. destruct b; reflexivity.
  - change (String c a ++ b) with (String c (a ++ b)).
    rewrite contains_cons in *.
    apply orb_true_iff in H as [H|H].
    + change (String c (a ++ b)) with (String c a ++ b).
      rewrite (prefix_app _ _ _ H). reflexivity.
    + rewrite (IH H). apply orb_true_r.
Qed.

Lemma contains_app_r (sub a b : string) :
  PyStr.contains sub b = true -> PyStr.contains sub (a ++ b) = true.
Proof.
  intros H. induction a as [|c a IH]; [exact H|].
  change (String c a ++ b) with (String c (a ++ b)).
  rewrite contains_cons, IH. apply orb_true_r.
Qed.

Lemma lower_app (a b : string) :
  PyStr.lower (a ++ b) = PyStr.lower a ++ PyStr.lower b.
Proof. induction a; simpl; congruence. Qed.

(** Every piece that [split] returns is a slice of the text. *)
Lemma split_from_slice sep cur s piece :
  sep <> "" -> In piece (PyStr.split_from sep cur s) ->
  exists pre post, cur ++ s = pre ++ piece ++ post.
Proof.
  funelim (PyStr.split_from sep cur s); intros Hsep Hin.
  - destruct Hin as [<-|[]]. exists "", "". simpl. reflexivity.
  - destruct Hin as [<-|Hin].
    + exists "", (String c s'). reflexivity.
    + destruct (H _ Hsep Hin) as (pre & post & Heq').
      simpl in Heq'. apply prefix_drop in Heq.
      exists (cur ++ sep ++ pre), post.
      rewrite Heq at 1.
      destruct sep as [|a sep']; [congruence|]. simpl in Heq' |- *.
      rewrite Heq'. repeat (rewrite append_assoc; simpl). reflexivity.
  - destruct (H _ Hsep Hin) as (pre & post & Heq').
    exists pre, post. rewrite <- Heq', append_assoc. reflexivity.
Qed.

Lemma any_in_slice terms pre piece post :
  PyStr.any_in terms (PyStr.lower (pre ++ piece ++ post)) = false ->
  PyStr.any_in terms (PyStr.lower piece) = false.
Proof.
  unfold PyStr.any_in. intros H.
  destruct (existsb _ terms) eqn:Hex in |- *; [|reflexivity].
  apply existsb_exists in Hex as (term & Hin & Hc).
  assert (Hex : existsb (fun term => PyStr.contains term
                           (PyStr.lower (pre ++ piece ++ post))) terms = true).
  { apply existsb_exists. exists term. split; [exact Hin|].
    rewrite !lower_app. apply contains_app_r, contains_app_l. exact Hc. }
  congruence.
Qed.

Lemma flat_map_keep {A} (f : A -> list A) xs :
  (forall x, In x xs -> f x = [x]) -> flat_map f xs = xs.
Proof.
  induction xs as [|x xs IH]; intros H; simpl; [reflexivity|].
  rewrite (H x) by now left. simpl. f_equal. apply IH.
  intros y Hy. apply H. now right.
Qed.

Lemma flat_map_none {A B} (f : A -> list B) xs :
  (forall x, In x xs -> f x = []) -> flat_map f xs = [].
Proof.
  induction xs as [|x xs IH]; intros H; simpl; [reflexivity|].
  rewrite (H x) by now left. simpl. apply IH.
  intros y Hy. apply H. now right.
Qed.

Lemma LF_nonempty : PyStr.LF <> "".
Proof. discriminate. Qed.

Lemma depth_enhancement_quiet base evidence :
  PyStr.any_in ["important"; "significant"; "shows"; "indicates"]
    (PyStr.lower base) = false ->
  _simulate_depth_enhancement base evidence = base.
Proof.
  intros H. unfold _simulate_depth_enhancement.
  rewrite flat_map_keep; [apply join_split, LF_nonempty|].
  intros line Hin.
  destruct (split_from_slice _ _ _ _ LF_nonempty Hin) as (pre & post & Heq).
  simpl in Heq. rewrite Heq in H.
  rewrite (any_in_slice _ _ _ _ H). reflexivity.
Qed.

Lemma join_app_last sep ls x :
  ls <> [] ->
  PyStr.join sep (ls ++ [x]) = PyStr.join sep ls ++ sep ++ x.
Proof.
  induction ls as [|l ls IH]; intros Hne; [congruence|].
  destruct ls as [|l2 ls]; [reflexivity|].
  change ((l :: l2 :: ls) ++ [x])%list with (l :: ((l2 :: ls) ++ [x]))%list.
  rewrite join_cons by discriminate.
  rewrite IH by discriminate.
  rewrite (join_cons sep l (l2 :: ls)) by discriminate.
  rewrite !append_assoc. reflexivity.
Qed.

Lemma critical_analysis_quiet base evidence :
  PyStr.any_in ["shows"; "proves"; "demonstrates"] (PyStr.lower base) = false ->
  _simulate_critical_analysis base evidence
  = base ++ PyStr.LF ++ PyStr.LFLF ++ "Critical Evaluation:" ++ PyStr.LF
    ++ "A critical analysis of the evidence reveals both strengths and limitations: "
    ++ PyStr.take 150 evidence ++ "...".
Proof.
  intros H. unfold _simulate_critical_analysis.
  rewrite flat_map_keep.
  - rewrite join_app_last by apply split_from_nonempty.
    rewrite join_split by exact LF_nonempty. reflexivity.
  - intros line Hin.
    destruct (split_from_slice _ _ _ _ LF_nonempty Hin) as (pre & post & Heq).
    simpl in Heq. rewrite Heq in H.
    rewrite (any_in_slice _ _ _ _ H). reflexivity.
Qed.

Lemma filter_none {A} (f : A -> bool) xs :
  Forall (fun x => f x = false) xs -> filter f xs = [].
Proof.
  induction 1 as [|x xs Hx _ IH]; simpl; [reflexivity|]. now rewrite Hx.
Qed.

Lemma generation_strategies_total t request :
  exists c r,
    generation_strategies t request = Ok (c, r)
    /\ (base_content request <> "" -> c <> "").
Proof.
  destruct t; unfold generation_strategies; do 2 eexists;
    (split; [reflexivity|]); intros Hne Hc.
  - unfold _simulate_perspective_shift in Hc.
    apply append_eq_nil in Hc as [_ Hc]. discriminate Hc.
  - unfold _simulate_structure_reorganization in Hc.
    destruct (3 <=? _)%nat.
    + revert Hc. cbn [List.app]. apply join_two_nonempty, LFLF_nonempty.
    + rewrite join_split in Hc by exact LFLF_nonempty. contradiction.
  - unfold _simulate_depth_enhancement in Hc.
    pose proof (join_split PyStr.LF (base_content request) LF_nonempty) as Hjs.
    pose proof (split_from_nonempty PyStr.LF "" (base_content request)) as Hl.
    unfold PyStr.split in *.
    destruct (PyStr.split_from PyStr.LF "" (base_content request))
      as [|l1 [|l2 ls]]; [congruence| |].
    + simpl in Hjs. subst l1. revert Hc. cbn [flat_map List.app].
      destruct (PyStr.any_in _ _); cbn [List.app].
      * apply join_two_nonempty, LF_nonempty.
      * simpl. exact Hne.
    + revert Hc. cbn [flat_map List.app].
      destruct (PyStr.any_in _ (PyStr.lower l1)); cbn [List.app];
        apply join_two_nonempty, LF_nonempty.
  - unfold _simulate_breadth_expansion in Hc.
    apply append_eq_nil in Hc as [Hc _]. contradiction.
  - unfold _simulate_critical_analysis in Hc.
    pose proof (split_from_nonempty PyStr.LF "" (base_content request)) as Hl.
    unfold PyStr.split in *.
    destruct (PyStr.split_from PyStr.LF "" (base_content request))
      as [|l1 ls]; [congruence|].
    revert Hc. cbn [flat_map List.app].
    match goal with
    | |- PyStr.join _ (l1 :: (?z ++ ?x)%list) = _ -> _ =>
        destruct z; cbn [List.app]
    end; apply join_two_nonempty, LF_nonempty.
  - unfold _simulate_synthesis_integration in Hc.
    apply append_eq_nil in Hc as [Hc _]. contradiction.
Qed.

(** X1.  [_summarize_evidence] answers an empty list of results with a
    fixed sentence, but a non-empty list in which every result scores
    below 0.4 with the empty string: such results are neither
    high-quality nor supporting evidence. *)
Theorem summarize_evidence_low_quality (rr : list SearchResult) :
  _summarize_evidence [] = "No additional research evidence available."
  /\ (rr <> [] ->
      Forall (fun r => (quality_score r < 0.4)%Q) rr ->
      _summarize_evidence rr = "").
Proof.
  split; [reflexivity|]. intros Hne Hlow.
  destruct rr as [|r rr]; [congruence|].
  unfold _summarize_evidence.
  assert (Hhigh : forall x, (quality_score x < 0.4)%Q ->
                   Qltb 0.7 (quality_score x) = false)
    by (intros x Hx; apply Qltb_ge; lra).
  assert (Hmed : forall x, (quality_score x < 0.4)%Q ->
                  Qle_bool 0.4 (quality_score x)
                  && Qle_bool (quality_score x) 0.7 = false).
  { intros x Hx. apply andb_false_iff. left.
    destruct (Qle_bool 0.4 (quality_score x)) eqn:Hb; [|reflexivity].
    apply Qle_bool_iff in Hb. lra. }
  rewrite !filter_none; [reflexivity | |];
    (eapply Forall_impl; [|exact Hlow]); auto.
Qed.

Lemma summarize_evidence_low_quality_witness :
  _summarize_evidence
    [ {| result_id := "r1"; title := "Blog post"; content_text := "Hearsay.";
         quality_score := 0.2%Q; relevance_score := 0.9%Q |} ] = "".
Proof.
  apply (summarize_evidence_low_quality
           [ {| result_id := "r1"; title := "Blog post";
                content_text := "Hearsay.";
                quality_score := 0.2%Q; relevance_score := 0.9%Q |} ]).
  - discriminate.
  - repeat constructor.
Defined.

(** X2.  The structure-reorganisation strategy leaves a text of fewer
    than three paragraphs exactly as it is: splitting on the blank line
    and joining again is the identity, and the evidence is not used. *)
Theorem structure_variant_short_content (request : VariantGenerationRequest) :
  (List.length (PyStr.split PyStr.LFLF (base_content request)) < 3)%nat ->
  exists rationale,
    generation_strategies STRUCTURE_REORGANIZATION request
    = Ok (base_content request, rationale).
Proof.
  intros Hshort. eexists. unfold generation_strategies. f_equal. f_equal.
  unfold _simulate_structure_reorganization.
  apply Nat.leb_gt in Hshort. rewrite Hshort.
  apply join_split, LFLF_nonempty.
Qed.

Lemma structure_variant_short_content_witness :
  exists rationale,
    generation_strategies STRUCTURE_REORGANIZATION
      {| base_content := demo_content; research_results := demo_research;
         target_section := demo_section;
         variant_type := STRUCTURE_REORGANIZATION |}
    = Ok (demo_content, rationale).
Proof.
  apply (structure_variant_short_content
           {| base_content := demo_content; research_results := demo_research;
              target_section := demo_section;
              variant_type := STRUCTURE_REORGANIZATION |}).
  vm_compute. lia.
Defined.

(** X3.  The depth-enhancement strategy only inserts a line after a line
    that holds one of its trigger words: on a text whose lower-cased form
    holds none of them it returns the text unchanged.  The
    critical-analysis strategy, on a text without its own trigger words,
    returns the text followed by its closing evaluation only. *)
Theorem depth_and_critical_without_triggers (base evidence : string) :
  (PyStr.any_in ["important"; "significant"; "shows"; "indicates"]
     (PyStr.lower base) = false ->
   _simulate_depth_enhancement base evidence = base)
  /\ (PyStr.any_in ["shows"; "proves"; "demonstrates"] (PyStr.lower base)
      = false ->
      _simulate_critical_analysis base evidence
      = base ++ PyStr.LF ++ PyStr.LFLF ++ "Critical Evaluation:" ++ PyStr.LF
        ++ "A critical analysis of the evidence reveals both strengths and limitations: "
        ++ PyStr.take 150 evidence ++ "...").
Proof.
  split; [apply depth_enhancement_quiet | apply critical_analysis_quiet].
Qed.

Lemma depth_and_critical_without_triggers_witness :
  _simulate_depth_enhancement demo_content "evidence" = demo_content
  /\ prefix demo_content (_simulate_critical_analysis demo_content "evidence")
     = true.
Proof.
  destruct (depth_and_critical_without_triggers demo_content "evidence")
    as [Hd Hc].
  split.
  - apply Hd. vm_compute. reflexivity.
  - rewrite Hc by (vm_compute; reflexivity). vm_compute. reflexivity.
Defined.

(** X4.  With the six strategies of the source as the generation oracle,
    [generate_variant] never takes its fallback: it returns a variant of
    the requested type, tagged with the strategy of that type, with no
    quality score yet; and when the base content is not empty, neither is
    the content of the variant. *)
Theorem source_strategies_never_empty (E : Env)
  (request : VariantGenerationRequest) (w : World) :
  strategy_func E = generation_strategies ->
  exists v w',
    generate_variant E request w = (Ok v, w')
    /\ cv_variant_type v = variant_type request
    /\ generation_strategy v
       = "task_tool_" ++ VariantType_value (variant_type request)
    /\ quality_scores v = []
    /\ (base_content request <> "" -> content v <> "").
Proof.
  intros Hs.
  destruct (generation_strategies_total (variant_type request) request)
    as (c & r & Hgen & Hne).
  unfold generate_variant, try_except, bind at 1, datetime_now.
  cbv beta iota. unfold bind at 1, lift. rewrite Hs, Hgen.
  unfold bind, now_isoformat, bind, datetime_now, ret. cbv beta iota.
  do 2 eexists. split; [reflexivity|]. simpl. auto.
Qed.

Lemma source_strategies_never_empty_witness :
  exists v w',
    generate_variant source_env
      {| base_content := demo_content; research_results := demo_research;
         target_section := demo_section; variant_type := DEPTH_ENHANCEMENT |}
      (SelfEvolutionAgent_init true) = (Ok v, w')
    /\ generation_strategy v = "task_tool_depth_enhancement"
    /\ content v <> "".
Proof.
  destruct (source_strategies_never_empty source_env
              {| base_content := demo_content;
                 research_results := demo_research;
                 target_section := demo_section;
                 variant_type := DEPTH_ENHANCEMENT |}
              (SelfEvolutionAgent_init true) eq_refl)
    as (v & w' & Hrun & _ & Hs & _ & Hne).
  exists v, w'. split; [exact Hrun|]. split; [exact Hs|].
  apply Hne. discriminate.
Defined.

(** ** More on the merger *)

Lemma max_by_In {A} (key : A -> Q) xs :
  forall x, In (max_by key x xs) (x :: xs).
Proof.
  unfold max_by. induction xs as [|y xs IH]; intros x; simpl; [now left|].
  destruct (IH (if Qltb (key x) (key y) then y else x)) as [H|H].
  - destruct (Qltb (key x) (key y)); rewrite <- H; auto.
  - auto.
Qed.

Lemma max_by_max {A} (key : A -> Q) xs :
  forall x y, In y (x :: xs) -> (key y <= key (max_by key x xs))%Q.
Proof.
  unfold max_by. induction xs as [|z xs IH]; intros x y Hin; simpl.
  - destruct Hin as [<-|[]]. apply Qle_refl.
  - set (b := if Qltb (key x) (key z) then z else x).
    assert (Hx : (key x <= key b)%Q /\ (key z <= key b)%Q).
    { unfold b. destruct (Qltb (key x) (key z)) eqn:Hlt.
      - apply Qltb_lt in Hlt. split; [apply Qlt_le_weak, Hlt | apply Qle_refl].
      - apply Qltb_ge in Hlt. split; [apply Qle_refl | exact Hlt]. }
    assert (Hb : (key b <= key (fold_left
                     (fun best y0 =>
                        if Qltb (key best) (key y0) then y0 else best) xs b))%Q)
      by (apply IH; now left).
    destruct Hin as [<-|[<-|Hin]].
    + eapply Qle_trans; [apply Hx | exact Hb].
    + eapply Qle_trans; [apply Hx | exact Hb].
    + apply IH. now right.
Qed.

(** X5.  The fallback of the merger, [_select_best_variant]: no variant
    gives the empty string; without critiques the first variant is
    returned; otherwise the content returned is that of one of the
    variants, and no variant has a greater critique score than it (a
    variant without a critique counts 0.0 here). *)
Theorem select_best_variant_maximal (variants : list ContentVariant)
  (critiques : list ComprehensiveCritique) :
  _select_best_variant [] critiques = ""
  /\ (forall v, _select_best_variant (v :: variants) [] = content v)
  /\ (variants <> [] ->
      exists best,
        In best variants
        /\ _select_best_variant variants critiques = content best
        /\ (critiques <> [] ->
            forall v, In v variants ->
              (score_of (dict_of target_variant_id (fun c => c) critiques)
                 0.0 (variant_id v)
               <= score_of (dict_of target_variant_id (fun c => c) critiques)
                    0.0 (variant_id best))%Q)).
Proof.
  split; [reflexivity|]. split; [reflexivity|]. intros Hne.
  destruct variants as [|v vs]; [congruence|].
  destruct critiques as [|c cs].
  - exists v. split; [now left|]. split; [reflexivity|]. congruence.
  - unfold _select_best_variant.
    set (key := fun v0 : ContentVariant =>
                  score_of (dict_of target_variant_id (fun c0 => c0) (c :: cs))
                    0.0 (variant_id v0)).
    exists (max_by key v vs).
    split; [apply max_by_In|]. split; [reflexivity|].
    intros _ v' Hin. apply (max_by_max key vs v v' Hin).
Qed.

Lemma select_best_variant_maximal_witness :
  exists best,
    In best [demo_variant "v1" "first"; demo_variant "v2" "second"]
    /\ _select_best_variant
         [demo_variant "v1" "first"; demo_variant "v2" "second"]
         [demo_critique "v1" 2.5; demo_critique "v2" 4.0]
       = content best
    /\ (score_of
          (dict_of target_variant_id (fun c => c)
             [demo_critique "v1" 2.5; demo_critique "v2" 4.0])
          0.0 "v1"
        <= score_of
             (dict_of target_variant_id (fun c => c)
                [demo_critique "v1" 2.5; demo_critique "v2" 4.0])
             0.0 (variant_id best))%Q.
Proof.
  destruct (select_best_variant_maximal
              [demo_variant "v1" "first"; demo_variant "v2" "second"]
              [demo_critique "v1" 2.5; demo_critique "v2" 4.0])
    as (_ & _ & H).
  destruct (H ltac:(discriminate)) as (best & Hin & Heq & Hmax).
  exists best. split; [exact Hin|]. split; [exact Heq|].
  apply (Hmax ltac:(discriminate) (demo_variant "v1" "first")). now left.
Defined.

Lemma Forall_flat_map_intro {A B} (P : B -> Prop) (f : A -> list B) xs :
  (forall x, In x xs -> Forall P (f x)) -> Forall P (flat_map f xs).
Proof.
  induction xs as [|x xs IH]; intros H; simpl; [constructor|].
  apply Forall_app. split; [apply H; now left|].
  apply IH. intros y Hy. apply H. now right.
Qed.

(** X6.  Merging by best sections never invents text: on a non-empty
    list of variants it does not raise, and the result is the join, on
    the blank line, of sections each of which is a section of one of the
    variants. *)
Theorem merge_best_sections_from_variants (variants : list ContentVariant)
  (critiques : list ComprehensiveCritique) :
  variants <> [] ->
  exists merged_sections,
    _merge_best_sections variants critiques
    = Ok (PyStr.join PyStr.LFLF merged_sections)
    /\ Forall
         (fun section =>
            exists v,
              In v variants
              /\ In section (PyStr.split PyStr.LFLF (content v)))
         merged_sections.
Proof.
  intros Hne. unfold _merge_best_sections.
  set (critique_map := dict_of target_variant_id (fun c => c) critiques).
  set (variant_sections :=
         dict_of variant_id (fun v => PyStr.split PyStr.LFLF (content v))
           variants).
  assert (Hvs : Forall
                  (fun kv => exists v,
                     In v variants
                     /\ snd kv = PyStr.split PyStr.LFLF (content v))
                  variant_sections).
  { unfold variant_sections, dict_of.
    apply (fold_dict_set_Forall
             (fun s => exists v,
                In v variants /\ s = PyStr.split PyStr.LFLF (content v)));
      [|constructor].
    intros v Hv. exists v. auto. }
  assert (Hvne : variant_sections <> [])
    by (unfold variant_sections, dict_of;
        apply fold_dict_set_nonempty; now left).
  destruct (map (fun kv => List.length (snd kv)) variant_sections)
    as [|n ns] eqn:Hmap.
  - destruct variant_sections; [congruence | discriminate].
  - eexists. split; [reflexivity|].
    apply Forall_flat_map_intro. intros idx _.
    match goal with |- Forall _ (match ?cands with _ => _ end) =>
      assert (Hc : Forall
                     (fun c => exists v,
                        In v variants
                        /\ In (sc_content c)
                             (PyStr.split PyStr.LFLF (content v)))
                     cands);
      [|destruct cands as [|c cs]; [constructor|]]
    end.
    + apply Forall_flat_map_intro. intros [id sections] Hin.
      rewrite Forall_forall in Hvs.
      destruct (Hvs _ Hin) as (v & Hv & Hs). simpl in Hs.
      destruct (nth_error sections idx) as [section|] eqn:Hnth;
        [|constructor].
      constructor; [|constructor]. exists v. split; [exact Hv|].
      simpl. rewrite <- Hs. eapply nth_error_In; eauto.
    + constructor; [|constructor].
      inversion Hc as [|? ? Hc1 Hcs]; subst.
      apply (max_by_Forall
               (fun c0 => exists v,
                  In v variants
                  /\ In (sc_content c0)
                       (PyStr.split PyStr.LFLF (content v))));
        assumption.
Qed.

Lemma merge_best_sections_from_variants_witness :
  exists merged_sections,
    _merge_best_sections
      [demo_variant "v1" demo_content; demo_variant "v2" "other"] []
    = Ok (PyStr.join PyStr.LFLF merged_sections)
    /\ Forall
         (fun section =>
            exists v,
              In v [demo_variant "v1" demo_content; demo_variant "v2" "other"]
              /\ In section (PyStr.split PyStr.LFLF (content v)))
         merged_sections.
Proof.
  apply (merge_best_sections_from_variants
           [demo_variant "v1" demo_content; demo_variant "v2" "other"] []).
  discriminate.
Defined.

Lemma py_sum_const {A} (f : A -> Q) (xs : list A) (s : Q) :
  (forall x, In x xs -> (f x == s)%Q) ->
  (py_sum (map f xs) == inject_Z (Z.of_nat (List.length xs)) * s)%Q.
Proof.
  unfold py_sum. induction xs as [|x xs IH]; intros H.
  - change (inject_Z (Z.of_nat (List.length (@nil A)))) with 0%Q.
    simpl. ring.
  - cbn [map fold_left]. rewrite fold_left_Qplus_shift.
    rewrite IH by (intros y Hy; apply H; now right).
    rewrite (H x) by now left.
    cbn [List.length]. rewrite Nat2Z.inj_succ, <- Z.add_1_r, inject_Z_plus.
    change (inject_Z 1) with 1%Q. ring.
Qed.

(** X7.  Weighted synthesis keeps a variant only when its share of the
    total score exceeds 0.3; with four or more variants of equal score
    (for instance whenever no critique is supplied) no share does, and the
    merge answers with its "no synthesis" sentence instead of content. *)
Theorem weighted_synthesis_equal_scores (variants : list ContentVariant)
  (critiques : list ComprehensiveCritique) (s : Q) :
  (4 <= List.length variants)%nat ->
  (0 < s)%Q ->
  (forall v, In v variants ->
     (score_of (dict_of target_variant_id (fun c => c) critiques) 3.0
        (variant_id v) == s)%Q) ->
  merge_variants variants critiques "weighted_synthesis"
  = "No synthesis possible from available content.".
Proof.
  intros Hlen Hs Hall.
  destruct variants as [|v1 [|v2 vs]]; [simpl in Hlen; lia.. |].
  unfold merge_variants.
  change (merge_strategies "weighted_synthesis")
    with _merge_weighted_synthesis.
  unfold _merge_weighted_synthesis.
  set (variants := v1 :: v2 :: vs) in *.
  set (cm := dict_of target_variant_id (fun c => c) critiques) in *.
  set (total := py_sum (map (fun v => score_of cm 3.0 (variant_id v)) variants)).
  assert (Htotal : (total == inject_Z (Z.of_nat (List.length variants)) * s)%Q)
    by (apply py_sum_const; exact Hall).
  assert (Hn : (4 <= inject_Z (Z.of_nat (List.length variants)))%Q).
  { change 4%Q with (inject_Z 4). rewrite <- Zle_Qle. lia. }
  assert (Hpos : (0 < total)%Q) by (rewrite Htotal; nra).
  destruct (Qeq_bool total 0) eqn:Hz.
  - apply Qeq_bool_iff in Hz. rewrite Hz in Hpos. lra.
  - rewrite flat_map_none; [reflexivity|].
    intros v Hv. cbv zeta.
    assert (Hw : Qltb 0.3 (score_of cm 3.0 (variant_id v) / total) = false).
    { apply Qltb_ge. apply Qle_shift_div_r; [exact Hpos|].
      rewrite (Hall v Hv), Htotal. nra. }
    rewrite Hw. reflexivity.
Qed.

Lemma weighted_synthesis_equal_scores_witness :
  merge_variants
    [demo_variant "v1" "a"; demo_variant "v2" "b"; demo_variant "v3" "c";
     demo_variant "v4" "d"] [] "weighted_synthesis"
  = "No synthesis possible from available content.".
Proof.
  apply (weighted_synthesis_equal_scores _ [] 3.0).
  - simpl. lia.
  - reflexivity.
  - intros v _. reflexivity.
Defined.

Lemma insert_desc_In {A} (key : A -> Q) x xs z :
  In z (insert_desc key x xs) <-> z = x \/ In z xs.
Proof.
  induction xs as [|y xs IH]; simpl.
  - intuition.
  - destruct (Qltb (key y) (key x)); simpl; rewrite ?IH; intuition.
Qed.

Lemma insert_desc_sorted {A} (key : A -> Q) x xs :
  StronglySorted (fun a b => (key b <= key a)%Q) xs ->
  StronglySorted (fun a b => (key b <= key a)%Q) (insert_desc key x xs).
Proof.
  induction 1 as [|y xs Hs IH Hy]; simpl.
  - repeat constructor.
  - destruct (Qltb (key y) (key x)) eqn:Hlt.
    + apply Qltb_lt in Hlt. constructor; [constructor; assumption|].
      constructor; [apply Qlt_le_weak, Hlt|].
      eapply Forall_impl; [|exact Hy]. intros z Hz. cbv beta in *.
      eapply Qle_trans; [exact Hz | apply Qlt_le_weak, Hlt].
    + apply Qltb_ge in Hlt. constructor; [exact IH|].
      rewrite Forall_forall in *. intros z Hz.
      apply insert_desc_In in Hz as [->|Hz]; [exact Hlt | apply Hy, Hz].
Qed.

Lemma sorted_desc_spec {A} (key : A -> Q) xs :
  StronglySorted (fun a b => (key b <= key a)%Q) (sorted_desc key xs)
  /\ forall z, In z (sorted_desc key xs) <-> In z xs.
Proof.
  unfold sorted_desc.
  assert (H : forall acc,
             StronglySorted (fun a b => (key b <= key a)%Q) acc ->
             StronglySorted (fun a b => (key b <= key a)%Q)
               (fold_left (fun acc x => insert_desc key x acc) xs acc)
             /\ forall z,
                  In z (fold_left (fun acc x => insert_desc key x acc) xs acc)
                  <-> In z acc \/ In z xs).
  { induction xs as [|x xs IH]; intros acc Hacc; simpl.
    - split; [exact Hacc | intuition].
    - destruct (IH (insert_desc key x acc) (insert_desc_sorted key x acc Hacc))
        as [Hs Hin].
      split; [exact Hs|]. intros z. rewrite Hin, insert_desc_In. intuition. }
  destruct (H [] (SSorted_nil _)) as [Hs Hin].
  split; [exact Hs|]. intros z. rewrite Hin. simpl. intuition.
Qed.

Lemma integrate_improvements_suffix base improvement :
  exists suffix, _integrate_improvements base improvement = base ++ suffix.
Proof.
  unfold _integrate_improvements.
  match goal with |- context [match ?l with _ => _ end] => destruct l end.
  - exists "". symmetry. apply append_nil_r.
  - eexists. reflexivity.
Qed.

(** X8.  Integrating improvements only ever appends to the base content;
    integrating a text into itself, or integrating the empty text, adds
    nothing. *)
Theorem integrate_improvements_appends (base improvement : string) :
  (exists suffix, _integrate_improvements base improvement = base ++ suffix)
  /\ _integrate_improvements base base = base
  /\ _integrate_improvements base "" = base.
Proof.
  split; [apply integrate_improvements_suffix|]. split.
  - unfold _integrate_improvements. rewrite flat_map_none; [reflexivity|].
    intros sentence Hin.
    assert (Hex : existsb (String.eqb sentence) (PyStr.split ". " base) = true)
      by (apply existsb_exists; exists sentence; split;
          [exact Hin | apply String.eqb_refl]).
    rewrite Hex. simpl. rewrite andb_false_r. reflexivity.
  - reflexivity.
Qed.

(** X9.  Hierarchical integration starts from a variant whose critique
    score no other variant exceeds (a variant without a critique counts
    3.0) and only appends to it: on a non-empty list of variants it does
    not raise, and its result begins with the whole content of that
    variant. *)
Theorem hierarchical_integration_keeps_best (variants : list ContentVariant)
  (critiques : list ComprehensiveCritique) :
  variants <> [] ->
  exists best suffix,
    In best variants
    /\ (forall v, In v variants ->
          (score_of (dict_of target_variant_id (fun c => c) critiques) 3.0
             (variant_id v)
           <= score_of (dict_of target_variant_id (fun c => c) critiques) 3.0
                (variant_id best))%Q)
    /\ _merge_hierarchical_integration variants critiques
       = Ok (content best ++ suffix).
Proof.
  intros Hne. unfold _merge_hierarchical_integration.
  set (key := fun v : ContentVariant =>
                score_of (dict_of target_variant_id (fun c => c) critiques)
                  3.0 (variant_id v)).
  destruct (sorted_desc_spec key variants) as [Hsorted Hin].
  destruct (sorted_desc key variants) as [|best others].
  - destruct variants as [|v vs]; [congruence|].
    destruct (proj2 (Hin v) (or_introl eq_refl)).
  - assert (Hfold : forall others b,
              exists suffix,
                fold_left
                  (fun base_content variant =>
                     _integrate_improvements base_content (content variant))
                  others b = b ++ suffix).
    { clear. induction others as [|o others IH]; intros b; simpl.
      - exists "". symmetry. apply append_nil_r.
      - destruct (integrate_improvements_suffix b (content o)) as (s1 & ->).
        destruct (IH (b ++ s1)) as (s2 & ->).
        exists (s1 ++ s2). apply append_assoc. }
    destruct (Hfold others (content best)) as (suffix & Hs).
    exists best, suffix.
    split; [apply Hin; now left|]. split; [|rewrite Hs; reflexivity].
    intros v Hv. apply Hin in Hv as [<-|Hv]; [apply Qle_refl|].
    inversion Hsorted as [|? ? _ Hall]; subst.
    rewrite Forall_forall in Hall. apply (Hall v Hv).
Qed.

Lemma hierarchical_integration_keeps_best_witness :
  exists best suffix,
    In best [demo_variant "v1" "first"; demo_variant "v2" "second"]
    /\ (score_of
          (dict_of target_variant_id (fun c => c)
             [demo_critique "v1" 2.5; demo_critique "v2" 4.0])
          3.0 "v1"
        <= score_of
             (dict_of target_variant_id (fun c => c)
                [demo_critique "v1" 2.5; demo_critique "v2" 4.0])
             3.0 (variant_id best))%Q
    /\ _merge_hierarchical_integration
         [demo_variant "v1" "first"; demo_variant "v2" "second"]
         [demo_critique "v1" 2.5; demo_critique "v2" 4.0]
       = Ok (content best ++ suffix).
Proof.
  destruct (hierarchical_integration_keeps_best
              [demo_variant "v1" "first"; demo_variant "v2" "second"]
              [demo_critique "v1" 2.5; demo_critique "v2" 4.0]
              ltac:(discriminate))
    as (best & suffix & Hin & Hmax & Hrun).
  exists best, suffix. split; [exact Hin|]. split; [|exact Hrun].
  apply (Hmax (demo_variant "v1" "first")). now left.
Defined.

(** ** More on the judge *)

Lemma dict_set_fresh {V} k (v : V) d :
  ~ In k (map fst d) -> dict_set k v d = (d ++ [(k, v)])%list.
Proof.
  induction d as [|[k' v'] d IH]; simpl; intros Hn; [reflexivity|].
  destruct (String.eqb k k') eqn:Hk.
  - apply String.eqb_eq in Hk. exfalso. apply Hn. now left.
  - rewrite IH; [reflexivity|]. intros Hin. apply Hn. now right.
Qed.

Lemma low_dimensions_app (ds1 ds2 : dict Q) :
  low_dimensions (ds1 ++ ds2)%list
  = (low_dimensions ds1 ++ low_dimensions ds2)%list.
Proof. unfold low_dimensions. apply flat_map_app. Qed.

(** One dimension: its score is on the scale, and it yields a critique
    point exactly when the score is below 3.0. *)
Lemma evaluate_dimension_structure E content dim crit ts ev w :
  returns (_evaluate_dimension E content dim crit ts ev) w
    (fun sp _ =>
       in_range (fst sp)
       /\ point_summary (snd sp)
          = low_dimensions [(EvaluationDimension_value dim, fst sp)]
       /\ Forall (fun p => priority_level p = severity p
                           /\ (1 <= severity p <= 3)%Z) (snd sp)).
Proof.
  unfold _evaluate_dimension. apply returns_bind.
  pose proof (calculate_dimension_score_bounds E content dim crit ts ev w) as H.
  unfold returns.
  destruct (_calculate_dimension_score E content dim crit ts ev w)
    as [[s|e] w1]; [|exact I].
  unfold _generate_dimension_critique_points, low_dimensions.
  cbn [flat_map].
  destruct (Qltb s 3.0) eqn:Hlt.
  - unfold bind, now_isoformat, bind, datetime_now, ret. cbn [fst snd].
    rewrite Hlt.
    split; [exact H|]. split; [reflexivity|].
    constructor; [|constructor]. cbn.
    split; [reflexivity|].
    apply Qltb_lt in Hlt. destruct H as [Hlo Hhi].
    rewrite py_int_nonneg by lra.
    apply Qfloor_bounds; unfold inject_Z; lra.
  - unfold bind, ret. cbn [fst snd]. rewrite Hlt.
    split; [exact H|]. split; [reflexivity | constructor].
Qed.

Lemma structure_loop
  (body : EvaluationDimension * Criteria -> dict Q * list CritiquePoint ->
          M (dict Q * list CritiquePoint)) :
  (forall dim crit ds cps w,
     returns (body (dim, crit) (ds, cps)) w
       (fun s _ =>
          exists score pts,
            s = (dict_set (EvaluationDimension_value dim) score ds,
                 (cps ++ pts)%list)
            /\ in_range score
            /\ point_summary pts
               = low_dimensions [(EvaluationDimension_value dim, score)]
            /\ Forall (fun p => priority_level p = severity p
                                /\ (1 <= severity p <= 3)%Z) pts)) ->
  forall cl ds cps w,
    NoDup (map fst ds
           ++ map (fun dc => EvaluationDimension_value (fst dc)) cl)%list ->
    point_summary cps = low_dimensions ds ->
    Forall (fun p => priority_level p = severity p
                     /\ (1 <= severity p <= 3)%Z) cps ->
    returns (for_each cl body (ds, cps)) w
      (fun s _ =>
         map fst (fst s)
         = (map fst ds
            ++ map (fun dc => EvaluationDimension_value (fst dc)) cl)%list
         /\ point_summary (snd s) = low_dimensions (fst s)
         /\ Forall (fun p => priority_level p = severity p
                             /\ (1 <= severity p <= 3)%Z) (snd s)).
Proof.
  intros Hbody. induction cl as [|[dim crit] cl IH];
    intros ds cps w Hnd Hsum Hcps; cbn [for_each map].
  - unfold returns, ret. cbn [fst snd]. rewrite app_nil_r. auto.
  - apply returns_bind.
    eapply returns_weaken; [|apply Hbody].
    intros s w1 (score & pts & -> & Hr & Hpts & Hp).
    cbn [fst] in Hnd.
    assert (Hfresh : ~ In (EvaluationDimension_value dim) (map fst ds)).
    { intros Hin. apply NoDup_remove_2 in Hnd. apply Hnd.
      apply in_or_app. now left. }
    rewrite (dict_set_fresh _ _ _ Hfresh).
    eapply returns_weaken; [|apply IH].
    + intros s w2 (Hk & Hs & Hf). split; [|auto].
      rewrite Hk, map_app, <- app_assoc. reflexivity.
    + rewrite map_app, <- app_assoc. exact Hnd.
    + unfold point_summary in *. rewrite map_app, low_dimensions_app.
      congruence.
    + apply Forall_app. auto.
Qed.

Lemma evaluate_variant_body_structure E variant ts ev w :
  returns (evaluate_variant_body E variant ts ev) w
    (fun c _ =>
       map fst (dimension_scores c)
       = map EvaluationDimension_value all_EvaluationDimension
       /\ point_summary (critique_points c)
          = low_dimensions (dimension_scores c)
       /\ Forall (fun p => priority_level p = severity p
                           /\ (1 <= severity p <= 3)%Z) (critique_points c)
       /\ revision_recommendations c
          = _generate_revision_recommendations (critique_points c)).
Proof.
  unfold evaluate_variant_body.
  apply returns_bind. unfold returns at 1, datetime_now.
  apply returns_bind.
  eapply returns_weaken; [|apply structure_loop].
  - intros [ds cps] w1 (Hk & Hs & Hf). cbn [fst snd] in *.
    apply returns_bind.
    eapply returns_weaken; [|apply returns_for_each_any].
    intros total w2 _.
    unfold returns, bind, now_isoformat, bind, datetime_now, ret.
    cbn [dimension_scores critique_points revision_recommendations].
    auto.
  - intros dim crit ds cps w1. apply returns_bind.
    eapply returns_weaken; [|apply evaluate_dimension_structure].
    intros [s pts] w2 (Hr & Hpts & Hp). unfold returns, ret.
    exists s, pts. auto.
  - repeat constructor; simpl; intuition discriminate.
  - reflexivity.
  - constructor.
Qed.

Lemma revision_recommendations_medium cps :
  Forall (fun p => (priority_level p <= 3)%Z) cps ->
  (List.length (_generate_revision_recommendations cps) <= 2)%nat
  /\ Forall (fun r => prefix "HIGH PRIORITY" r = false)
       (_generate_revision_recommendations cps).
Proof.
  intros H. unfold _generate_revision_recommendations.
  rewrite (filter_none (fun cp => (4 <=? priority_level cp)%Z)).
  - cbn [map List.app]. split.
    + rewrite length_map, length_firstn. lia.
    + apply Forall_map. apply Forall_forall. intros cp _. reflexivity.
  - eapply Forall_impl; [|exact H]. intros p Hp. cbv beta in *.
    apply Z.leb_gt. lia.
Qed.

Lemma evaluate_variant_structure E variant ts ev w :
  exists c w',
    evaluate_variant E variant ts ev w = (Ok c, w')
    /\ map fst (dimension_scores c)
       = map EvaluationDimension_value all_EvaluationDimension
    /\ point_summary (critique_points c) = low_dimensions (dimension_scores c)
    /\ Forall (fun p => priority_level p = severity p
                        /\ (1 <= severity p <= 3)%Z) (critique_points c)
    /\ (List.length (revision_recommendations c) <= 2)%nat
    /\ Forall (fun r => prefix "HIGH PRIORITY" r = false)
         (revision_recommendations c).
Proof.
  pose proof (evaluate_variant_body_structure E variant ts ev w) as Hbody.
  unfold evaluate_variant, try_except, returns in *.
  destruct (evaluate_variant_body E variant ts ev w) as [[c|e] w1].
  - exists c, w1. destruct Hbody as (Hk & Hs & Hf & Hr).
    split; [reflexivity|]. split; [exact Hk|]. split; [exact Hs|].
    split; [exact Hf|]. rewrite Hr.
    apply revision_recommendations_medium.
    eapply Forall_impl; [|exact Hf]. intros p [-> Hp]. lia.
  - unfold _create_fallback_critique, bind, now_isoformat, bind,
      datetime_now, ret.
    do 2 eexists. split; [reflexivity|].
    cbn [dimension_scores critique_points revision_recommendations].
    split; [reflexivity|]. split; [reflexivity|]. split; [constructor|].
    split; [simpl; lia|]. repeat constructor.
Qed.

(** X10.  Every critique that [evaluate_variant] returns scores exactly
    the eight dimensions, in the order of their declaration; and its
    critique points are, in that order, one for every dimension scoring
    below 3.0, each with the integer part of [4 - score] as severity. *)
Theorem critique_points_follow_scores (E : Env) (variant : ContentVariant)
  (ts : Section) (ev : list SearchResult) (w : World) :
  exists c w',
    evaluate_variant E variant ts ev w = (Ok c, w')
    /\ map fst (dimension_scores c)
       = ["accuracy"; "completeness"; "coherence"; "originality";
          "evidence_quality"; "logical_flow"; "critical_thinking";
          "synthesis_quality"]
    /\ point_summary (critique_points c)
       = low_dimensions (dimension_scores c).
Proof.
  destruct (evaluate_variant_structure E variant ts ev w)
    as (c & w' & Hrun & Hk & Hs & _).
  exists c, w'. auto.
Qed.

(** X11.  No critique point that [evaluate_variant] produces is of high
    priority: its severity is 1, 2 or 3 and its priority equals its
    severity; so the revision recommendations of a critique are at most
    two, and none of them is a "HIGH PRIORITY" one. *)
Theorem no_high_priority_recommendation (E : Env) (variant : ContentVariant)
  (ts : Section) (ev : list SearchResult) (w : World) :
  exists c w',
    evaluate_variant E variant ts ev w = (Ok c, w')
    /\ Forall (fun p => priority_level p = severity p
                        /\ (1 <= severity p <= 3)%Z) (critique_points c)
    /\ (List.length (revision_recommendations c) <= 2)%nat
    /\ Forall (fun r => prefix "HIGH PRIORITY" r = false)
         (revision_recommendations c).
Proof.
  destruct (evaluate_variant_structure E variant ts ev w)
    as (c & w' & Hrun & _ & _ & Hf & Hl & Hr).
  exists c, w'. auto.
Qed.

Lemma filter_all {A} (f : A -> bool) xs :
  Forall (fun x => f x = true) xs -> filter f xs = xs.
Proof.
  induction 1 as [|x xs Hx _ IH]; simpl; [reflexivity|].
  rewrite Hx. now f_equal.
Qed.

(** X12.  The completeness score, under a random generator that honours
    its bounds: a section that requires no element scores in the lowest
    band, [1.0, 1.2] (nothing is counted as covered, and the division is
    by 1, not by 0); a section all of whose required elements, at least
    one, occur in the content scores in the highest band, [4.8, 5.0]. *)
Theorem completeness_score_bands (E : Env) (content : string)
  (crit : Criteria) (ts : Section) (reqs : ContentRequirements)
  (ev : list SearchResult) (w : World) :
  fair_uniform E ->
  content_requirements ts = Some reqs ->
  exists s w',
    _calculate_dimension_score E content COMPLETENESS crit ts ev w
    = (Ok s, w')
    /\ (required_elements reqs = [] -> (1.0 <= s <= 1.2)%Q)
    /\ (required_elements reqs <> [] ->
        Forall (fun elem =>
                  PyStr.contains (PyStr.lower elem) (PyStr.lower content)
                  = true) (required_elements reqs) ->
        (4.8 <= s <= 5.0)%Q).
Proof.
  intros Hfair Hreq.
  unfold _calculate_dimension_score. rewrite Hreq.
  unfold bind, ret, random_uniform. cbv beta iota.
  do 2 eexists. split; [reflexivity|].
  destruct (Hfair (draws w) (-0.2)%Q 0.2%Q ltac:(discriminate)) as [Hlo Hhi].
  set (noise := uniform E (draws w) (-0.2) 0.2) in *.
  split.
  - intros ->. cbn [filter List.length Z.of_nat Z.max].
    match goal with |- context [py_min 5.0 ?x] => set (b := x) end.
    assert (Hb : (b == 1 + noise)%Q)
      by (unfold b; change (inject_Z (Z.max _ 1)) with 1%Q;
          change (inject_Z (Z.of_nat _)) with 0%Q; field).
    clearbody b.
    split; [apply py_max_spec|].
    unfold py_max, py_min.
    destruct (Qltb b 5.0) eqn:H5.
    + destruct (Qltb 1.0 b) eqn:H1; lra.
    + apply Qltb_ge in H5. simpl. lra.
  - intros Hne Hall. rewrite (filter_all _ _ Hall).
    set (n := Z.of_nat (List.length (required_elements reqs))).
    assert (Hn : (1 <= n)%Z)
      by (unfold n; destruct (required_elements reqs);
          [congruence | simpl; lia]).
    rewrite Z.max_l by lia.
    assert (Hnq : (1 <= inject_Z n)%Q)
      by (change 1%Q with (inject_Z 1); rewrite <- Zle_Qle; exact Hn).
    match goal with |- context [py_min 5.0 ?x] => set (b := x) end.
    assert (Hb : (b == 5 + noise)%Q) by (unfold b; field; lra).
    clearbody b.
    split; [|apply clamp_bounds].
    unfold py_max, py_min.
    destruct (Qltb b 5.0) eqn:H5.
    + destruct (Qltb 1.0 b) eqn:H1; [lra|].
      apply Qltb_ge in H1. lra.
    + simpl. lra.
Qed.

Lemma completeness_score_bands_witness :
  (exists s w',
     _calculate_dimension_score source_env "deep learning"
       COMPLETENESS
       {| weight := 0.15%Q; description := "Coverage"; rubric := [] |}
       {| section_id := "s"; section_title := "t";
          content_requirements :=
            Some {| required_elements := ["deep learning"];
                    key_concepts := []; evidence_types := [] |} |}
       [] (SelfEvolutionAgent_init true)
     = (Ok s, w')
     /\ (4.8 <= s <= 5.0)%Q)
  /\ (exists s w',
        _calculate_dimension_score source_env "deep learning"
          COMPLETENESS
          {| weight := 0.15%Q; description := "Coverage"; rubric := [] |}
          {| section_id := "s"; section_title := "t";
             content_requirements :=
               Some {| required_elements := [];
                       key_concepts := []; evidence_types := [] |} |}
          [] (SelfEvolutionAgent_init true)
        = (Ok s, w')
        /\ (1.0 <= s <= 1.2)%Q).
Proof.
  assert (Hfair : fair_uniform source_env).
  { intros n a b Hab. unfold source_env, uniform, demo_uniform.
    split.
    - apply Qle_shift_div_l; [reflexivity | lra].
    - apply Qle_shift_div_r; [reflexivity | lra]. }
  split.
  - destruct (completeness_score_bands source_env "deep learning"
                {| weight := 0.15%Q; description := "Coverage"; rubric := [] |}
                {| section_id := "s"; section_title := "t";
                   content_requirements :=
                     Some {| required_elements := ["deep learning"];
                             key_concepts := []; evidence_types := [] |} |}
                {| required_elements := ["deep learning"];
                   key_concepts := []; evidence_types := [] |}
                [] (SelfEvolutionAgent_init true) Hfair eq_refl)
      as (s & w' & Hrun & _ & Hfull).
    exists s, w'. split; [exact Hrun|].
    apply Hfull; [discriminate|]. repeat constructor.
  - destruct (completeness_score_bands source_env "deep learning"
                {| weight := 0.15%Q; description := "Coverage"; rubric := [] |}
                {| section_id := "s"; section_title := "t";
                   content_requirements :=
                     Some {| required_elements := [];
                             key_concepts := []; evidence_types := [] |} |}
                {| required_elements := [];
                   key_concepts := []; evidence_types := [] |}
                [] (SelfEvolutionAgent_init true) Hfair eq_refl)
      as (s & w' & Hrun & Hnone & _).
    exists s, w'. split; [exact Hrun|]. apply Hnone. reflexivity.
Defined.

Lemma for_each_raise_second {A S} (body : A -> S -> M S) x1 x2 rest :
  (forall s w, exists e w', body x2 s w = (Raise e, w')) ->
  forall s w, exists e w', for_each (x1 :: x2 :: rest) body s w = (Raise e, w').
Proof.
  intros H s w. cbn [for_each]. unfold bind at 1.
  destruct (body x1 s w) as [[s1|e] w1]; [|eauto].
  unfold bind at 1. destruct (H s1 w1) as (e & w' & ->). eauto.
Qed.

(** A target section without [content_requirements] makes every
    evaluation fail inside, at the completeness dimension. *)
Lemma evaluate_variant_missing_requirements E variant ts ev w :
  content_requirements ts = None ->
  exists c w',
    evaluate_variant E variant ts ev w = (Ok c, w')
    /\ overall_score c = 3.0%Q
    /\ dimension_scores c =
         map (fun d => (EvaluationDimension_value d, 3.0%Q))
           all_EvaluationDimension
    /\ critique_points c = []
    /\ improvement_priorities c = ["General improvement needed"]
    /\ target_variant_id c = variant_id variant.
Proof.
  intros Hnone.
  assert (Hbody : exists e w1,
            evaluate_variant_body E variant ts ev w = (Raise e, w1)).
  { unfold evaluate_variant_body, bind at 1, datetime_now. cbv beta iota.
    unfold bind at 1. unfold evaluation_criteria.
    match goal with
    | |- context [for_each (?x1 :: ?x2 :: ?rest) ?body ?s0 ?w0] =>
        assert (Hstep : forall s w, exists e w', body x2 s w = (Raise e, w'));
        [|destruct (for_each_raise_second body x1 x2 rest Hstep s0 w0)
            as (e & w1 & Hloop)]
    end.
    - intros [ds cps] w0.
      unfold _evaluate_dimension, _calculate_dimension_score.
      rewrite Hnone. unfold bind, raise. eauto.
    - rewrite Hloop. eauto. }
  destruct Hbody as (e & w1 & Hbody).
  unfold evaluate_variant, try_except. rewrite Hbody.
  apply fallback_critique_spec.
Qed.

(** X13.  When the target section carries no content requirements (a
    plain dictionary passed where a [Section] is expected has none), the
    evaluation of every variant fails at the completeness dimension and
    the judge answers with its neutral critique: every score 3.0, no
    critique point. *)
Theorem missing_requirements_neutral_critique (E : Env)
  (variant : ContentVariant) (ts : Section) (ev : list SearchResult)
  (w : World) :
  content_requirements ts = None ->
  (forall crit w0, exists e w1,
     _calculate_dimension_score E (content variant) COMPLETENESS crit ts ev w0
     = (Raise (AttributeError e), w1))
  /\ exists c w',
       evaluate_variant E variant ts ev w = (Ok c, w')
       /\ overall_score c = 3.0%Q
       /\ dimension_scores c =
            map (fun d => (EvaluationDimension_value d, 3.0%Q))
              all_EvaluationDimension
       /\ critique_points c = [].
Proof.
  intros Hnone. split.
  - intros crit w0. unfold _calculate_dimension_score. rewrite Hnone.
    unfold bind, raise. eauto.
  - destruct (evaluate_variant_missing_requirements E variant ts ev w Hnone)
      as (c & w' & Hrun & Ho & Hd & Hp & _).
    exists c, w'. auto.
Qed.

Lemma missing_requirements_neutral_critique_witness :
  exists c w',
    evaluate_variant source_env (demo_variant "v1" demo_content)
      malformed_section demo_research (SelfEvolutionAgent_init true)
    = (Ok c, w')
    /\ overall_score c = 3.0%Q
    /\ critique_points c = [].
Proof.
  destruct (missing_requirements_neutral_critique source_env
              (demo_variant "v1" demo_content) malformed_section
              demo_research (SelfEvolutionAgent_init true) eq_refl)
    as (_ & c & w' & Hrun & Ho & _ & Hp).
  exists c, w'. auto.
Defined.

(** ** The metrics of an iteration *)




Lemma max_of_upper x xs :
  (x <= max_of x xs)%Q /\ Forall (fun y => (y <= max_of x xs)%Q) xs.
Proof.
  unfold max_of. revert x. induction xs as [|y xs IH]; intros x; simpl.
  - split; [apply Qle_refl | constructor].
  - destruct (IH (py_max x y)) as [Hm Hall].
    destruct (py_max_spec x y) as [Hx Hy].
    split; [eapply Qle_trans; eauto|].
    constructor; [eapply Qle_trans; eauto | exact Hall].
Qed.






(** ** What an iteration generates and records *)

Lemma generation_loop_typed (P : VariantType -> ContentVariant -> Prop)
  (body : VariantType -> list ref -> M (list ref)) :
  (forall t refs w,
     exists v w1,
       body t refs w = (Ok (refs ++ [List.length (heap w)])%list, w1)
       /\ heap w1 = (heap w ++ [v])%list
       /\ P t v
       /\ agent_frame w w1) ->
  forall vts refs w,
  exists vs w',
    for_each vts body refs w
    = (Ok (refs ++ seq (List.length (heap w)) (List.length vts))%list, w')
    /\ heap w' = (heap w ++ vs)%list
    /\ Forall2 P vts vs
    /\ agent_frame w w'.
Proof.
  intros Hbody. induction vts as [|t vts IH]; intros refs w; simpl.
  - exists [], w. rewrite !app_nil_r. repeat split. constructor.
  - destruct (Hbody t refs w) as (v & w1 & Hstep & Hheap & Hv & Hagent).
    unfold bind. rewrite Hstep.
    destruct (IH (refs ++ [List.length (heap w)])%list w1)
      as (vs & w' & Hrun & Hh & Hall & Hfr).
    rewrite Hrun. exists (v :: vs), w'.
    split.
    + f_equal. f_equal. rewrite <- app_assoc, Hheap, length_app.
      simpl. rewrite Nat.add_1_r. reflexivity.
    + split; [rewrite Hh, Hheap, <- app_assoc; reflexivity|].
      split; [constructor; auto|].
      etransitivity; [exact Hagent | exact Hfr].
Qed.

Lemma generation_step_typed E base rr ts
  (P : VariantType -> ContentVariant -> Prop) :
  (forall t w v w',
     generate_variant E
       {| base_content := base; research_results := rr;
          target_section := ts; variant_type := t |} w = (Ok v, w') ->
     P t v) ->
  forall t refs w,
  exists v w1,
    try_except
      (let request :=
         {| base_content := base; research_results := rr;
            target_section := ts; variant_type := t |} in
       variant <- generate_variant E request ;;
       r <- alloc variant ;;
       ret (refs ++ [r])%list)
      (fun _ => ret refs) w
    = (Ok (refs ++ [List.length (heap w)])%list, w1)
    /\ heap w1 = (heap w ++ [v])%list
    /\ P t v
    /\ agent_frame w w1.
Proof.
  intros HP t refs w.
  set (request := {| base_content := base; research_results := rr;
                     target_section := ts; variant_type := t |}).
  destruct (generate_variant_total E request w) as (v & w1 & Hgen).
  pose proof (generate_variant_clock E request w) as [Hheap Hagent].
  rewrite Hgen in Hheap, Hagent. simpl in Hheap, Hagent.
  exists v, (with_heap (heap w1 ++ [v]) w1).
  unfold try_except, bind at 1. cbv zeta. fold request. rewrite Hgen.
  unfold bind, alloc, ret. rewrite Hheap. simpl.
  split; [reflexivity|]. split; [reflexivity|].
  split; [eapply HP; exact Hgen|].
  destruct Hagent as (? & ? & ? & ? & ?). repeat split; assumption.
Qed.

Lemma generate_variants_parallel_typed E base rr ts
  (P : VariantType -> ContentVariant -> Prop) :
  (forall t w v w',
     generate_variant E
       {| base_content := base; research_results := rr;
          target_section := ts; variant_type := t |} w = (Ok v, w') ->
     P t v) ->
  forall w,
  exists vs w',
    _generate_variants_parallel E base rr ts w
    = (Ok (seq (List.length (heap w)) 6), w')
    /\ heap w' = (heap w ++ vs)%list
    /\ Forall2 P all_VariantType vs
    /\ agent_frame w w'.
Proof.
  intros HP w.
  unfold _generate_variants_parallel, try_except, bind at 1, get.
  cbv beta iota zeta.
  destruct (parallel_generation (config w) && tools_Task w).
  - unfold _generate_variants_task_parallel.
    match goal with
    | |- context [for_each _ ?body _ _] =>
        destruct (generation_loop_typed P body
                    (generation_step_typed E base rr ts P HP)
                    all_VariantType [] w)
          as (vs & w' & Hrun & Hh & Hall & Ha)
    end.
    rewrite Hrun. exists vs, w'. auto.
  - unfold _generate_variants_sequential.
    match goal with
    | |- context [for_each _ ?body _ _] =>
        destruct (generation_loop_typed P body
                    (generation_step_typed E base rr ts P HP)
                    all_VariantType [] w)
          as (vs & w' & Hrun & Hh & Hall & Ha)
    end.
    rewrite Hrun. exists vs, w'. auto.
Qed.

(** What [generate_variant] returns, on either path. *)
Lemma generate_variant_shape E request w v w' :
  generate_variant E request w = (Ok v, w') ->
  cv_variant_type v = variant_type request
  /\ base_content_id v = md5_prefix E 12 (base_content request)
  /\ tokens_generated v = Z.of_nat (PyStr.count_words (content v))
  /\ ((exists rationale,
         strategy_func E (variant_type request) request
         = Ok (content v, rationale)
         /\ generation_strategy v
            = "task_tool_" ++ VariantType_value (variant_type request)
         /\ quality_scores v = [])
      \/ ((exists e, strategy_func E (variant_type request) request = Raise e)
          /\ content v = base_content request
          /\ generation_strategy v = "fallback"
          /\ quality_scores v = [("overall", 0.5%Q)])).
Proof.
  unfold generate_variant, try_except, bind at 1, datetime_now.
  cbv beta iota. unfold bind at 1, lift.
  destruct (strategy_func E (variant_type request) request)
    as [[c r]|e] eqn:Hs.
  - unfold bind, now_isoformat, bind, datetime_now, ret. cbv beta iota.
    intros H. inversion H; subst; clear H. simpl.
    repeat split. left. exists r. auto.
  - unfold _create_fallback_variant, bind, now_isoformat, bind,
      datetime_now, ret. cbv beta iota.
    intros H. inversion H; subst; clear H. simpl.
    repeat split. right. split; [eauto|]. auto.
Qed.


Lemma Forall2_nth_error_intro {A B} (R : A -> B -> Prop) l1 l2 :
  List.length l1 = List.length l2 ->
  (forall i a b, nth_error l1 i = Some a -> nth_error l2 i = Some b -> R a b) ->
  Forall2 R l1 l2.
Proof.
  revert l2. induction l1 as [|a l1 IH]; intros [|b l2] Hlen H;
    try discriminate; constructor.
  - apply (H 0%nat); reflexivity.
  - apply IH; [simpl in Hlen; lia|].
    intros i a' b' Ha Hb. apply (H (S i)); assumption.
Qed.

Lemma Forall2_nth_error_l {A B} (R : A -> B -> Prop) l1 l2 i a :
  Forall2 R l1 l2 -> nth_error l1 i = Some a ->
  exists b, nth_error l2 i = Some b /\ R a b.
Proof.
  intros H. revert i. induction H as [|x y l1 l2 Hxy _ IH]; intros [|i] Hi;
    simpl in *; try discriminate.
  - inversion Hi; subst. eauto.
  - apply IH, Hi.
Qed.

Lemma nth_error_seq_Some a n i r :
  nth_error (seq a n) i = Some r -> r = (a + i)%nat /\ (i < n)%nat.
Proof.
  intros H.
  assert (Hi : (i < n)%nat).
  { rewrite <- (length_seq n a). apply nth_error_Some. congruence. }
  split; [|exact Hi].
  rewrite nth_error_seq in H.
  destruct (i <? n)%nat eqn:Hlt; [|apply Nat.ltb_ge in Hlt; lia].
  now inversion H.
Qed.

Lemma evaluate_variants_Forall E (Pc : ComprehensiveCritique -> Prop)
  variants ts rr w :
  (forall v w0 c w1, evaluate_variant E v ts rr w0 = (Ok c, w1) -> Pc c) ->
  returns (_evaluate_variants E variants ts rr) w (fun cs _ => Forall Pc cs).
Proof.
  intros HPc. unfold _evaluate_variants.
  apply (returns_for_each (fun cs => Forall Pc cs)); [|constructor].
  intros r cs w0 Hcs. unfold returns, try_except, bind at 1, deref.
  destruct (nth_error (heap w0) r) as [v|]; [|exact Hcs].
  unfold bind at 1.
  destruct (evaluate_variant E v ts rr w0) as [[c|e] w1] eqn:Hev; [|exact Hcs].
  unfold bind, set_quality_scores, modify, ret.
  apply Forall_app. split; [exact Hcs|].
  constructor; [eapply HPc; exact Hev | constructor].
Qed.

(** Split [H : bind c k w = (Ok r, w')] into the run of [c], which
    returned, and the run of [k], recording as [F] what [lem] says [c]
    preserves. *)
Ltac bind_ok H lem F :=
  let a := fresh "a" in
  let w1 := fresh "w" in
  let Hc := fresh "Hc" in
  let e := fresh "e" in
  let Habs := fresh "Habs" in
  apply bind_inv in H as [(a & w1 & Hc & H) | (e & _ & Habs)];
  [ match type of Hc with
    | ?c ?w = _ => pose proof (lem w) as F; rewrite Hc in F; cbn [snd] in F
    end
  | discriminate Habs ].

(** The audit record of an iteration: what its six variants and its six
    critiques satisfy, given what every generated variant and every
    critique satisfy. *)
Lemma execute_iteration_record E n base rr ts
  (Pv : VariantType -> ContentVariant -> Prop)
  (Pc : ComprehensiveCritique -> Prop) :
  (forall t w v w',
     generate_variant E
       {| base_content := base; research_results := rr;
          target_section := ts; variant_type := t |} w = (Ok v, w') ->
     Pv t v) ->
  (forall t v scores, Pv t v -> Pv t (with_quality_scores scores v)) ->
  (forall v w0 c w1, evaluate_variant E v ts rr w0 = (Ok c, w1) -> Pc c) ->
  forall w res w',
    _execute_evolution_iteration E n base rr ts w = (Ok res, w') ->
    exists it,
      evolution_history w' = (evolution_history w ++ [it])%list
      /\ generated_variants it = seq (List.length (heap w)) 6
      /\ Forall2
           (fun t r => exists v, nth_error (heap w') r = Some v /\ Pv t v)
           all_VariantType (generated_variants it)
      /\ Forall Pc (critiques it)
      /\ List.length (critiques it) = 6%nat
      /\ iteration_number it = n
      /\ iteration_best it = ir_best_score res
      /\ merged_result it = ir_best_content res
      /\ ir_variants_generated res = 6%Z
      /\ iteration_id it
         = match current_evolution w with Some id => id | None => "None" end
           ++ "_iter_" ++ str_of_Z n.
Proof.
  intros HPv Hstable HPc w res w' H.
  pose proof (execute_iteration_spec E n base rr ts w _ w' H)
    as (_ & _ & _ & _ & (it & Hhist & Hbest & Hmerged & _)).
  unfold _execute_evolution_iteration in H.
  unfold bind at 1, datetime_now at 1 in H. cbv beta iota in H.
  unfold bind at 1, get at 1 in H. cbv beta iota in H.
  set (w0 := with_ticks (S (ticks w)) w) in *.
  destruct (generate_variants_parallel_typed E base rr ts Pv HPv w0)
    as (vs & wg & Hgen & Hhg & Hvs & _).
  unfold bind at 1 in H. rewrite Hgen in H.
  assert (Hlen : List.length vs = 6%nat)
    by (apply Forall2_length in Hvs; simpl in Hvs; congruence).
  destruct (evaluate_variants_spec E (seq (List.length (heap w0)) 6) ts rr wg)
    as (cs & we & Hev & Hall & Fe & _).
  { apply seq_NoDup. }
  { rewrite Forall_forall. intros x Hx. apply in_seq in Hx.
    rewrite Hhg, length_app, Hlen. lia. }
  pose proof (evaluate_variants_Forall E Pc (seq (List.length (heap w0)) 6)
                ts rr wg HPc) as Hcs.
  unfold returns in Hcs. rewrite Hev in Hcs.
  unfold bind at 1 in H. rewrite Hev in H.
  bind_ok H (merge_variants_heap (seq (List.length (heap w0)) 6) cs) Fm.
  bind_ok H (calculate_quality_improvement_heap cs) Fq.
  bind_ok H (datetime_now_heap E []) Ft.
  bind_ok H (now_isoformat_heap E) Fn.
  unfold bind, modify, ret in H. inversion H; subst; clear H.
  assert (Fend : heap_frame [] we w4) by heap_chain.
  cbn [evolution_history with_evolution_history] in Hhist.
  apply app_inj_tail in Hhist. destruct Hhist as [Hh Hit]. subst it.
  eexists. split; [cbn [evolution_history with_evolution_history];
                   rewrite Hh; reflexivity|].
  cbn [generated_variants critiques iteration_number merged_result
       ir_best_content ir_variants_generated heap with_evolution_history].
  split; [reflexivity|]. split; [|split; [exact Hcs|]].
  - match goal with
    | |- Forall2 ?R _ _ =>
        change (Forall2 R all_VariantType (seq (List.length (heap w0)) 6))
    end.
    apply Forall2_nth_error_intro; [reflexivity|].
    intros i t r Ht Hr.
    apply nth_error_seq_Some in Hr as [-> Hi].
    destruct (Forall2_nth_error_l _ _ _ _ _ Hvs Ht) as (v & Hv & HP).
    assert (Hr : nth_error (seq (List.length (heap w0)) 6) i
                 = Some (List.length (heap w0) + i)%nat)
      by (rewrite nth_error_seq;
          destruct (i <? 6)%nat eqn:Hlt;
          [reflexivity | apply Nat.ltb_ge in Hlt; lia]).
    destruct (Forall2_nth_error_l _ _ _ _ _ Hall Hr)
      as (c & _ & v0 & Hg & He & _).
    rewrite Hhg, nth_error_app2, Nat.add_comm, Nat.add_sub in Hg by lia.
    rewrite Hv in Hg. inversion Hg; subst v0.
    exists (with_quality_scores (dimension_scores c) v).
    split; [|apply Hstable, HP].
    eapply heap_frame_untouched; [exact Fend | exact He].
  - split; [apply Forall2_length in Hall; rewrite length_seq in Hall;
            congruence|].
    split; [reflexivity|]. split; [exact Hbest|]. repeat split.
Qed.

(** ** Invariants of the audit records over a whole run *)

Section RunFrames.

Variable E : Env.
Variable P : World -> EvolutionIteration -> Prop.
Variable ok : list SearchResult -> Section -> Prop.

Hypothesis P_kept :
  forall w w' it, heap_frame [] w w' -> P w it -> P w' it.

Hypothesis P_iter :
  forall n base rr ts w res w',
    ok rr ts ->
    _execute_evolution_iteration E n base rr ts w = (Ok res, w') ->
    exists it,
      evolution_history w' = (evolution_history w ++ [it])%list /\ P w' it.

#[local] Instance run_frame_preorder : PreOrder (run_frame P).
Proof.
  split.
  - intros w. split; [reflexivity|]. exists []. rewrite app_nil_r.
    split; [reflexivity | constructor].
  - intros w1 w2 w3 [H12 (its1 & Hh1 & Hc1)] [H23 (its2 & Hh2 & Hc2)].
    split; [etransitivity; eassumption|].
    exists (its1 ++ its2)%list. split.
    + rewrite Hh2, Hh1, app_assoc. reflexivity.
    + apply Forall_app. split; [|exact Hc2].
      eapply Forall_impl; [|exact Hc1].
      intros it. apply P_kept. exact H23.
Qed.

Lemma run_frame_same w w' :
  heap w' = heap w -> evolution_history w' = evolution_history w ->
  run_frame P w w'.
Proof.
  intros Hh He. split; [now apply heap_frame_same_heap|].
  exists []. rewrite app_nil_r. split; [exact He | constructor].
Qed.

Hint Extern 1 (run_frame _ _ _) => apply run_frame_same; reflexivity : frame.

Lemma datetime_now_run : preserves (run_frame P) (datetime_now E).
Proof. intros w. now apply run_frame_same. Qed.

Lemma random_uniform_run a b : preserves (run_frame P) (random_uniform E a b).
Proof. intros w. now apply run_frame_same. Qed.

Lemma deref_run r : preserves (run_frame P) (deref r).
Proof.
  intros w. unfold deref. destruct (nth_error (heap w) r); reflexivity.
Qed.

Hint Resolve datetime_now_run random_uniform_run deref_run : frame.

Lemma now_isoformat_run : preserves (run_frame P) (now_isoformat E).
Proof. apply now_isoformat_frame; auto with frame typeclass_instances. Qed.

Lemma update_progress_run f : preserves (run_frame P) (update_progress f).
Proof. unfold update_progress. frame. Qed.

Lemma check_convergence_run score iteration :
  preserves (run_frame P) (_check_convergence E score iteration).
Proof.
  apply check_convergence_frame; auto with frame typeclass_instances.
Qed.

Lemma compile_evolution_results_run best_content best_score :
  preserves (run_frame P)
    (_compile_evolution_results E best_content best_score).
Proof.
  apply compile_evolution_results_frame; auto with frame typeclass_instances.
Qed.

Lemma execute_iteration_run n base rr ts :
  ok rr ts ->
  preserves (run_frame P) (_execute_evolution_iteration E n base rr ts).
Proof.
  intros Hok w.
  destruct (_execute_evolution_iteration E n base rr ts w) as [r w'] eqn:H.
  destruct (execute_iteration_audit _ _ _ _ _ _ _ _ H) as [Hheap _].
  destruct (execute_iteration_spec _ _ _ _ _ _ _ _ H)
    as (_ & _ & _ & _ & Hspec).
  simpl. split; [exact Hheap|].
  destruct r as [res|e].
  - destruct (P_iter _ _ _ _ _ _ _ Hok H) as (it & Hh & Hit).
    exists [it]. split; [exact Hh | constructor; [exact Hit | constructor]].
  - exists []. rewrite app_nil_r. split; [exact Hspec | constructor].
Qed.

Hint Resolve now_isoformat_run update_progress_run check_convergence_run
  compile_evolution_results_run execute_iteration_run : frame.

Lemma evolution_loop_run rr ts remaining :
  ok rr ts ->
  forall iteration bc bs,
    preserves (run_frame P) (evolution_loop E rr ts remaining iteration bc bs).
Proof.
  intros Hok.
  induction remaining as [|remaining IH]; intros iteration bc bs; simpl.
  - frame.
  - frame.
Qed.

Hint Resolve evolution_loop_run : frame.

Lemma evolve_content_run input :
  (forall ts,
     in_target_section input = Some ts ->
     ok (match in_research_results input with Some r => r | None => [] end)
       ts) ->
  preserves (run_frame P) (evolve_content E input).
Proof.
  intros Hok. unfold evolve_content.
  apply preserves_bind; [auto with frame|]. intros t.
  apply preserves_try_except; [|intros; frame].
  unfold evolve_content_body.
  apply preserves_bind; [frame|]. intros _.
  destruct (in_target_section input) as [ts|] eqn:Hts.
  - specialize (Hok ts eq_refl).
    destruct (in_content input) as [[|c0 c]|]; cbv beta iota zeta;
      [frame | | frame].
    apply preserves_bind; [frame|]. intros _.
    apply preserves_bind; [frame|]. intros cfg.
    apply preserves_bind; [frame|]. intros t0.
    apply preserves_bind; [frame|]. intros _.
    apply preserves_bind; [apply evolution_loop_run; exact Hok|].
    intros [bc bs]. frame.
  - destruct (in_content input) as [[|c0 c]|]; cbv beta iota zeta; frame.
Qed.

End RunFrames.

(** ** What a successful run returns *)

Lemma deref_pure r : preserves eq (deref r).
Proof.
  intros w. unfold deref. destruct (nth_error (heap w) r); reflexivity.
Qed.

Lemma get_progress_pure : preserves eq get_progress.
Proof. apply get_progress_frame. Qed.

Lemma get_config_pure : preserves eq get_config.
Proof. apply get_config_frame. Qed.

Lemma detect_plateau_pure : preserves eq _detect_plateau.
Proof. apply detect_plateau_frame; typeclasses eauto. Qed.

Lemma check_convergence_pure E score iteration :
  preserves eq (_check_convergence E score iteration).
Proof. apply check_convergence_frame; typeclasses eauto. Qed.

Lemma compile_evolution_results_pure E best_content best_score :
  preserves eq (_compile_evolution_results E best_content best_score).
Proof.
  apply compile_evolution_results_frame;
    [typeclasses eauto | apply deref_pure].
Qed.

(** The variant types counted by [_compile_evolution_results]. *)
Lemma compile_evolution_results_spec E bc bs w fa w' :
  _compile_evolution_results E bc bs w = (Ok fa, w') ->
  w' = w
  /\ exists p counts,
       evolution_progress w = Some p
       /\ for_each (flat_map generated_variants (evolution_history w))
            (fun variant counts =>
               v <- deref variant ;;
               let variant_type := VariantType_value (cv_variant_type v) in
               ret (dict_set variant_type
                      (match dict_get variant_type counts with
                       | Some n => n
                       | None => 0
                       end + 1)%Z
                      counts))
            [] w = (Ok counts, w)
       /\ evolution_summary fa
          = {| es_total_iterations :=
                 Z.of_nat (List.length (evolution_history w));
               es_final_score := bs;
               es_total_improvement := (bs - hd 0 (score_history p))%Q;
               es_convergence_achieved :=
                 Qle_bool (convergence_threshold (config w)) bs |}
       /\ variant_analysis fa
          = {| total_variants_generated :=
                 fold_left Z.add
                   (map (fun it =>
                           Z.of_nat (List.length (generated_variants it)))
                      (evolution_history w))
                   0%Z;
               variant_type_distribution := counts;
               most_effective_type :=
                 match counts with
                 | [] => None
                 | kv :: kvs =>
                     Some (fst (max_by (fun kv => inject_Z (snd kv)) kv kvs))
                 end |}
       /\ quality_trajectory fa
          = {| qt_score_history := score_history p;
               improvement_per_iteration := diffs (score_history p);
               peak_score :=
                 match score_history p with
                 | [] => 0%Q
                 | x :: xs => max_of x xs
                 end;
               qt_final_score := last (score_history p) 0%Q |}.
Proof.
  intros H.
  pose proof (compile_evolution_results_pure E bc bs w) as Hpure.
  rewrite H in Hpure. simpl in Hpure. subst w'. split; [reflexivity|].
  unfold _compile_evolution_results in H.
  unfold bind at 1, get_progress, bind at 1, get in H. cbv beta iota in H.
  destruct (evolution_progress w) as [p|] eqn:Hp; [|discriminate].
  unfold ret at 1 in H. unfold bind at 1, get in H. cbv beta iota in H.
  unfold bind at 1 in H.
  match type of H with
  | context [for_each ?l ?body ?s w] =>
      destruct (for_each l body s w) as [[counts|e] w1] eqn:Hloop;
      [|discriminate];
      assert (Hw1 : w = snd (for_each l body s w))
        by (apply (preserves_for_each (R := eq)); intros x s0 _;
            apply preserves_bind; [apply deref_pure|];
            intros v; cbv zeta; apply preserves_ret)
  end.
  rewrite Hloop in Hw1. simpl in Hw1. subst w1.
  unfold bind at 1, get_config, bind at 1, get, ret at 1 in H.
  cbv beta iota in H.
  unfold bind at 1, _generate_evolution_recommendations, bind at 1,
    get_config, bind at 1, get, ret in H.
  cbv beta iota in H. inversion H; subst; clear H.
  exists p, counts. repeat split; try exact Hloop.
Qed.

(** Everything a success result reports, against the final state. *)
Lemma evolve_content_success E input w sr w' :
  evolve_content E input w = (Ok (Success sr), w') ->
  exists c ts p its,
    in_content input = Some c /\ c <> ""
    /\ in_target_section input = Some ts
    /\ evolution_progress w' = Some p
    /\ evolution_history w' = (evolution_history w ++ its)%list
    /\ score_history p = running_best 0.0%Q (map iteration_best its)
    /\ (List.length its <= Z.to_nat (max_iterations (config w')))%nat
    /\ final_score sr = last (score_history p) 0.0%Q
    /\ iterations_completed sr = Z.of_nat (List.length its)
    /\ sr_evolution_history sr = evolution_history w'
    /\ improvement_achieved sr = (final_score sr - hd 0 (score_history p))%Q
    /\ _compile_evolution_results E (final_content sr) (final_score sr) w'
       = (Ok (final_analysis sr), w').
Proof.
  rewrite evolve_content_unfold. cbv zeta. intros H.
  destruct (evolve_content_body E _ input (with_ticks (S (ticks w)) w))
    as [r w1] eqn:Hbody.
  destruct r as [o|e]; [|discriminate]. inversion H; subst; clear H.
  destruct (in_content input) as [[|a c]|] eqn:Hc;
    try (rewrite evolve_content_body_invalid in Hbody by auto; discriminate).
  destruct (in_target_section input) as [ts|] eqn:Hts;
    try (rewrite evolve_content_body_invalid in Hbody by auto; discriminate).
  destruct (evolve_content_body_valid _ _ _ _ _ _ _ _ Hc
              ltac:(discriminate) Hts Hbody)
    as (_ & p & its & Hp & Hh & Hs & Hn & Hl & _ & Hf & Hic & Hsh & _).
  exists (String a c), ts, p, its.
  split; [reflexivity|]. split; [discriminate|]. split; [reflexivity|].
  split; [exact Hp|]. split; [exact Hh|]. split; [exact Hs|].
  split; [exact Hl|]. split; [exact Hf|].
  split; [rewrite Hic; exact Hn|]. split; [exact Hsh|].
  unfold evolve_content_body in Hbody. rewrite Hc, Hts in Hbody.
  apply bind_inv in Hbody as [(u & w2 & _ & H) | (e & _ & Habs)];
    [|discriminate].
  apply bind_inv in H as [(u1 & w3 & _ & H) | (e & _ & Habs)];
    [|discriminate].
  apply bind_inv in H as [(cfg & w4 & _ & H) | (e & _ & Habs)];
    [|discriminate].
  apply bind_inv in H as [(t & w5 & _ & H) | (e & _ & Habs)];
    [|discriminate].
  apply bind_inv in H as [(u2 & w6 & _ & H) | (e & _ & Habs)];
    [|discriminate].
  apply bind_inv in H as [([bc bs] & w7 & _ & H) | (e & _ & Habs)];
    [|discriminate].
  apply bind_inv in H as [(fa & w8 & Hcomp & H) | (e & _ & Habs)];
    [|discriminate].
  pose proof (compile_evolution_results_pure E bc bs w7) as Hpure.
  rewrite Hcomp in Hpure. simpl in Hpure. subst w8.
  unfold bind at 1, get_progress, bind at 1, get in H. cbv beta iota in H.
  destruct (evolution_progress w7) as [p'|] eqn:Hp'; [|discriminate].
  unfold ret at 1, bind at 1, get, ret in H.
  inversion H; subst; clear H. simpl.
  rewrite Hp' in Hp. inversion Hp; subst. split; [reflexivity | exact Hcomp].
Qed.

Lemma evaluate_variant_in_range E v ts rr w c w' :
  evaluate_variant E v ts rr w = (Ok c, w') -> in_range (overall_score c).
Proof.
  pose proof (evaluate_variant_body_range E v ts rr w) as Hbody.
  unfold evaluate_variant, try_except, returns in *.
  destruct (evaluate_variant_body E v ts rr w) as [[c0|e] w1].
  - intros H. inversion H; subst. apply Hbody.
  - intros H.
    destruct (fallback_critique_spec E v w1) as (c1 & w2 & Hrun & Ho & _).
    rewrite Hrun in H. inversion H; subst. rewrite Ho.
    split; discriminate.
Qed.

Lemma max_of_in_range s rest :
  in_range s -> Forall in_range rest -> in_range (max_of s rest).
Proof.
  unfold max_of. revert s. induction rest as [|x rest IH]; intros s Hs Hr;
    simpl; [exact Hs|].
  inversion Hr; subst. apply IH; [|assumption].
  unfold py_max. destruct (Qltb s x); assumption.
Qed.

Lemma running_best_in_range b xs :
  (b < 1 \/ in_range b)%Q ->
  Forall in_range xs -> Forall in_range (running_best b xs).
Proof.
  intros Hb Hxs. revert b Hb.
  induction Hxs as [|x xs Hx _ IH]; intros b Hb; simpl; [constructor|].
  assert (Hbest : in_range (if Qltb b x then x else b)).
  { destruct (Qltb b x) eqn:Hlt; [exact Hx|].
    apply Qltb_ge in Hlt. destruct Hb as [Hb|Hb]; [|exact Hb].
    destruct Hx as [Hx _]. exfalso. lra. }
  constructor; [exact Hbest|]. apply IH. now right.
Qed.

Lemma last_Forall {A} (P : A -> Prop) xs d :
  Forall P xs -> xs <> [] -> P (last xs d).
Proof.
  induction 1 as [|x xs Hx Hxs IH]; intros Hne; [congruence|].
  destruct xs as [|y xs]; [exact Hx|]. apply IH. discriminate.
Qed.

Lemma running_best_length b xs :
  List.length (running_best b xs) = List.length xs.
Proof.
  revert b. induction xs as [|x xs IH]; intros b; simpl; [reflexivity|].
  now rewrite IH.
Qed.

Lemma StronglySorted_hd_last xs (d : Q) :
  StronglySorted Qle xs -> (hd d xs <= last xs d)%Q.
Proof.
  intros H. destruct xs as [|x xs]; [apply Qle_refl|].
  inversion H as [|? ? _ Hall]; subst. simpl hd.
  destruct xs as [|y xs]; [apply Qle_refl|].
  rewrite Forall_forall in Hall.
  apply Hall. change (last (x :: y :: xs) d) with (last (y :: xs) d).
  apply (last_Forall (fun z => In z (y :: xs))); [|discriminate].
  apply Forall_forall. auto.
Qed.

(** Every iteration of a run scores its six critiques on the scale. *)
Lemma iteration_scores_in_range E n base rr ts w res w' :
  _execute_evolution_iteration E n base rr ts w = (Ok res, w') ->
  exists it,
    evolution_history w' = (evolution_history w ++ [it])%list
    /\ in_range (iteration_best it).
Proof.
  intros H.
  destruct (execute_iteration_record E n base rr ts (fun _ _ => True)
              (fun c => in_range (overall_score c))
              (fun _ _ _ _ _ => I) (fun _ _ _ _ => I)
              (fun v w0 c w1 => evaluate_variant_in_range E v ts rr w0 c w1)
              w res w' H)
    as (it & Hh & _ & _ & Hcs & Hlen & _).
  exists it. split; [exact Hh|].
  unfold iteration_best.
  destruct (critiques it) as [|c cs]; [discriminate|].
  inversion Hcs; subst. simpl.
  apply max_of_in_range; [assumption|]. now apply Forall_map.
Qed.

(** X16.  The scores a successful run reports: without any iteration the
    final score is 0.0; otherwise it lies on the judge's scale, between
    1.0 and 5.0.  The improvement achieved, the final score less the first
    entry of the score history, is never negative and never more than
    4.0. *)
Theorem final_score_bounds (E : Env) (input : InputData) (w w' : World)
  (sr : SuccessResult) :
  evolve_content E input w = (Ok (Success sr), w') ->
  ((iterations_completed sr = 0%Z /\ final_score sr = 0.0%Q)
   \/ ((1 <= iterations_completed sr)%Z
       /\ (1.0 <= final_score sr <= 5.0)%Q))
  /\ (0 <= improvement_achieved sr <= 4.0)%Q.
Proof.
  intros H.
  destruct (evolve_content_success E input w sr w' H)
    as (c & ts & p & its & _ & _ & _ & Hp & Hh & Hs & _ & Hf & Hic & _
        & Himp & _).
  pose proof (evolve_content_run E
                (fun _ it => in_range (iteration_best it))
                (fun _ _ => True)
                (fun _ _ _ _ H0 => H0)
                (fun n base rr ts0 w0 res w1 _ H0 =>
                   iteration_scores_in_range E n base rr ts0 w0 res w1 H0)
                input (fun _ _ => I) w) as [_ (its' & Hh' & Hall)].
  rewrite H in Hh'. simpl in Hh', Hall.
  rewrite Hh in Hh'. apply app_inv_head in Hh'. subst its'.
  assert (Hrange : Forall in_range (score_history p)).
  { rewrite Hs. apply running_best_in_range; [left; reflexivity|].
    now apply Forall_map. }
  assert (Hsorted : StronglySorted Qle (0.0%Q :: score_history p))
    by (rewrite Hs; apply running_best_strongly_sorted).
  rewrite Himp, Hf, Hic.
  destruct its as [|it its].
  - simpl in Hs. rewrite Hs. simpl.
    split; [left; split; reflexivity | split; discriminate].
  - assert (Hne : score_history p <> [])
      by (rewrite Hs; simpl; discriminate).
    pose proof (last_Forall in_range _ 0.0%Q Hrange Hne) as [Hlo Hhi].
    assert (Hhd : in_range (hd 0%Q (score_history p))).
    { destruct (score_history p) as [|x xs]; [congruence|].
      inversion Hrange; assumption. }
    destruct Hhd as [Hhlo Hhhi].
    inversion Hsorted as [|? ? Hss _]; subst.
    pose proof (StronglySorted_hd_last (score_history p) 0.0%Q Hss) as Hmono.
    assert (Hhd_eq : hd 0.0%Q (score_history p) = hd 0%Q (score_history p))
      by (destruct (score_history p); [congruence | reflexivity]).
    rewrite Hhd_eq in Hmono.
    split.
    + right. split; [simpl List.length; lia | split; assumption].
    + split; lra.
Qed.

(** ** The loop of [evolve_content], one iteration at a time *)

Lemma evolution_loop_unfold E rr ts remaining iteration bc bs w p :
  evolution_progress w = Some p ->
  evolution_loop E rr ts (S remaining) iteration bc bs w
  = match _execute_evolution_iteration E (iteration + 1) bc rr ts w with
    | (Raise e, w1) => (Raise e, w1)
    | (Ok res, w1) =>
        let bs1 :=
          if Qltb bs (ir_best_score res) then ir_best_score res else bs in
        let bc1 :=
          if Qltb bs (ir_best_score res) then ir_best_content res else bc in
        let w2 := with_evolution_progress (Some (progress_after p bs1)) w1 in
        match fst (_check_convergence E bs1 (iteration + 1) w2) with
        | Raise e => (Raise e, w2)
        | Ok (true, _) =>
            evolution_loop E rr ts remaining (iteration + 1) bc1 bs1 w2
        | Ok (false, _) => (Ok (bc1, bs1), w2)
        end
    end.
Proof.
  intros Hp. cbn [evolution_loop]. unfold bind at 1.
  destruct (_execute_evolution_iteration E (iteration + 1) bc rr ts w)
    as [[res|e] w1] eqn:Hit; [|reflexivity].
  apply execute_iteration_spec in Hit.
  destruct Hit as (_ & _ & _ & Hprog & _). rewrite Hp in Hprog.
  cbv zeta.
  set (bs1 := if Qltb bs (ir_best_score res) then ir_best_score res else bs).
  set (bc1 := if Qltb bs (ir_best_score res)
              then ir_best_content res else bc).
  assert (Hsel : (if Qltb bs (ir_best_score res)
                  then (ir_best_content res, ir_best_score res)
                  else (bc, bs)) = (bc1, bs1))
    by (unfold bc1, bs1; destruct (Qltb bs (ir_best_score res));
        reflexivity).
  rewrite Hsel.
  unfold bind at 1. rewrite (update_progress_some _ _ _ Hprog).
  unfold bind at 1. rewrite update_progress_with.
  unfold bind at 1. rewrite update_progress_with.
  cbv beta iota.
  change (with_evolution_progress _ w1)
    with (with_evolution_progress (Some (progress_after p bs1)) w1).
  set (w2 := with_evolution_progress (Some (progress_after p bs1)) w1).
  pose proof (check_convergence_pure E bs1 (iteration + 1) w2) as Hpure.
  unfold bind at 1.
  destruct (_check_convergence E bs1 (iteration + 1) w2)
    as [[[cont reason]|e] w3]; simpl in Hpure; subst w3; cbn [fst];
    [destruct cont|]; reflexivity.
Qed.

(** The three stop tests of [_check_convergence], in the order in which
    they are tried. *)
Lemma check_convergence_value E score iteration w :
  fst (_check_convergence E score iteration w)
  = if (max_iterations (config w) <=? iteration)%Z then
      Ok (false,
          "Reached maximum iterations ("
          ++ str_of_Z (max_iterations (config w)) ++ ")")
    else if Qle_bool (convergence_threshold (config w)) score then
      Ok (false,
          "Achieved convergence threshold ("
          ++ format_float E 2 score ++ " >= "
          ++ str_of_float E (convergence_threshold (config w)) ++ ")")
    else match fst (_detect_plateau w) with
         | Ok true =>
             Ok (false,
                 "Quality plateau detected - no significant improvement")
         | Ok false => Ok (true, "Continue evolution")
         | Raise e => Raise e
         end.
Proof.
  unfold _check_convergence, bind at 1, get_config, bind at 1, get, ret at 1.
  cbv beta iota.
  destruct (max_iterations (config w) <=? iteration)%Z; [reflexivity|].
  destruct (Qle_bool (convergence_threshold (config w)) score);
    [reflexivity|].
  unfold bind.
  destruct (_detect_plateau w) as [[[|]|e] w1]; reflexivity.
Qed.

(** The body of [evolve_content] on a valid input: the state in which the
    loop starts, and what is made of its result. *)
Lemma evolve_content_body_unfold E id input w c ts :
  in_content input = Some c -> c <> "" ->
  in_target_section input = Some ts ->
  evolve_content_body E id input w
  = let w1 := with_current_evolution (Some id) w in
    let w2 :=
      match in_config input with
      | Some custom => with_config (config_update custom (config w1)) w1
      | None => w1
      end in
    let w3 :=
      with_evolution_progress
        (Some {| evolution_id := id;
                 total_iterations := max_iterations (config w2);
                 completed_iterations := 0;
                 current_best_score := 0.0%Q;
                 score_history := [];
                 ep_convergence_threshold := convergence_threshold (config w2);
                 estimated_completion := "";
                 last_updated := isoformat E (clock E (ticks w2)) |})
        (with_ticks (S (ticks w2)) w2) in
    match
      evolution_loop E
        (match in_research_results input with Some r => r | None => [] end)
        ts (Z.to_nat (max_iterations (config w2))) 0 c 0.0%Q w3
    with
    | (Raise e, w4) => (Raise e, w4)
    | (Ok (bc, bs), w4) =>
        match _compile_evolution_results E bc bs w4 with
        | (Raise e, w5) => (Raise e, w5)
        | (Ok fa, w5) =>
            match evolution_progress w5 with
            | Some p =>
                (Ok (Success
                       {| sr_evolution_id := id;
                          final_content := bc;
                          final_score := bs;
                          iterations_completed := completed_iterations p;
                          improvement_achieved :=
                            (bs - hd 0 (score_history p))%Q;
                          sr_evolution_history := evolution_history w5;
                          final_analysis := fa |}), w5)
            | None =>
                (Raise (AttributeError "'NoneType' object has no attribute"),
                 w5)
            end
        end
    end.
Proof.
  intros Hc Hne Hts. unfold evolve_content_body. rewrite Hc, Hts.
  destruct c as [|a c]; [congruence|].
  unfold bind at 1, modify at 1. cbv zeta.
  set (w1 := with_current_evolution (Some id) w).
  unfold bind at 1.
  assert (Hstep :
            (match in_config input with
             | Some custom_config =>
                 modify (fun w0 => with_config
                                     (config_update custom_config (config w0))
                                     w0)
             | None => ret tt
             end) w1
            = (Ok tt,
               match in_config input with
               | Some custom => with_config (config_update custom (config w1)) w1
               | None => w1
               end))
    by (destruct (in_config input); reflexivity).
  rewrite Hstep.
  set (w2 := match in_config input with
             | Some custom => with_config (config_update custom (config w1)) w1
             | None => w1
             end).
  unfold bind at 1, get_config, bind at 1, get, ret at 1. cbv beta iota.
  unfold bind at 1, now_isoformat, bind at 1, datetime_now, ret at 1.
  cbv beta iota.
  unfold bind at 1, modify at 1. cbv beta iota.
  unfold bind at 1.
  match goal with
  | |- context [evolution_loop E ?rr ts ?n 0 ?c0 ?s0 ?w3] =>
      destruct (evolution_loop E rr ts n 0 c0 s0 w3) as [[[bc bs]|e] w4]
  end; [|reflexivity].
  unfold bind at 1.
  destruct (_compile_evolution_results E bc bs w4) as [[fa|e] w5];
    [|reflexivity].
  unfold bind at 1, get_progress, bind at 1, get. cbv beta iota.
  destruct (evolution_progress w5) as [p|]; reflexivity.
Qed.

(** The loop behind a successful run. *)
Lemma evolve_content_loop E input w sr w' :
  evolve_content E input w = (Ok (Success sr), w') ->
  exists c ts w0 p0,
    in_content input = Some c
    /\ in_target_section input = Some ts
    /\ evolution_progress w0 = Some p0
    /\ score_history p0 = []
    /\ completed_iterations p0 = 0%Z
    /\ config w0 = config w'
    /\ current_evolution w0 = Some (sr_evolution_id sr)
    /\ evolution_history w0 = evolution_history w
    /\ heap w0 = heap w
    /\ evolution_loop E
         (match in_research_results input with Some r => r | None => [] end)
         ts (Z.to_nat (max_iterations (config w'))) 0 c 0.0%Q w0
       = (Ok (final_content sr, final_score sr), w').
Proof.
  rewrite evolve_content_unfold. cbv zeta. intros H.
  destruct (evolve_content_body E _ input (with_ticks (S (ticks w)) w))
    as [r w1] eqn:Hbody.
  destruct r as [o|e]; [|discriminate]. inversion H; subst; clear H.
  destruct (in_content input) as [[|a c]|] eqn:Hc;
    try (rewrite evolve_content_body_invalid in Hbody by auto; discriminate).
  destruct (in_target_section input) as [ts|] eqn:Hts;
    try (rewrite evolve_content_body_invalid in Hbody by auto; discriminate).
  rewrite (evolve_content_body_unfold _ _ _ _ _ _ Hc ltac:(discriminate) Hts)
    in Hbody.
  cbv zeta in Hbody.
  match type of Hbody with
  | context [evolution_loop E ?rr ts ?n 0 ?c0 ?s0 ?w3] =>
      destruct (evolution_loop E rr ts n 0 c0 s0 w3) as [[[bc bs]|e] w4]
        eqn:Hloop;
      [|discriminate];
      set (w0 := w3) in *
  end.
  destruct (_compile_evolution_results E bc bs w4) as [[fa|e] w5] eqn:Hcomp;
    [|discriminate].
  pose proof (compile_evolution_results_pure E bc bs w4) as Hpure.
  rewrite Hcomp in Hpure. simpl in Hpure. subst w5.
  destruct (evolution_progress w4) as [p|] eqn:Hp; [|discriminate].
  inversion Hbody; subst; clear Hbody. cbn [final_content final_score].
  destruct (evolution_loop_spec E _ _ _ _ _ _ w0 _ _ w' eq_refl Hloop)
    as (p' & its & _ & _ & Hcfg & _).
  eexists (String a c), ts, w0, _.
  split; [reflexivity|]. split; [reflexivity|].
  split; [reflexivity|]. split; [reflexivity|]. split; [reflexivity|].
  split; [symmetry; exact Hcfg|].
  split; [unfold w0; destruct (in_config input); reflexivity|].
  split; [unfold w0; destruct (in_config input); reflexivity|].
  split; [unfold w0; destruct (in_config input); reflexivity|].
  rewrite Hcfg. exact Hloop.
Qed.

Lemma removelast_cons {A} (x y : A) l :
  removelast (x :: y :: l) = x :: removelast (y :: l).
Proof. reflexivity. Qed.

(** Why the loop stops: it ran for all the iterations left, or the best
    score reached the threshold, or the plateau detector fired; and it
    never goes on past an iteration that reached the threshold. *)
Lemma evolution_loop_stop E rr ts :
  forall remaining iteration bc bs w p res w',
    evolution_progress w = Some p ->
    (iteration + Z.of_nat remaining)%Z = max_iterations (config w) ->
    evolution_loop E rr ts remaining iteration bc bs w = (Ok res, w') ->
    exists p' new,
      evolution_progress w' = Some p'
      /\ config w' = config w
      /\ score_history p' = (score_history p ++ new)%list
      /\ Forall (fun s => (s < convergence_threshold (config w))%Q)
           (removelast new)
      /\ (List.length new = remaining
          \/ (convergence_threshold (config w) <= snd res)%Q
          \/ fst (_detect_plateau w') = Ok true).
Proof.
  induction remaining as [|remaining IH];
    intros iteration bc bs w p res w' Hp Hmax H.
  - simpl in H. inversion H; subst. exists p, [].
    rewrite app_nil_r.
    split; [exact Hp|]. split; [reflexivity|]. split; [reflexivity|].
    split; [constructor | left; reflexivity].
  - rewrite (evolution_loop_unfold _ _ _ _ _ _ _ _ _ Hp) in H.
    destruct (_execute_evolution_iteration E (iteration + 1) bc rr ts w)
      as [[res1|e] w1] eqn:Hit; [|discriminate].
    apply execute_iteration_spec in Hit.
    destruct Hit as (_ & Hcfg1 & _ & _ & _).
    cbv zeta in H.
    set (bs1 := if Qltb bs (ir_best_score res1)
                then ir_best_score res1 else bs) in *.
    set (bc1 := if Qltb bs (ir_best_score res1)
                then ir_best_content res1 else bc) in *.
    set (w2 := with_evolution_progress (Some (progress_after p bs1)) w1) in *.
    assert (Hcfg2 : config w2 = config w) by exact Hcfg1.
    rewrite check_convergence_value, Hcfg2 in H.
    destruct (max_iterations (config w) <=? iteration + 1)%Z eqn:Hlim.
    { inversion H; subst. exists (progress_after p bs1), [bs1].
      split; [reflexivity|]. split; [exact Hcfg2|]. split; [reflexivity|].
      split; [constructor|]. left. apply Z.leb_le in Hlim. simpl. lia. }
    destruct (Qle_bool (convergence_threshold (config w)) bs1) eqn:Hthr.
    { inversion H; subst. exists (progress_after p bs1), [bs1].
      split; [reflexivity|]. split; [exact Hcfg2|]. split; [reflexivity|].
      split; [constructor|]. right. left. apply Qle_bool_iff. exact Hthr. }
    destruct (fst (_detect_plateau w2)) as [[|]|e] eqn:Hplateau;
      [| |discriminate].
    { inversion H; subst. exists (progress_after p bs1), [bs1].
      split; [reflexivity|]. split; [exact Hcfg2|]. split; [reflexivity|].
      split; [constructor|]. right. right. exact Hplateau. }
    eapply IH in H; [|reflexivity|rewrite Hcfg2; lia].
    destruct H as (p' & new & Hp' & Hcfg' & Hs & Hlow & Hstop).
    exists p', (bs1 :: new).
    split; [exact Hp'|]. split; [congruence|].
    split; [rewrite Hs; simpl; rewrite <- app_assoc; reflexivity|].
    rewrite Hcfg2 in Hlow, Hstop.
    split.
    + destruct new as [|s new]; [constructor|].
      rewrite removelast_cons. constructor; [|exact Hlow].
      apply Qnot_le_lt. intros Hle. apply Qle_bool_iff in Hle. congruence.
    + destruct Hstop as [Hlen|Hstop]; [left; simpl; congruence | right; exact Hstop].
Qed.

(** X17.  A successful run stops before its iteration limit only for one
    of the two other reasons: its final score has reached the convergence
    threshold, or the plateau detector fires on the final state.  And the
    loop never goes on past convergence: every entry of the score history
    but the last is below the threshold. *)
Theorem early_stop_reason (E : Env) (input : InputData) (w w' : World)
  (sr : SuccessResult) :
  evolve_content E input w = (Ok (Success sr), w') ->
  exists p,
    evolution_progress w' = Some p
    /\ Forall (fun s => (s < convergence_threshold (config w'))%Q)
         (removelast (score_history p))
    /\ ((iterations_completed sr < max_iterations (config w'))%Z ->
        (convergence_threshold (config w') <= final_score sr)%Q
        \/ fst (_detect_plateau w') = Ok true).
Proof.
  intros H.
  destruct (evolve_content_success E input w sr w' H)
    as (_ & _ & p & its & _ & _ & _ & Hp & _ & Hs & _ & _ & Hic & _).
  destruct (evolve_content_loop E input w sr w' H)
    as (c & ts & w0 & p0 & _ & _ & Hp0 & Hs0 & _ & Hcfg & _ & _ & _ & Hloop).
  exists p. split; [exact Hp|].
  destruct (Z_le_gt_dec 0 (max_iterations (config w'))) as [Hpos|Hneg].
  - assert (Hmax : (0 + Z.of_nat (Z.to_nat (max_iterations (config w'))))%Z
                    = max_iterations (config w0))
      by (rewrite Hcfg, Z2Nat.id by exact Hpos; reflexivity).
    destruct (evolution_loop_stop E _ _ _ _ _ _ _ _ _ _ Hp0 Hmax Hloop)
      as (p' & new & Hp' & _ & Hs' & Hlow & Hstop).
    rewrite Hp in Hp'. inversion Hp'; subst p'.
    rewrite Hs0 in Hs'. simpl in Hs'. rewrite Hcfg in Hlow, Hstop.
    split; [rewrite Hs'; exact Hlow|].
    intros Hlt. destruct Hstop as [Hlen|Hstop]; [|exact Hstop].
    exfalso. rewrite Hic in Hlt.
    assert (Hl : List.length its = List.length new)
      by (rewrite <- Hs', Hs, running_best_length, length_map; reflexivity).
    rewrite Hl, Hlen, Z2Nat.id in Hlt by exact Hpos. lia.
  - assert (Hn : Z.to_nat (max_iterations (config w')) = 0%nat) by lia.
    rewrite Hn in Hloop. simpl in Hloop. inversion Hloop; subst.
    rewrite Hp0 in Hp. inversion Hp; subst p. rewrite Hs0.
    split; [constructor|]. intros Hlt. rewrite Hic in Hlt. lia.
Qed.

(** A run that stops early: the oracle fails, every critique is the
    neutral one, and the threshold is reached at once. *)
Lemma eager_run_succeeds :
  exists sr w',
    evolve_content failing_env eager_input (SelfEvolutionAgent_init true)
    = (Ok (Success sr), w')
    /\ iterations_completed sr = 1%Z
    /\ max_iterations (config w') = 3%Z.
Proof. do 2 eexists. vm_compute. repeat split. Qed.

Lemma early_stop_reason_witness :
  exists sr w',
    evolve_content failing_env eager_input (SelfEvolutionAgent_init true)
    = (Ok (Success sr), w')
    /\ ((convergence_threshold (config w') <= final_score sr)%Q
        \/ fst (_detect_plateau w') = Ok true).
Proof.
  destruct eager_run_succeeds as (sr & w' & Hrun & Hic & Hmax).
  destruct (early_stop_reason failing_env eager_input
              (SelfEvolutionAgent_init true) w' sr Hrun)
    as (p & Hp & Hlow & Hstop).
  exists sr, w'. split; [exact Hrun|].
  apply Hstop. rewrite Hic, Hmax. reflexivity.
Defined.

(** The audit records that the loop appends are numbered from the loop
    counter on, and named after the evolution id. *)
Lemma evolution_loop_numbers E rr ts :
  forall remaining iteration bc bs w p r w',
    evolution_progress w = Some p ->
    evolution_loop E rr ts remaining iteration bc bs w = (r, w') ->
    exists its,
      evolution_history w' = (evolution_history w ++ its)%list
      /\ map iteration_number its
         = map (fun k => (iteration + Z.of_nat k)%Z)
             (seq 1 (List.length its))
      /\ Forall
           (fun it =>
              iteration_id it
              = match current_evolution w with
                | Some id => id
                | None => "None"
                end ++ "_iter_" ++ str_of_Z (iteration_number it))
           its.
Proof.
  induction remaining as [|remaining IH];
    intros iteration bc bs w p r w' Hp H.
  - simpl in H. inversion H; subst. exists []. rewrite app_nil_r.
    repeat split. constructor.
  - rewrite (evolution_loop_unfold _ _ _ _ _ _ _ _ _ Hp) in H.
    destruct (_execute_evolution_iteration E (iteration + 1) bc rr ts w)
      as [[res1|e] w1] eqn:Hit.
    2:{ apply execute_iteration_spec in Hit.
        destruct Hit as (_ & _ & _ & _ & Hh). inversion H; subst.
        exists []. rewrite app_nil_r. repeat split; [exact Hh | constructor]. }
    pose proof (execute_iteration_spec _ _ _ _ _ _ _ _ Hit)
      as (_ & _ & Hcur & _ & _).
    destruct (execute_iteration_record E (iteration + 1) bc rr ts
                (fun _ _ => True) (fun _ => True)
                (fun _ _ _ _ _ => I) (fun _ _ _ _ => I)
                (fun _ _ _ _ _ => I) w res1 w1 Hit)
      as (it & Hh1 & _ & _ & _ & _ & Hnum & _ & _ & _ & Hid).
    cbv zeta in H.
    set (bs1 := if Qltb bs (ir_best_score res1)
                then ir_best_score res1 else bs) in *.
    set (bc1 := if Qltb bs (ir_best_score res1)
                then ir_best_content res1 else bc) in *.
    set (w2 := with_evolution_progress (Some (progress_after p bs1)) w1) in *.
    assert (Hone : exists its,
              evolution_history w2 = (evolution_history w ++ its)%list
              /\ map iteration_number its
                 = map (fun k => (iteration + Z.of_nat k)%Z)
                     (seq 1 (List.length its))
              /\ Forall
                   (fun it0 =>
                      iteration_id it0
                      = match current_evolution w with
                        | Some id => id
                        | None => "None"
                        end ++ "_iter_" ++ str_of_Z (iteration_number it0))
                   its).
    { exists [it]. split; [exact Hh1|]. split.
      - simpl. rewrite Hnum. reflexivity.
      - constructor; [|constructor]. rewrite Hid, Hnum. reflexivity. }
    destruct (fst (_check_convergence E bs1 (iteration + 1) w2))
      as [[[|] reason]|e].
    + eapply IH in H; [|reflexivity].
      destruct H as (its & Hh & Hn & Hids).
      exists (it :: its). split; [|split].
      * rewrite Hh. change (evolution_history w2) with (evolution_history w1).
        rewrite Hh1, <- app_assoc. reflexivity.
      * cbn [map List.length seq]. rewrite Hnum, Hn. f_equal.
        rewrite <- (seq_shift (List.length its) 1), map_map.
        apply map_ext. intros k. lia.
      * constructor; [rewrite Hid, Hnum; reflexivity|].
        change (current_evolution w2) with (current_evolution w1) in Hids.
        rewrite Hcur in Hids. exact Hids.
    + inversion H; subst. exact Hone.
    + inversion H; subst. exact Hone.
Qed.

Lemma iteration_typed E n base rr ts w res w' :
  _execute_evolution_iteration E n base rr ts w = (Ok res, w') ->
  exists it,
    evolution_history w' = (evolution_history w ++ [it])%list
    /\ (List.length (critiques it) = 6%nat
        /\ Forall2
             (fun t r =>
                exists v,
                  nth_error (heap w') r = Some v /\ cv_variant_type v = t)
             all_VariantType (generated_variants it)).
Proof.
  intros H.
  destruct (execute_iteration_record E n base rr ts
              (fun t v => cv_variant_type v = t) (fun _ => True)) with
    (w := w) (res := res) (w' := w')
    as (it & Hh & _ & Hty & _ & Hlen & _); auto.
  - intros t w0 v w1 Hgen.
    apply generate_variant_shape in Hgen. apply Hgen.
  - exists it. auto.
Qed.

Lemma typed_kept w w' it :
  heap_frame [] w w' ->
  List.length (critiques it) = 6%nat
  /\ Forall2
       (fun t r =>
          exists v, nth_error (heap w) r = Some v /\ cv_variant_type v = t)
       all_VariantType (generated_variants it) ->
  List.length (critiques it) = 6%nat
  /\ Forall2
       (fun t r =>
          exists v, nth_error (heap w') r = Some v /\ cv_variant_type v = t)
       all_VariantType (generated_variants it).
Proof.
  intros Hf [Hlen Hty]. split; [exact Hlen|].
  eapply Forall2_impl; [|exact Hty].
  intros t r (v & Hv & Ht). exists v.
  split; [eapply heap_frame_untouched; eauto | exact Ht].
Qed.

(** X18.  The audit trail of a successful run: the history returned is
    the history the agent already held followed by one record for each
    completed iteration; these records are numbered 1, 2, ... in order
    and named after the evolution id of the run; and each holds six
    critiques and six variants, one of each variant type in the order of
    the enumeration. *)
Theorem audit_trail_shape (E : Env) (input : InputData) (w w' : World)
  (sr : SuccessResult) :
  evolve_content E input w = (Ok (Success sr), w') ->
  exists its,
    sr_evolution_history sr = (evolution_history w ++ its)%list
    /\ iterations_completed sr = Z.of_nat (List.length its)
    /\ map iteration_number its = map Z.of_nat (seq 1 (List.length its))
    /\ Forall
         (fun it =>
            iteration_id it
            = sr_evolution_id sr ++ "_iter_"
              ++ str_of_Z (iteration_number it)
            /\ List.length (critiques it) = 6%nat
            /\ Forall2
                 (fun t r =>
                    exists v,
                      nth_error (heap w') r = Some v
                      /\ cv_variant_type v = t)
                 all_VariantType (generated_variants it))
         its.
Proof.
  intros H.
  destruct (evolve_content_success E input w sr w' H)
    as (_ & _ & p & its & _ & _ & _ & _ & Hh & _ & _ & _ & Hic & Hsh & _).
  destruct (evolve_content_loop E input w sr w' H)
    as (c & ts & w0 & p0 & _ & _ & Hp0 & _ & _ & _ & Hcur & Hh0 & _ & Hloop).
  destruct (evolution_loop_numbers E _ _ _ _ _ _ _ _ _ _ Hp0 Hloop)
    as (its1 & Hh1 & Hnum & Hids).
  rewrite Hh0, Hh in Hh1. apply app_inv_head in Hh1. subst its1.
  pose proof (evolve_content_run E _ (fun _ _ => True) typed_kept
                (fun n base rr ts0 w1 res w2 _ H0 =>
                   iteration_typed E n base rr ts0 w1 res w2 H0)
                input (fun _ _ => I) w) as [_ (its2 & Hh2 & Hty)].
  rewrite H in Hh2, Hty. cbn [snd] in Hh2, Hty.
  rewrite Hh in Hh2. apply app_inv_head in Hh2. subst its2.
  exists its. split; [rewrite Hsh; exact Hh|]. split; [exact Hic|].
  split; [rewrite Hnum; apply map_ext; intros k; lia|].
  rewrite Hcur in Hids.
  rewrite Forall_forall in *. intros it Hin.
  split; [apply Hids, Hin | apply Hty, Hin].
Qed.

(** ** A valid input always succeeds *)

Lemma deref_all_total refs w :
  Forall (fun r => nth_error (heap w) r <> None) refs ->
  exists vs, deref_all refs w = (Ok vs, w).
Proof.
  induction 1 as [|r refs Hr _ (vs & IH)]; simpl; [eexists; reflexivity|].
  unfold bind at 1, deref.
  destruct (nth_error (heap w) r) as [v|]; [|congruence].
  unfold bind at 1. rewrite IH. eexists. reflexivity.
Qed.

Lemma merge_variants_total refs critiques w :
  Forall (fun r => nth_error (heap w) r <> None) refs ->
  exists merged, _merge_variants refs critiques w = (Ok merged, w).
Proof.
  intros H. destruct (deref_all_total refs w H) as (vs & Hvs).
  unfold _merge_variants, try_except, bind. rewrite Hvs.
  eexists. reflexivity.
Qed.

Lemma calculate_quality_improvement_total critiques w p :
  evolution_progress w = Some p ->
  exists q, _calculate_quality_improvement critiques w = (Ok q, w).
Proof.
  intros Hp. unfold _calculate_quality_improvement.
  destruct (map overall_score critiques) as [|s rest];
    [eexists; reflexivity|].
  unfold bind, get_progress, bind, get. rewrite Hp. unfold ret.
  destruct (rev (score_history p)); eexists; reflexivity.
Qed.

Lemma execute_iteration_total E n base rr ts w p :
  evolution_progress w = Some p ->
  exists res w', _execute_evolution_iteration E n base rr ts w = (Ok res, w').
Proof.
  intros Hp. unfold _execute_evolution_iteration.
  unfold bind at 1, datetime_now at 1. cbv beta iota.
  unfold bind at 1, get at 1. cbv beta iota.
  set (w0 := with_ticks (S (ticks w)) w).
  destruct (generate_variants_parallel_fresh E base rr ts w0)
    as (vs & wg & Hgen & Hhg & Hlen & Hag).
  unfold bind at 1. rewrite Hgen.
  destruct (evaluate_variants_spec E (seq (List.length (heap w0)) 6) ts rr wg)
    as (cs & we & Hev & Hall & _ & Hae).
  { apply seq_NoDup. }
  { rewrite Forall_forall. intros x Hx. apply in_seq in Hx.
    rewrite Hhg, length_app, Hlen. lia. }
  unfold bind at 1. rewrite Hev.
  destruct (merge_variants_total (seq (List.length (heap w0)) 6) cs we)
    as (merged & Hm).
  { clear -Hall. induction Hall as [|r c rs cs0 (v & _ & Hv & _) _ IH];
      constructor; [congruence | exact IH]. }
  unfold bind at 1. rewrite Hm.
  assert (Hpe : evolution_progress we = Some p).
  { destruct Hag as (_ & _ & _ & Hg & _).
    destruct Hae as (_ & _ & _ & He & _).
    rewrite He, Hg. exact Hp. }
  destruct (calculate_quality_improvement_total cs we p Hpe) as (q & Hq).
  unfold bind at 1. rewrite Hq.
  unfold bind, datetime_now, now_isoformat, bind, datetime_now, ret, modify.
  cbv beta iota. do 2 eexists. reflexivity.
Qed.

Lemma detect_plateau_total w p :
  evolution_progress w = Some p ->
  (0 <= plateau_detection_window (config w))%Z ->
  exists b, fst (_detect_plateau w) = Ok b.
Proof.
  intros Hp Hwin.
  unfold _detect_plateau, bind at 1, get_progress, bind at 1, get.
  rewrite Hp. unfold ret at 1.
  unfold bind at 1, get_config, bind at 1, get, ret at 1. cbv beta iota.
  destruct (_ <? _)%Z eqn:Hlen; [eexists; reflexivity|].
  apply Z.ltb_ge in Hlen.
  destruct (slice_from (- plateau_detection_window (config w))
              (score_history p)) as [|x xs] eqn:Hslice;
    [|eexists; reflexivity].
  exfalso.
  assert (Hl : List.length
                 (slice_from (- plateau_detection_window (config w))
                    (score_history p)) = 0%nat)
    by (rewrite Hslice; reflexivity).
  unfold slice_from in Hl. rewrite length_skipn in Hl.
  destruct (- plateau_detection_window (config w) <? 0)%Z eqn:Hneg.
  - apply Z.ltb_lt in Hneg. lia.
  - apply Z.ltb_ge in Hneg. lia.
Qed.

Lemma evolution_loop_total E rr ts :
  forall remaining iteration bc bs w p,
    evolution_progress w = Some p ->
    (0 <= plateau_detection_window (config w))%Z ->
    exists res w',
      evolution_loop E rr ts remaining iteration bc bs w = (Ok res, w').
Proof.
  induction remaining as [|remaining IH]; intros iteration bc bs w p Hp Hwin.
  - simpl. do 2 eexists. reflexivity.
  - rewrite (evolution_loop_unfold _ _ _ _ _ _ _ _ _ Hp).
    destruct (execute_iteration_total E (iteration + 1) bc rr ts w p Hp)
      as (res1 & w1 & Hit).
    rewrite Hit.
    apply execute_iteration_spec in Hit.
    destruct Hit as (_ & Hcfg1 & _ & _ & _).
    cbv zeta.
    set (bs1 := if Qltb bs (ir_best_score res1)
                then ir_best_score res1 else bs).
    set (bc1 := if Qltb bs (ir_best_score res1)
                then ir_best_content res1 else bc).
    set (w2 := with_evolution_progress (Some (progress_after p bs1)) w1).
    assert (Hcfg2 : config w2 = config w) by exact Hcfg1.
    rewrite check_convergence_value.
    destruct (max_iterations (config w2) <=? iteration + 1)%Z;
      [do 2 eexists; reflexivity|].
    destruct (Qle_bool (convergence_threshold (config w2)) bs1);
      [do 2 eexists; reflexivity|].
    destruct (detect_plateau_total w2 (progress_after p bs1) eq_refl)
      as ([|] & ->); [rewrite Hcfg2; exact Hwin | |].
    + do 2 eexists; reflexivity.
    + apply (IH _ _ _ w2 (progress_after p bs1) eq_refl).
      rewrite Hcfg2. exact Hwin.
Qed.

Lemma count_types_total refs :
  forall counts w,
    Forall (fun r => nth_error (heap w) r <> None) refs ->
    exists counts',
      for_each refs
        (fun variant counts =>
           v <- deref variant ;;
           let variant_type := VariantType_value (cv_variant_type v) in
           ret (dict_set variant_type
                  (match dict_get variant_type counts with
                   | Some n => n
                   | None => 0
                   end + 1)%Z
                  counts))
        counts w = (Ok counts', w).
Proof.
  induction refs as [|r refs IH]; intros counts w H; simpl.
  - eexists. reflexivity.
  - inversion H as [|? ? Hr Hrs]; subst.
    unfold bind at 1, bind at 1, deref.
    destruct (nth_error (heap w) r) as [v|]; [|congruence].
    cbv zeta. unfold ret at 1. apply IH. exact Hrs.
Qed.

Lemma compile_evolution_results_total E bc bs w p :
  evolution_progress w = Some p ->
  history_stored w ->
  exists fa, _compile_evolution_results E bc bs w = (Ok fa, w).
Proof.
  intros Hp Hst.
  unfold _compile_evolution_results, bind at 1, get_progress, bind at 1, get.
  rewrite Hp. unfold ret at 1. unfold bind at 1, get. cbv beta iota.
  destruct (count_types_total
              (flat_map generated_variants (evolution_history w)) [] w)
    as (counts & Hcounts).
  { apply Forall_flat_map_intro. intros it Hin.
    unfold history_stored in Hst. rewrite Forall_forall in Hst.
    apply Hst, Hin. }
  unfold bind at 1.
  match goal with
  | |- context [for_each ?l ?body ?s w] =>
      replace (for_each l body s w) with (@Ok (dict Z) counts, w)
        by (symmetry; exact Hcounts)
  end.
  unfold bind, get_config, bind, get, ret,
    _generate_evolution_recommendations, bind, get_config, bind, get, ret.
  eexists. reflexivity.
Qed.

Lemma stored_kept w w' it :
  heap_frame [] w w' ->
  Forall (fun r => nth_error (heap w) r <> None) (generated_variants it) ->
  Forall (fun r => nth_error (heap w') r <> None) (generated_variants it).
Proof.
  intros Hf. apply Forall_impl. intros r Hr.
  destruct (nth_error (heap w) r) as [v|] eqn:Hv; [|congruence].
  rewrite (heap_frame_untouched _ _ _ _ Hf Hv). discriminate.
Qed.

Lemma iteration_stored E n base rr ts w res w' :
  _execute_evolution_iteration E n base rr ts w = (Ok res, w') ->
  exists it,
    evolution_history w' = (evolution_history w ++ [it])%list
    /\ Forall (fun r => nth_error (heap w') r <> None) (generated_variants it).
Proof.
  intros H. destruct (iteration_typed E n base rr ts w res w' H)
    as (it & Hh & _ & Hty).
  exists it. split; [exact Hh|].
  clear -Hty. induction Hty as [|t r ts0 rs (v & Hv & _) _ IH];
    constructor; [congruence | exact IH].
Qed.

Lemma history_stored_run (w w' : World) :
  run_frame
    (fun w0 it =>
       Forall (fun r => nth_error (heap w0) r <> None) (generated_variants it))
    w w' ->
  history_stored w -> history_stored w'.
Proof.
  intros [Hf (its & Hh & Hits)] Hst. unfold history_stored in *.
  rewrite Hh. apply Forall_app. split; [|exact Hits].
  eapply Forall_impl; [|exact Hst]. intros it. apply stored_kept. exact Hf.
Qed.

(** The run of a valid input returns a success result, and keeps the
    history of the agent stored. *)
Lemma evolve_content_valid_succeeds E input w c ts :
  in_content input = Some c -> c <> "" ->
  in_target_section input = Some ts ->
  (0 <= plateau_detection_window
          (match in_config input with
           | Some custom => config_update custom (config w)
           | None => config w
           end))%Z ->
  history_stored w ->
  exists sr w',
    evolve_content E input w = (Ok (Success sr), w')
    /\ history_stored w'.
Proof.
  intros Hc Hne Hts Hwin Hst.
  pose proof (evolve_content_run E _ (fun _ _ => True) stored_kept
                (fun n base rr ts0 w1 res w2 _ H0 =>
                   iteration_stored E n base rr ts0 w1 res w2 H0)
                input (fun _ _ => I) w) as Hrun.
  rewrite evolve_content_unfold in *. cbv zeta in *.
  rewrite (evolve_content_body_unfold _ _ _ _ _ _ Hc Hne Hts) in *.
  cbv zeta in *.
  match goal with
  | |- context [evolution_loop E ?rr ts ?n 0 c ?s0 ?w3] =>
      set (w0 := w3) in *;
      destruct (evolution_loop_total E rr ts n 0%Z c s0 w0 _ eq_refl)
        as ([bc bs] & w4 & Hloop)
  end.
  { unfold w0. destruct (in_config input); exact Hwin. }
  rewrite Hloop in *.
  destruct (evolution_loop_spec E _ _ _ _ _ _ w0 _ _ w4 eq_refl Hloop)
    as (p' & its & Hp' & _).
  assert (Hst0 : history_stored w0)
    by (unfold w0; destruct (in_config input); exact Hst).
  destruct (_compile_evolution_results E bc bs w4) as [[fa|e] w5] eqn:Hcomp.
  - pose proof (compile_evolution_results_pure E bc bs w4) as Hpure.
    rewrite Hcomp in Hpure. simpl in Hpure. subst w5.
    rewrite Hp' in *. do 2 eexists. split; [reflexivity|].
    cbn [snd] in Hrun. exact (history_stored_run _ _ Hrun Hst).
  - exfalso.
    assert (Hst4 : history_stored w4).
    { pose proof (evolution_loop_run E _ (fun _ _ => True) stored_kept
                    (fun n base rr ts0 w1 res w2 _ H0 =>
                       iteration_stored E n base rr ts0 w1 res w2 H0)
                    (match in_research_results input with
                     | Some r => r
                     | None => []
                     end) ts (Z.to_nat (max_iterations (config w0))) I
                    0%Z c 0.0%Q w0) as Hl.
      unfold w0 in Hl at 2.
      match type of Hl with
      | run_frame _ _ (snd ?x) =>
          match type of Hloop with
          | ?y = _ => change x with y in Hl
          end
      end.
      rewrite Hloop in Hl. exact (history_stored_run _ _ Hl Hst0). }
    destruct (compile_evolution_results_total E bc bs w4 p' Hp' Hst4)
      as (fa & Hfa).
    congruence.
Qed.

(** The configuration that a run leaves in the agent. *)
Lemma evolve_content_config E input w :
  config (snd (evolve_content E input w))
  = match in_content input, in_target_section input, in_config input with
    | Some (String _ _), Some _, Some custom =>
        config_update custom (config w)
    | _, _, _ => config w
    end.
Proof.
  rewrite evolve_content_unfold. cbv zeta.
  set (id := md5_prefix E 12 _).
  set (w1 := with_ticks (S (ticks w)) w).
  assert (Hbody :
    config (snd (evolve_content_body E id input w1))
    = match in_content input, in_target_section input, in_config input with
      | Some (String _ _), Some _, Some custom =>
          config_update custom (config w)
      | _, _, _ => config w
      end).
  { destruct (in_content input) as [[|a c]|] eqn:Hc;
      try (rewrite evolve_content_body_invalid by auto; reflexivity).
    destruct (in_target_section input) as [ts|] eqn:Hts;
      try (rewrite evolve_content_body_invalid by auto; reflexivity).
    rewrite (evolve_content_body_unfold _ _ _ _ _ _ Hc ltac:(discriminate)
               Hts).
    cbv zeta.
    match goal with
    | |- context [evolution_loop E ?rr ts ?n 0 ?c0 ?s0 ?w3] =>
        destruct (evolution_loop E rr ts n 0 c0 s0 w3) as [r w4] eqn:Hloop;
        destruct (evolution_loop_spec E _ _ _ _ _ _ w3 _ _ w4 eq_refl Hloop)
          as (_ & _ & _ & _ & Hcfg & _)
    end.
    assert (Hcfg4 :
      config w4
      = match in_config input with
        | Some custom => config_update custom (config w)
        | None => config w
        end)
      by (rewrite Hcfg; destruct (in_config input); reflexivity).
    destruct r as [[bc bs]|e]; [|exact Hcfg4].
    pose proof (compile_evolution_results_pure E bc bs w4) as Hpure.
    destruct (_compile_evolution_results E bc bs w4) as [[fa|e] w5];
      simpl in Hpure; subst w5; [|exact Hcfg4].
    destruct (evolution_progress w4); exact Hcfg4. }
  destruct (evolve_content_body E id input w1) as [[o|e] w2];
    exact Hbody.
Qed.

(** A run of the engine on the demonstration input, with the strategies
    of the source: it succeeds, and leaves audit records. *)
Lemma demo_run_succeeds :
  exists sr w',
    evolve_content source_env (demo_input 2) (SelfEvolutionAgent_init true)
    = (Ok (Success sr), w')
    /\ sr_evolution_history sr <> [].
Proof.
  destruct (evolve_content_valid_succeeds source_env (demo_input 2)
              (SelfEvolutionAgent_init true) demo_content demo_section)
    as (sr & w' & Hrun & _);
    [reflexivity | discriminate | reflexivity | simpl; lia | constructor |].
  exists sr, w'. split; [exact Hrun|].
  pose proof (evolve_content_config source_env (demo_input 2)
                (SelfEvolutionAgent_init true)) as Hcfg.
  rewrite Hrun in Hcfg. cbn [snd] in Hcfg.
  assert (Hmax : max_iterations (config w') = 2%Z)
    by (rewrite Hcfg; reflexivity).
  destruct (evolve_content_success _ _ _ _ _ Hrun)
    as (_ & _ & _ & _ & _ & _ & _ & _ & _ & _ & _ & _ & _ & Hsh & _).
  destruct (evolve_content_loop _ _ _ _ _ Hrun)
    as (c & ts & w0 & p0 & _ & _ & Hp0 & _ & _ & _ & _ & Hh0 & _ & Hloop).
  rewrite Hmax in Hloop.
  destruct (evolution_loop_spec _ _ _ _ _ _ _ _ _ _ _ Hp0 Hloop)
    as (p' & its & _ & Hh & _ & _ & _ & _ & _ & _ & Hres).
  destruct (Hres _ eq_refl) as [_ Hne].
  rewrite Hsh, Hh, Hh0. cbn [evolution_history SelfEvolutionAgent_init app].
  apply Hne. discriminate.
Qed.

(** X19.  A valid input always succeeds: when the content is not empty,
    a target section is given and the plateau window in force is not
    negative, [evolve_content] returns a success result, whatever the
    generation oracle and the judge do and whatever the target section
    holds.  (The agent is supposed well-formed: the variants its history
    refers to are stored; a run keeps it so.) *)
Theorem evolve_content_succeeds (E : Env) (input : InputData) (w : World)
  (c : string) (ts : Section) :
  in_content input = Some c -> c <> "" ->
  in_target_section input = Some ts ->
  (0 <= plateau_detection_window
          (match in_config input with
           | Some custom => config_update custom (config w)
           | None => config w
           end))%Z ->
  history_stored w ->
  exists sr w',
    evolve_content E input w = (Ok (Success sr), w')
    /\ history_stored w'.
Proof. apply evolve_content_valid_succeeds. Qed.

Lemma evolve_content_succeeds_witness :
  exists sr w',
    evolve_content failing_env
      {| in_content := Some demo_content; in_research_results := None;
         in_target_section := Some malformed_section; in_config := None |}
      (SelfEvolutionAgent_init false)
    = (Ok (Success sr), w').
Proof.
  destruct (evolve_content_succeeds failing_env
              {| in_content := Some demo_content; in_research_results := None;
                 in_target_section := Some malformed_section;
                 in_config := None |}
              (SelfEvolutionAgent_init false) demo_content malformed_section)
    as (sr & w' & Hrun & _).
  - reflexivity.
  - discriminate.
  - reflexivity.
  - simpl. lia.
  - constructor.
  - exists sr, w'. exact Hrun.
Defined.

Lemma final_score_bounds_witness :
  exists sr w',
    evolve_content source_env (demo_input 2) (SelfEvolutionAgent_init true)
    = (Ok (Success sr), w')
    /\ (0 <= improvement_achieved sr <= 4.0)%Q.
Proof.
  destruct demo_run_succeeds as (sr & w' & Hrun & _).
  exists sr, w'. split; [exact Hrun|].
  apply (final_score_bounds source_env (demo_input 2)
           (SelfEvolutionAgent_init true) w' sr Hrun).
Defined.

Lemma audit_trail_shape_witness :
  exists sr w' its,
    evolve_content source_env (demo_input 2) (SelfEvolutionAgent_init true)
    = (Ok (Success sr), w')
    /\ sr_evolution_history sr = its
    /\ map iteration_number its = map Z.of_nat (seq 1 (List.length its)).
Proof.
  destruct demo_run_succeeds as (sr & w' & Hrun & _).
  destruct (audit_trail_shape source_env (demo_input 2)
              (SelfEvolutionAgent_init true) w' sr Hrun)
    as (its & Hh & _ & Hnum & _).
  exists sr, w', its. auto.
Defined.

(** ** The final analysis of a run *)

Lemma for_each_app {A S} (body : A -> S -> M S) xs ys :
  forall s w s1 w1,
    for_each xs body s w = (Ok s1, w1) ->
    for_each (xs ++ ys) body s w = for_each ys body s1 w1.
Proof.
  induction xs as [|x xs IH]; intros s w s1 w1 H; simpl in *.
  - unfold ret in H. inversion H; subst. reflexivity.
  - unfold bind in *. destruct (body x s w) as [[s0|e] w0]; [|discriminate].
    eapply IH. exact H.
Qed.

Lemma count_types_cons w r v refs counts :
  nth_error (heap w) r = Some v ->
  count_types (r :: refs) counts w
  = count_types refs
      (dict_set (VariantType_value (cv_variant_type v))
         (match dict_get (VariantType_value (cv_variant_type v)) counts with
          | Some n => n
          | None => 0
          end + 1)%Z
         counts) w.
Proof.
  intros H. unfold count_types. cbn [for_each]. unfold bind at 1.
  unfold bind at 1, deref. rewrite H. reflexivity.
Qed.

Lemma count_block w refs counts k :
  Forall2
    (fun t r =>
       exists v, nth_error (heap w) r = Some v /\ cv_variant_type v = t)
    all_VariantType refs ->
  (counts = [] /\ k = 0%Z) \/ counts = even_distribution k ->
  count_types refs counts w = (Ok (even_distribution (k + 1)), w).
Proof.
  unfold all_VariantType. intros Hty Hc.
  repeat match goal with
         | H : Forall2 _ _ _ |- _ => inversion H; subst; clear H
         end.
  repeat match goal with
         | H : exists _, _ |- _ => destruct H as (? & ? & ?)
         end.
  repeat match goal with
         | H : nth_error (heap w) ?r = Some ?v,
           T : cv_variant_type ?v = _ |- _ =>
             rewrite (count_types_cons w r v _ _ H), T; clear H T
         end.
  destruct Hc as [[-> ->] | ->]; reflexivity.
Qed.

Lemma count_history w its :
  forall counts k,
    Forall
      (fun it =>
         Forall2
           (fun t r =>
              exists v, nth_error (heap w) r = Some v /\ cv_variant_type v = t)
           all_VariantType (generated_variants it))
      its ->
    (counts = [] /\ k = 0%Z) \/ counts = even_distribution k ->
    count_types (flat_map generated_variants its) counts w
    = (Ok match its with
          | [] => counts
          | _ :: _ => even_distribution (k + Z.of_nat (List.length its))
          end, w).
Proof.
  induction its as [|it its IH]; intros counts k Hty Hc; [reflexivity|].
  inversion Hty as [|? ? Hit Hits]; subst.
  cbn [flat_map]. unfold count_types.
  rewrite (for_each_app _ _ _ _ _ _ _ (count_block w _ counts k Hit Hc)).
  change (count_types (flat_map generated_variants its)
            (even_distribution (k + 1)) w = 
          (Ok (even_distribution (k + Z.of_nat (List.length (it :: its)))),
           w)).
  rewrite (IH (even_distribution (k + 1)) (k + 1)%Z Hits (or_intror eq_refl)).
  destruct its as [|it' its].
  - replace (k + Z.of_nat (List.length [it]))%Z with (k + 1)%Z
      by (cbn [List.length]; lia).
    reflexivity.
  - replace (k + Z.of_nat (List.length (it :: it' :: its)))%Z
      with (k + 1 + Z.of_nat (List.length (it' :: its)))%Z
      by (cbn [List.length]; lia).
    reflexivity.
Qed.

Lemma Qltb_irrefl x : Qltb x x = false.
Proof. apply Qltb_ge. apply Qle_refl. Qed.

Lemma most_effective_even n :
  match even_distribution n with
  | [] => None
  | kv :: kvs => Some (fst (max_by (fun kv => inject_Z (snd kv)) kv kvs))
  end = Some "perspective_shift".
Proof.
  unfold even_distribution, all_VariantType, max_by.
  cbn [map fold_left snd]. rewrite !Qltb_irrefl. reflexivity.
Qed.

Lemma total_variants_six its :
  Forall (fun it => List.length (generated_variants it) = 6%nat) its ->
  forall acc,
    fold_left Z.add
      (map (fun it => Z.of_nat (List.length (generated_variants it))) its) acc
    = (acc + 6 * Z.of_nat (List.length its))%Z.
Proof.
  induction 1 as [|it its Hit _ IH]; intros acc; simpl fold_left.
  - simpl. lia.
  - rewrite IH, Hit. simpl List.length. lia.
Qed.

Lemma variants_typed_kept w w' (refs : list ref) :
  heap_frame [] w w' ->
  Forall2
    (fun t r =>
       exists v, nth_error (heap w) r = Some v /\ cv_variant_type v = t)
    all_VariantType refs ->
  Forall2
    (fun t r =>
       exists v, nth_error (heap w') r = Some v /\ cv_variant_type v = t)
    all_VariantType refs.
Proof.
  intros Hf. apply Forall2_impl.
  intros t r (v & Hv & Ht). exists v.
  split; [eapply heap_frame_untouched; eauto | exact Ht].
Qed.

(** A run keeps the history of the agent well typed. *)
Lemma history_typed_run E input w :
  history_typed w -> history_typed (snd (evolve_content E input w)).
Proof.
  intros Hty.
  pose proof (evolve_content_run E _ (fun _ _ => True) typed_kept
                (fun n base rr ts0 w1 res w2 _ H0 =>
                   iteration_typed E n base rr ts0 w1 res w2 H0)
                input (fun _ _ => I) w) as [Hf (its & Hh & Hits)].
  unfold history_typed. rewrite Hh. apply Forall_app. split.
  - eapply Forall_impl; [|exact Hty].
    intros it. apply variants_typed_kept. exact Hf.
  - eapply Forall_impl; [|exact Hits]. intros it [_ H]. exact H.
Qed.

(** X20.  The variant analysis of a successful run counts the whole
    history of the agent, and is the same for every run of that length:
    with [n] records in the history returned, [6 n] variants were
    generated, [n] of each type, and the most effective type reported is
    the first of the enumeration, "perspective_shift" (nothing when the
    history is empty). *)
Theorem variant_analysis_even (E : Env) (input : InputData) (w w' : World)
  (sr : SuccessResult) :
  history_typed w ->
  evolve_content E input w = (Ok (Success sr), w') ->
  variant_analysis (final_analysis sr)
  = match sr_evolution_history sr with
    | [] =>
        {| total_variants_generated := 0;
           variant_type_distribution := [];
           most_effective_type := None |}
    | _ :: _ =>
        {| total_variants_generated :=
             6 * Z.of_nat (List.length (sr_evolution_history sr));
           variant_type_distribution :=
             even_distribution
               (Z.of_nat (List.length (sr_evolution_history sr)));
           most_effective_type := Some "perspective_shift" |}
    end.
Proof.
  intros Hty H.
  pose proof (history_typed_run E input w Hty) as Hty'.
  rewrite H in Hty'. cbn [snd] in Hty'.
  destruct (evolve_content_success E input w sr w' H)
    as (_ & _ & _ & _ & _ & _ & _ & _ & _ & _ & _ & _ & _ & Hsh & _ & Hcomp).
  destruct (compile_evolution_results_spec E _ _ _ _ _ Hcomp)
    as (_ & p & counts & _ & Hcounts & _ & Hva & _).
  rewrite Hva, Hsh. unfold history_typed in Hty'.
  pose proof (count_history w' (evolution_history w') [] 0%Z Hty'
                (or_introl (conj eq_refl eq_refl))) as Hc.
  pose proof (eq_trans (eq_sym Hcounts) Hc) as Heq. clear Hc Hcounts.
  assert (Hsix : Forall
                   (fun it => List.length (generated_variants it) = 6%nat)
                   (evolution_history w')).
  { eapply Forall_impl; [|exact Hty'].
    intros it Hit. apply Forall2_length in Hit. symmetry. exact Hit. }
  rewrite (total_variants_six _ Hsix).
  destruct (evolution_history w') as [|it its] eqn:Hh.
  - inversion Heq; subst. reflexivity.
  - inversion Heq; subst counts. rewrite most_effective_even.
    reflexivity.
Qed.

Lemma variant_analysis_even_witness :
  exists sr w',
    evolve_content source_env (demo_input 2) (SelfEvolutionAgent_init true)
    = (Ok (Success sr), w')
    /\ most_effective_type (variant_analysis (final_analysis sr))
       = Some "perspective_shift".
Proof.
  destruct demo_run_succeeds as (sr & w' & Hrun & Hne).
  exists sr, w'. split; [exact Hrun|].
  rewrite (variant_analysis_even source_env (demo_input 2)
             (SelfEvolutionAgent_init true) w' sr (Forall_nil _) Hrun).
  destruct (sr_evolution_history sr); [contradiction | reflexivity].
Defined.

(** ** What a run reports about its history *)

Lemma sorted_le_last (xs : list Q) d :
  StronglySorted Qle xs -> Forall (fun y => (y <= last xs d)%Q) xs.
Proof.
  induction 1 as [|x xs Hs IH Hall]; [constructor|].
  destruct xs as [|y ys]; [constructor; [apply Qle_refl | constructor]|].
  constructor.
  - pose proof (StronglySorted_hd_last (x :: y :: ys) d
                  (SSorted_cons x Hs Hall)) as H.
    exact H.
  - exact IH.
Qed.

Lemma max_of_In x xs : In (max_of x xs) (x :: xs).
Proof.
  unfold max_of. revert x. induction xs as [|y xs IH]; intros x; simpl.
  - left. reflexivity.
  - destruct (IH (py_max x y)) as [H | H].
    + unfold py_max in H at 1. destruct (Qltb x y); auto.
    + auto.
Qed.

(** The maximum of a sorted series is its last entry. *)
Lemma max_of_sorted x xs d :
  StronglySorted Qle (x :: xs) -> (max_of x xs == last (x :: xs) d)%Q.
Proof.
  intros Hs. apply Qle_antisym.
  - pose proof (sorted_le_last (x :: xs) d Hs) as Hall.
    rewrite Forall_forall in Hall. apply Hall, max_of_In.
  - destruct (max_of_upper x xs) as [Hx Hall].
    assert (Hin : In (last (x :: xs) d) (x :: xs)).
    { destruct (exists_last (l := x :: xs) ltac:(discriminate))
        as (l' & a & Heq).
      rewrite Heq, last_last. apply in_or_app. right. left. reflexivity. }
    destruct Hin as [<- | Hin]; [exact Hx|].
    rewrite Forall_forall in Hall. apply Hall, Hin.
Qed.

(** X21.  The final analysis of a successful run against the result it
    comes with: the total number of iterations counts the whole history
    of the agent, the records it held before the run included; the final
    score and the total improvement are those of the result; the score
    trajectory has one entry per completed iteration, ends at the final
    score, and its peak is the final score. *)
Theorem final_analysis_accounting (E : Env) (input : InputData)
  (w w' : World) (sr : SuccessResult) :
  evolve_content E input w = (Ok (Success sr), w') ->
  es_total_iterations (evolution_summary (final_analysis sr))
  = (Z.of_nat (List.length (evolution_history w))
     + iterations_completed sr)%Z
  /\ es_final_score (evolution_summary (final_analysis sr)) = final_score sr
  /\ es_total_improvement (evolution_summary (final_analysis sr))
     = improvement_achieved sr
  /\ Z.of_nat
       (List.length (qt_score_history (quality_trajectory (final_analysis sr))))
     = iterations_completed sr
  /\ (qt_final_score (quality_trajectory (final_analysis sr))
      == final_score sr)%Q
  /\ (peak_score (quality_trajectory (final_analysis sr))
      == final_score sr)%Q.
Proof.
  intros H.
  destruct (evolve_content_success E input w sr w' H)
    as (_ & _ & p & its & _ & _ & _ & Hp & Hh & Hs & _ & Hf & Hic & _
        & Himp & Hcomp).
  destruct (compile_evolution_results_spec E _ _ _ _ _ Hcomp)
    as (_ & p' & counts & Hp' & _ & Hes & _ & Hqt).
  rewrite Hp in Hp'. inversion Hp'; subst p'. clear Hp'.
  rewrite Hes, Hqt.
  cbn [es_total_iterations es_final_score es_total_improvement
       qt_score_history qt_final_score peak_score].
  split; [rewrite Hh, length_app, Hic; lia|].
  split; [reflexivity|]. split; [symmetry; exact Himp|].
  split; [rewrite Hs, running_best_length, length_map, Hic; reflexivity|].
  rewrite Hf.
  split.
  { destruct (score_history p) as [|x xs]; [reflexivity|].
    rewrite (last_cons_default x xs 0%Q 0.0%Q). reflexivity. }
  assert (Hsorted : StronglySorted Qle (0.0%Q :: score_history p))
    by (rewrite Hs; apply running_best_strongly_sorted).
  destruct (score_history p) as [|x xs]; [reflexivity|].
  inversion Hsorted; subst. apply max_of_sorted. assumption.
Qed.

Lemma final_analysis_accounting_witness :
  exists sr w',
    evolve_content source_env (demo_input 2) (SelfEvolutionAgent_init true)
    = (Ok (Success sr), w')
    /\ es_total_iterations (evolution_summary (final_analysis sr))
       = iterations_completed sr
    /\ (peak_score (quality_trajectory (final_analysis sr))
        == final_score sr)%Q.
Proof.
  destruct demo_run_succeeds as (sr & w' & Hrun & _).
  exists sr, w'. split; [exact Hrun|].
  destruct (final_analysis_accounting source_env (demo_input 2)
              (SelfEvolutionAgent_init true) w' sr Hrun)
    as (Hn & _ & _ & _ & _ & Hpeak).
  split; [exact Hn | exact Hpeak].
Defined.

(** ** The configuration after a run *)

(** X22.  [evolve_content] never restores the configuration: when the
    input passes validation and carries a custom configuration, the agent
    keeps the overrides after the run, whether the run ends in a success
    or in an error result; in every other case the configuration is the
    one the agent had. *)
Theorem config_after_run (E : Env) (input : InputData) (w : World) :
  config (snd (evolve_content E input w))
  = match in_content input, in_target_section input, in_config input with
    | Some (String _ _), Some _, Some custom =>
        config_update custom (config w)
    | _, _, _ => config w
    end.
Proof. apply evolve_content_config. Qed.

(** ** The improvement recorded for an iteration *)

Lemma rev_head_last {A} (l : list A) d :
  match rev l with
  | x :: _ => x
  | [] => d
  end = last l d.
Proof.
  destruct l as [|a l] using rev_ind; [reflexivity|].
  rewrite rev_unit, last_last. reflexivity.
Qed.

Lemma calculate_quality_improvement_value critiques w p :
  evolution_progress w = Some p ->
  critiques <> [] ->
  _calculate_quality_improvement critiques w
  = (Ok (match map overall_score critiques with
         | [] => 0.0
         | s :: rest => max_of s rest
         end - last (score_history p) 3.0)%Q, w).
Proof.
  intros Hp Hne. unfold _calculate_quality_improvement.
  destruct critiques as [|c cs]; [congruence|]. cbn [map].
  unfold bind, get_progress, bind, get. rewrite Hp. unfold ret.
  rewrite <- (rev_head_last (score_history p) 3.0%Q).
  destruct (rev (score_history p)); reflexivity.
Qed.

(** The record of one iteration: its improvement is its best score less
    the last entry of the score history, 3.0 when there is none. *)
Lemma iteration_quality_improvement E n base rr ts w res w' p :
  evolution_progress w = Some p ->
  _execute_evolution_iteration E n base rr ts w = (Ok res, w') ->
  exists it,
    evolution_history w' = (evolution_history w ++ [it])%list
    /\ iteration_best it = ir_best_score res
    /\ quality_improvement it
       = (iteration_best it - last (score_history p) 3.0)%Q
    /\ convergence_metrics it = _calculate_convergence_metrics (critiques it)
    /\ ir_iteration_metrics res = convergence_metrics it.
Proof.
  intros Hp H. unfold _execute_evolution_iteration in H.
  unfold bind at 1, datetime_now at 1 in H. cbv beta iota in H.
  unfold bind at 1, get at 1 in H. cbv beta iota in H.
  set (w0 := with_ticks (S (ticks w)) w) in *.
  destruct (generate_variants_parallel_fresh E base rr ts w0)
    as (vs & wg & Hgen & Hhg & Hlen & Hag).
  unfold bind at 1 in H. rewrite Hgen in H.
  destruct (evaluate_variants_spec E (seq (List.length (heap w0)) 6) ts rr wg)
    as (cs & we & Hev & Hall & _ & Hae).
  { apply seq_NoDup. }
  { rewrite Forall_forall. intros x Hx. apply in_seq in Hx.
    rewrite Hhg, length_app, Hlen. lia. }
  unfold bind at 1 in H. rewrite Hev in H.
  destruct (merge_variants_total (seq (List.length (heap w0)) 6) cs we)
    as (merged & Hm).
  { clear -Hall. induction Hall as [|r c rs cs0 (v & _ & Hv & _) _ IH];
      constructor; [congruence | exact IH]. }
  unfold bind at 1 in H. rewrite Hm in H.
  assert (Hpe : evolution_progress we = Some p).
  { destruct Hag as (_ & _ & _ & Hg & _).
    destruct Hae as (_ & _ & _ & He & _).
    rewrite He, Hg. exact Hp. }
  assert (Hne : cs <> []).
  { apply Forall2_length in Hall. rewrite length_seq in Hall.
    destruct cs; [discriminate Hall | discriminate]. }
  unfold bind at 1 in H.
  rewrite (calculate_quality_improvement_value cs we p Hpe Hne) in H.
  unfold bind, datetime_now, now_isoformat, bind, datetime_now, ret, modify
    in H.
  cbv beta iota in H.
  assert (Hhist : evolution_history we = evolution_history w).
  { destruct Hag as (_ & _ & _ & _ & Hg).
    destruct Hae as (_ & _ & _ & _ & He).
    rewrite He, Hg. reflexivity. }
  injection H as Hres Hw. subst res w'.
  eexists. split.
  { cbn [evolution_history with_evolution_history]. rewrite Hhist.
    reflexivity. }
  repeat split.
Qed.

Lemma evolution_loop_improvements E rr ts :
  forall remaining iteration bc bs w p r w',
    evolution_progress w = Some p ->
    evolution_loop E rr ts remaining iteration bc bs w = (r, w') ->
    exists its,
      evolution_history w' = (evolution_history w ++ its)%list
      /\ map quality_improvement its
         = zip_with Qminus (map iteration_best its)
             (last (score_history p) 3.0%Q
              :: running_best bs (map iteration_best its)).
Proof.
  induction remaining as [|remaining IH];
    intros iteration bc bs w p r w' Hp H.
  - simpl in H. inversion H; subst. exists []. rewrite app_nil_r.
    split; reflexivity.
  - rewrite (evolution_loop_unfold _ _ _ _ _ _ _ _ _ Hp) in H.
    destruct (_execute_evolution_iteration E (iteration + 1) bc rr ts w)
      as [[res1|e] w1] eqn:Hit.
    2:{ apply execute_iteration_spec in Hit.
        destruct Hit as (_ & _ & _ & _ & Hh). inversion H; subst.
        exists []. rewrite app_nil_r. split; [exact Hh | reflexivity]. }
    destruct (iteration_quality_improvement E _ _ _ _ _ _ _ _ Hp Hit)
      as (it & Hh1 & Hbest & Hq & _).
    cbv zeta in H.
    set (bs1 := if Qltb bs (ir_best_score res1)
                then ir_best_score res1 else bs) in *.
    set (bc1 := if Qltb bs (ir_best_score res1)
                then ir_best_content res1 else bc) in *.
    set (w2 := with_evolution_progress (Some (progress_after p bs1)) w1) in *.
    assert (Hone : exists its,
              evolution_history w2 = (evolution_history w ++ its)%list
              /\ map quality_improvement its
                 = zip_with Qminus (map iteration_best its)
                     (last (score_history p) 3.0%Q
                      :: running_best bs (map iteration_best its))).
    { exists [it]. split; [exact Hh1|].
      unfold zip_with. cbn [map combine running_best fst snd].
      rewrite Hq. reflexivity. }
    destruct (fst (_check_convergence E bs1 (iteration + 1) w2))
      as [[[|] reason]|e].
    + eapply IH in H; [|reflexivity].
      destruct H as (its & Hh & Hqs).
      exists (it :: its). split.
      * rewrite Hh. change (evolution_history w2) with (evolution_history w1).
        rewrite Hh1, <- app_assoc. reflexivity.
      * cbn [score_history progress_after] in Hqs.
        rewrite last_last in Hqs.
        unfold zip_with in *. cbn [map combine running_best fst snd].
        rewrite Hq, Hbest. fold bs1. rewrite Hqs. reflexivity.
    + inversion H; subst. exact Hone.
    + inversion H; subst. exact Hone.
Qed.

(** X23.  The improvement recorded for each iteration of a successful
    run: for the first iteration it is the iteration's best score less
    the baseline 3.0, for each later one the iteration's best score less
    the best score of the run so far (so it is negative when an iteration
    falls short of the best, while the score history never decreases). *)
Theorem quality_improvement_trail (E : Env) (input : InputData)
  (w w' : World) (sr : SuccessResult) :
  evolve_content E input w = (Ok (Success sr), w') ->
  exists its,
    sr_evolution_history sr = (evolution_history w ++ its)%list
    /\ iterations_completed sr = Z.of_nat (List.length its)
    /\ map quality_improvement its
       = zip_with Qminus (map iteration_best its)
           (3.0%Q :: running_best 0.0%Q (map iteration_best its)).
Proof.
  intros H.
  destruct (evolve_content_success E input w sr w' H)
    as (_ & _ & p & its & _ & _ & _ & _ & Hh & _ & _ & _ & Hic & Hsh & _).
  destruct (evolve_content_loop E input w sr w' H)
    as (c & ts & w0 & p0 & _ & _ & Hp0 & Hs0 & _ & _ & _ & Hh0 & _ & Hloop).
  destruct (evolution_loop_improvements E _ _ _ _ _ _ _ _ _ _ Hp0 Hloop)
    as (its1 & Hh1 & Hq).
  rewrite Hh0, Hh in Hh1. apply app_inv_head in Hh1. subst its1.
  rewrite Hs0 in Hq. cbn [last] in Hq.
  exists its. split; [rewrite Hsh; exact Hh|]. split; [exact Hic | exact Hq].
Qed.

Lemma quality_improvement_trail_witness :
  exists sr w',
    evolve_content source_env (demo_input 2) (SelfEvolutionAgent_init true)
    = (Ok (Success sr), w')
    /\ exists its,
         sr_evolution_history sr = its
         /\ map quality_improvement its
            = zip_with Qminus (map iteration_best its)
                (3.0%Q :: running_best 0.0%Q (map iteration_best its)).
Proof.
  destruct demo_run_succeeds as (sr & w' & Hrun & _).
  exists sr, w'. split; [exact Hrun|].
  destruct (quality_improvement_trail source_env (demo_input 2)
              (SelfEvolutionAgent_init true) w' sr Hrun)
    as (its & Hh & _ & Hq).
  exists its. split; [exact Hh | exact Hq].
Defined.
